(** * product_loans: loan tracking ledger, loan transfer state machine,
      valuation tracker and resolution wizard

    A shallow embedding of the Odoo module [product_loans]
    ([models/loan_tracking_detail.py], [models/stock_picking.py],
    [wizard/loan_resolution_wizard.py]) and the properties of its
    specification.

    Conventions of the embedding.
    - A database table is the list of its rows in creation (id) order; a
      [search] filters the table and sorts the result by the model's
      [_order].
    - A method that reads and mutates records is a computation in the
      state-and-exception monad [M]: when it raises, the state reached
      so far is kept next to the exception (undoing it is the job of the
      enclosing transaction, which is outside the module).
    - [Float] fields (quantities, prices, costs) are rationals [Q], a
      rational standing for the float nearest to it; what the code
      adds, subtracts, multiplies or divides is rounded as Python
      rounds it (see [float]).  [Datetime] values are seconds and
      [Date] values are days, both [Z].
    - A [Many2one] that may be empty is an [option] of the row id.
    - An f-string prints a date or a datetime as its number ([pretty])
      and a float as a fraction. *)

From Stdlib Require Import ZArith QArith Qabs Ascii String List Lia Lqa.
From Stdlib Require Import Sorted Permutation.
From stdpp Require Import base option list strings pretty gmap.

Local Open Scope string_scope.
Local Open Scope Z_scope.

(** ** Exceptions and the state-and-exception monad *)

Inductive exn :=
| UserError (msg : string)
| ValidationError (msg : string)
| ValueError (msg : string)
| ZeroDivisionError (msg : string).

(** [str(e)] of these exception classes is their message. *)
Definition str (e : exn) : string :=
  match e with
  | UserError m | ValidationError m | ValueError m | ZeroDivisionError m => m
  end.

Inductive outcome (A : Type) :=
| Ok (a : A)
| Raise (e : exn).
Arguments Ok {A} a.
Arguments Raise {A} e.

Definition M (S A : Type) : Type := S -> outcome A * S.

Definition ret {S A} (a : A) : M S A := fun s => (Ok a, s).

Definition bind {S A B} (m : M S A) (k : A -> M S B) : M S B :=
  fun s =>
    match m s with
    | (Ok a, s') => k a s'
    | (Raise e, s') => (Raise e, s')
    end.

Definition raise {S A} (e : exn) : M S A := fun s => (Raise e, s).
Definition get {S} : M S S := fun s => (Ok s, s).
Definition gets {S A} (f : S -> A) : M S A := fun s => (Ok (f s), s).
Definition modify {S} (f : S -> S) : M S unit := fun s => (Ok tt, f s).

(** [try: m except Exception as e: h e] *)
Definition try_except {S A} (m : M S A) (h : exn -> M S A) : M S A :=
  fun s =>
    match m s with
    | (Ok a, s') => (Ok a, s')
    | (Raise e, s') => h e s'
    end.

Declare Scope m_scope.
Delimit Scope m_scope with m.
Notation "'let*' x ':=' m 'in' k" := (bind m (fun x => k))
  (at level 10, x name, m at level 100, k at level 200) : m_scope.
Notation "m1 '>>' m2" := (bind m1 (fun _ => m2))
  (at level 90, right associativity) : m_scope.
Local Open Scope m_scope.

Definition when {S} (b : bool) (m : M S unit) : M S unit :=
  if b then m else ret tt.

(** [for x in l: body x] without [break]. *)
Fixpoint for_each {S A} (l : list A) (body : A -> M S unit) : M S unit :=
  match l with
  | [] => ret tt
  | x :: l' => body x >> for_each l' body
  end.

Definition succeeded {A S} (r : outcome A * S) : bool :=
  match r with (Ok _, _) => true | _ => false end.

(** Python's [a or b] on values with a falsy element. *)
Definition or_else {A} (falsy : A -> bool) (a b : A) : A :=
  if falsy a then b else a.

Definition Qfalsy (q : Q) : bool := Qeq_bool q 0.

(** Sequencing of pure computations that may raise. *)
Definition and_then {A B} (o : outcome A) (k : A -> outcome B) : outcome B :=
  match o with
  | Ok a => k a
  | Raise e => Raise e
  end.

Definition Qlt_bool (a b : Q) : bool := negb (Qle_bool b a).

(** ** Python floats

    A [fields.Float] holds a Python float, a binary64 number of IEEE
    754: a sign, an integer below [2^53] and a power of two not below
    [2^-1074].  A quantity of the model, a rational, stands for the
    float nearest to it, as a decimal literal of Python does: [float]
    is that number, ties going to the even integer.  The sum, the
    difference and the product of the code are the exact ones of the
    floats, rounded in the same way.  A result beyond the largest
    float (an infinity in Python) is not modelled. *)
Definition round_half_even (num den : Z) : Z :=
  let q := (num / den)%Z in
  let r := (num mod den)%Z in
  if (2 * r <? den)%Z then q
  else if (den <? 2 * r)%Z then (q + 1)%Z
  else if Z.even q then q else (q + 1)%Z.

(** [n / d] divided by [2^e], as a fraction of integers. *)
Definition scaled (n d e : Z) : Z * Z :=
  if (e <? 0)%Z then (n * 2 ^ (- e), d)%Z else (n, d * 2 ^ e)%Z.

(** The exponent [e] of the float nearest to [n / d]:
    [2^52 <= (n / d) / 2^e < 2^53], and [-1074] for a subnormal. *)
Definition float_exponent (n d : Z) : Z :=
  let e0 := (Z.log2 n - Z.log2 d - 52)%Z in
  let '(num, den) := scaled n d e0 in
  let e :=
    if (num <? 2 ^ 52 * den)%Z then (e0 - 1)%Z
    else if (2 ^ 53 * den <=? num)%Z then (e0 + 1)%Z
    else e0 in
  Z.max e (-1074).

Definition float_of_pos (n d : positive) : Q :=
  let e := float_exponent (Zpos n) (Zpos d) in
  let '(num, den) := scaled (Zpos n) (Zpos d) e in
  let m := round_half_even num den in
  if (e <? 0)%Z then Qred (m # Z.to_pos (2 ^ (- e)))
  else inject_Z (m * 2 ^ e).

Definition float (q : Q) : Q :=
  match Qnum q with
  | Z0 => 0%Q
  | Zpos n => float_of_pos n (Qden q)
  | Zneg n => (- float_of_pos n (Qden q))%Q
  end.

Definition float_add (a b : Q) : Q := float (float a + float b).
Definition float_sub (a b : Q) : Q := float (float a - float b).
Definition float_mul (a b : Q) : Q := float (float a * float b).

(** [a <= b] on floats. *)
Definition float_le (a b : Q) : bool := Qle_bool (float a) (float b).

(** [sum(values)]: the values are added from left to right, starting
    from [0]. *)
Definition float_sum (values : list Q) : Q := foldl float_add 0%Q values.

(** Python's [a / b]: on whole numbers the float nearest to the
    quotient, on floats the quotient of the floats, rounded. *)
Definition int_truediv (a b : Z) : outcome Q :=
  if (b =? 0)%Z then Raise (ZeroDivisionError "division by zero")
  else Ok (float (inject_Z a / inject_Z b)).

Definition float_truediv (a b : Q) : outcome Q :=
  if Qeq_bool (float b) 0 then
    Raise (ZeroDivisionError "float division by zero")
  else Ok (float (float a / float b)).

(** [pat in s] on strings. *)
Definition contains (pat s : string) : bool :=
  match String.index 0 pat s with Some _ => true | None => false end.

(** ** Data model *)

(** [product.product]: the fields the module reads. *)
Inductive tracking := serial | lot | none.

Record product := {
  prod_id : nat;
  prod_name : string;
  prod_tracking : tracking;
  standard_price : Q;
  list_price : Q
}.

(** [stock.lot] *)
Record stock_lot := { lot_ref : nat; lot_name : string }.

(** [sale.order.line] *)
Record sale_order_line := {
  sol_id : nat;
  sol_order_id : nat;
  sol_product_id : nat;
  sol_product_uom_qty : Q;
  price_unit : Q;
  sol_name : string
}.

(** [loan.tracking.detail.status] *)
Inductive status :=
| active
| sold
| returned_good
| returned_damaged
| returned_defective
| pending_resolution.

(** [loan.tracking.detail] (field names carry the prefix [ltd_]).
    [display_name] is presentation only and is left out. *)
Record loan_tracking_detail := {
  ltd_id : nat;
  ltd_picking_id : nat;
  ltd_product_id : nat;
  ltd_lot_id : option nat;
  ltd_quantity : Q;
  ltd_status : status;
  ltd_loan_date : Z;
  ltd_resolution_date : option Z;
  ltd_expected_return_date : option Z;
  ltd_partner_id : option nat;
  ltd_original_cost : Q;
  ltd_sale_price : Q;
  ltd_sale_order_line_id : option nat;
  ltd_return_picking_id : option nat;
  ltd_days_in_loan : Z;
  ltd_is_overdue : bool;
  ltd_notes : string;
  ltd_return_condition_notes : string
}.

(** One [key: value] pair of a [vals] dictionary for [loan.tracking.detail]. *)
Inductive ltd_val :=
| Set_product_id (p : nat)
| Set_lot_id (l : option nat)
| Set_quantity (q : Q)
| Set_status (s : status)
| Set_resolution_date (d : option Z)
| Set_sale_price (p : Q)
| Set_sale_order_line_id (l : option nat)
| Set_return_picking_id (p : option nat)
| Set_notes (n : string)
| Set_return_condition_notes (n : string).

Inductive ltd_field :=
| F_product_id | F_lot_id | F_quantity | F_status | F_resolution_date
| F_sale_price | F_sale_order_line_id | F_return_picking_id
| F_notes | F_return_condition_notes.

#[global] Instance tracking_eq_dec : EqDecision tracking.
Proof. solve_decision. Defined.
#[global] Instance status_eq_dec : EqDecision status.
Proof. solve_decision. Defined.
#[global] Instance ltd_field_eq_dec : EqDecision ltd_field.
Proof. solve_decision. Defined.

Definition key_of (v : ltd_val) : ltd_field :=
  match v with
  | Set_product_id _ => F_product_id
  | Set_lot_id _ => F_lot_id
  | Set_quantity _ => F_quantity
  | Set_status _ => F_status
  | Set_resolution_date _ => F_resolution_date
  | Set_sale_price _ => F_sale_price
  | Set_sale_order_line_id _ => F_sale_order_line_id
  | Set_return_picking_id _ => F_return_picking_id
  | Set_notes _ => F_notes
  | Set_return_condition_notes _ => F_return_condition_notes
  end.

(** Whether one of the fields [fs] is a key of [vals]. *)
Definition touches (fs : list ltd_field) (vals : list ltd_val) : bool :=
  existsb (fun v => bool_decide (key_of v ∈ fs)) vals.

Definition assign (v : ltd_val) (r : loan_tracking_detail) : loan_tracking_detail :=
  {| ltd_id := ltd_id r;
     ltd_picking_id := ltd_picking_id r;
     ltd_product_id :=
       match v with Set_product_id p => p | _ => ltd_product_id r end;
     ltd_lot_id := match v with Set_lot_id l => l | _ => ltd_lot_id r end;
     ltd_quantity := match v with Set_quantity q => q | _ => ltd_quantity r end;
     ltd_status := match v with Set_status s => s | _ => ltd_status r end;
     ltd_loan_date := ltd_loan_date r;
     ltd_resolution_date :=
       match v with Set_resolution_date d => d | _ => ltd_resolution_date r end;
     ltd_expected_return_date := ltd_expected_return_date r;
     ltd_partner_id := ltd_partner_id r;
     ltd_original_cost := ltd_original_cost r;
     ltd_sale_price :=
       match v with Set_sale_price p => p | _ => ltd_sale_price r end;
     ltd_sale_order_line_id :=
       match v with
       | Set_sale_order_line_id l => l
       | _ => ltd_sale_order_line_id r
       end;
     ltd_return_picking_id :=
       match v with
       | Set_return_picking_id p => p
       | _ => ltd_return_picking_id r
       end;
     ltd_days_in_loan := ltd_days_in_loan r;
     ltd_is_overdue := ltd_is_overdue r;
     ltd_notes := match v with Set_notes n => n | _ => ltd_notes r end;
     ltd_return_condition_notes :=
       match v with
       | Set_return_condition_notes n => n
       | _ => ltd_return_condition_notes r
       end |}.

Definition assign_all (vals : list ltd_val) (r : loan_tracking_detail)
  : loan_tracking_detail :=
  fold_left (fun r v => assign v r) vals r.

(** [record.product_id] dereferenced in the product table; a dangling
    reference reads as the empty record (no name, no tracking). *)
Definition empty_product : product :=
  {| prod_id := 0; prod_name := ""; prod_tracking := none;
     standard_price := 0; list_price := 0 |}.

Definition browse_product (products : list product) (pid : nat) : product :=
  default empty_product (find (fun p => bool_decide (prod_id p = pid)) products).

Definition with_days_in_loan (d : Z) (r : loan_tracking_detail)
  : loan_tracking_detail :=
  {| ltd_id := ltd_id r; ltd_picking_id := ltd_picking_id r;
     ltd_product_id := ltd_product_id r; ltd_lot_id := ltd_lot_id r;
     ltd_quantity := ltd_quantity r; ltd_status := ltd_status r;
     ltd_loan_date := ltd_loan_date r;
     ltd_resolution_date := ltd_resolution_date r;
     ltd_expected_return_date := ltd_expected_return_date r;
     ltd_partner_id := ltd_partner_id r;
     ltd_original_cost := ltd_original_cost r;
     ltd_sale_price := ltd_sale_price r;
     ltd_sale_order_line_id := ltd_sale_order_line_id r;
     ltd_return_picking_id := ltd_return_picking_id r;
     ltd_days_in_loan := d;
     ltd_is_overdue := ltd_is_overdue r;
     ltd_notes := ltd_notes r;
     ltd_return_condition_notes := ltd_return_condition_notes r |}.

Definition with_is_overdue (b : bool) (r : loan_tracking_detail)
  : loan_tracking_detail :=
  {| ltd_id := ltd_id r; ltd_picking_id := ltd_picking_id r;
     ltd_product_id := ltd_product_id r; ltd_lot_id := ltd_lot_id r;
     ltd_quantity := ltd_quantity r; ltd_status := ltd_status r;
     ltd_loan_date := ltd_loan_date r;
     ltd_resolution_date := ltd_resolution_date r;
     ltd_expected_return_date := ltd_expected_return_date r;
     ltd_partner_id := ltd_partner_id r;
     ltd_original_cost := ltd_original_cost r;
     ltd_sale_price := ltd_sale_price r;
     ltd_sale_order_line_id := ltd_sale_order_line_id r;
     ltd_return_picking_id := ltd_return_picking_id r;
     ltd_days_in_loan := ltd_days_in_loan r;
     ltd_is_overdue := b;
     ltd_notes := ltd_notes r;
     ltd_return_condition_notes := ltd_return_condition_notes r |}.

(** A copy under a fresh id ([record.copy] before its [default] values). *)
Definition with_id (i : nat) (r : loan_tracking_detail) : loan_tracking_detail :=
  {| ltd_id := i; ltd_picking_id := ltd_picking_id r;
     ltd_product_id := ltd_product_id r; ltd_lot_id := ltd_lot_id r;
     ltd_quantity := ltd_quantity r; ltd_status := ltd_status r;
     ltd_loan_date := ltd_loan_date r;
     ltd_resolution_date := ltd_resolution_date r;
     ltd_expected_return_date := ltd_expected_return_date r;
     ltd_partner_id := ltd_partner_id r;
     ltd_original_cost := ltd_original_cost r;
     ltd_sale_price := ltd_sale_price r;
     ltd_sale_order_line_id := ltd_sale_order_line_id r;
     ltd_return_picking_id := ltd_return_picking_id r;
     ltd_days_in_loan := ltd_days_in_loan r;
     ltd_is_overdue := ltd_is_overdue r;
     ltd_notes := ltd_notes r;
     ltd_return_condition_notes := ltd_return_condition_notes r |}.

(** [stock.picking.loan_state] *)
Inductive loan_state :=
| loan_active
| in_trial
| resolving
| partially_resolved
| completed.

#[global] Instance loan_state_eq_dec : EqDecision loan_state.
Proof. solve_decision. Defined.

(** The selection key of a state, as an f-string prints it. *)
Definition loan_state_key (s : loan_state) : string :=
  match s with
  | loan_active => "active"
  | in_trial => "in_trial"
  | resolving => "resolving"
  | partially_resolved => "partially_resolved"
  | completed => "completed"
  end.

(** [stock.move.line] and [stock.move] *)
Record stock_move_line := { ml_lot_id : option nat; qty_done : Q }.

Record stock_move := {
  mv_product_id : nat;
  product_uom_qty : Q;
  mv_lot_ids : list nat;
  move_line_ids : list stock_move_line
}.

(** [stock.picking] with the fields of the extension (field names that
    also exist on other models carry the prefix [sp_]).
    [sp_type_in_loans_warehouse] is
    [picking_type_id.warehouse_id.warehouse_type == 'loans']; the
    warehouse model is declared outside these sources. *)
Record stock_picking := {
  sp_id : nat;
  sp_name : string;
  sp_state : string;
  sp_type_in_loans_warehouse : bool;
  is_loan : bool;
  loan_return_origin_id : option nat;
  loaned_to_partner_id : option nat;
  date_done : option Z;
  sp_loan_state : option loan_state;
  loan_expected_return_date : option Z;
  loan_notes : string;
  overdue_days : Z;
  sp_is_overdue : bool;
  sp_user_id : option nat;
  conversion_sale_order_id : option nat;
  move_ids_without_package : list stock_move
}.

(** [mail.activity.type] and [mail.activity] (the HTML [note] is left out). *)
Record mail_activity_type := { mat_id : nat; mat_name : string }.

Record mail_activity := {
  act_id : nat;
  activity_type_id : option nat;
  res_model : string;
  res_id : nat;
  summary : string;
  date_deadline : Z;
  act_user_id : nat
}.

(** [loan.valuation.tracker] (prefix [lvt_]); [current_cost] and
    [valuation_difference] are computed fields with [store=True]: the
    record holds their stored value. *)
Inductive resolution_kind := res_sold | res_returned.

Record loan_valuation_tracker := {
  lvt_id : nat;
  lvt_picking_id : nat;
  lvt_product_id : option nat;
  lvt_lot_id : option nat;
  lvt_loan_date : Z;
  lvt_original_cost : Q;
  current_cost : Q;
  valuation_difference : Q;
  is_resolved : bool;
  resolution_type : option resolution_kind;
  final_cost : Q
}.

(** The database and the ambient services the module reads.
    [todo_activity_type] is [env.ref('mail.mail_activity_data_todo', False)];
    [main_stock_location] is [lot_stock_id] of the first warehouse whose
    type is not ['loans'], when there is one. *)
Record Env := {
  clock : Z;
  product_product : list product;
  stock_lots : list stock_lot;
  tracking_details : list loan_tracking_detail;
  pickings : list stock_picking;
  sale_lines : list sale_order_line;
  activities : list mail_activity;
  activity_types : list mail_activity_type;
  todo_activity_type : option nat;
  valuations : list loan_valuation_tracker;
  main_stock_location : option nat;
  current_user : nat
}.

(** [fields.Date.today()] *)
Definition date_of (t : Z) : Z := t / 86400.
Definition today (e : Env) : Z := date_of (clock e).

Definition with_tracking_details (l : list loan_tracking_detail) (e : Env) : Env :=
  {| clock := clock e; product_product := product_product e;
     stock_lots := stock_lots e; tracking_details := l;
     pickings := pickings e; sale_lines := sale_lines e;
     activities := activities e; activity_types := activity_types e;
     todo_activity_type := todo_activity_type e;
     valuations := valuations e;
     main_stock_location := main_stock_location e;
     current_user := current_user e |}.

Definition with_pickings (l : list stock_picking) (e : Env) : Env :=
  {| clock := clock e; product_product := product_product e;
     stock_lots := stock_lots e; tracking_details := tracking_details e;
     pickings := l; sale_lines := sale_lines e;
     activities := activities e; activity_types := activity_types e;
     todo_activity_type := todo_activity_type e;
     valuations := valuations e;
     main_stock_location := main_stock_location e;
     current_user := current_user e |}.

Definition with_sale_lines (l : list sale_order_line) (e : Env) : Env :=
  {| clock := clock e; product_product := product_product e;
     stock_lots := stock_lots e; tracking_details := tracking_details e;
     pickings := pickings e; sale_lines := l;
     activities := activities e; activity_types := activity_types e;
     todo_activity_type := todo_activity_type e;
     valuations := valuations e;
     main_stock_location := main_stock_location e;
     current_user := current_user e |}.

Definition with_activities (l : list mail_activity) (e : Env) : Env :=
  {| clock := clock e; product_product := product_product e;
     stock_lots := stock_lots e; tracking_details := tracking_details e;
     pickings := pickings e; sale_lines := sale_lines e;
     activities := l; activity_types := activity_types e;
     todo_activity_type := todo_activity_type e;
     valuations := valuations e;
     main_stock_location := main_stock_location e;
     current_user := current_user e |}.

Definition with_valuations (l : list loan_valuation_tracker) (e : Env) : Env :=
  {| clock := clock e; product_product := product_product e;
     stock_lots := stock_lots e; tracking_details := tracking_details e;
     pickings := pickings e; sale_lines := sale_lines e;
     activities := activities e; activity_types := activity_types e;
     todo_activity_type := todo_activity_type e;
     valuations := l;
     main_stock_location := main_stock_location e;
     current_user := current_user e |}.

Definition with_products (l : list product) (e : Env) : Env :=
  {| clock := clock e; product_product := l;
     stock_lots := stock_lots e; tracking_details := tracking_details e;
     pickings := pickings e; sale_lines := sale_lines e;
     activities := activities e; activity_types := activity_types e;
     todo_activity_type := todo_activity_type e;
     valuations := valuations e;
     main_stock_location := main_stock_location e;
     current_user := current_user e |}.

(** A fresh id for a table whose ids are [ids]. *)
Definition fresh_id (ids : list nat) : nat := S (foldr Nat.max 0%nat ids).

(** Run a record-level method on the row [i] of a table (the first row
    with that id) and store the row back; [ensure_one] on a missing row
    raises [ValueError]. *)
Fixpoint on_row {R A} (key : R -> nat) (i : nat) (m : M R A) (tbl : list R)
  : outcome A * list R :=
  match tbl with
  | [] => (Raise (ValueError "Expected singleton"), [])
  | r :: rest =>
      if bool_decide (key r = i) then
        let '(o, r') := m r in (o, r' :: rest)
      else
        let '(o, rest') := on_row key i m rest in (o, r :: rest')
  end.

(** The first row of id [i] of a table ([browse]). *)
Definition row {R} (key : R -> nat) (i : nat) (tbl : list R) : option R :=
  find (fun r => bool_decide (key r = i)) tbl.

(** The table with its first row of id [i] replaced by [r']. *)
Fixpoint replace_row {R} (key : R -> nat) (i : nat) (r' : R) (tbl : list R)
  : list R :=
  match tbl with
  | [] => []
  | r :: rest =>
      if bool_decide (key r = i) then r' :: rest
      else r :: replace_row key i r' rest
  end.

(** Run a computation on one component of a larger state. *)
Definition zoom {S T A} (proj : S -> T) (upd : T -> S -> S) (m : M T A) : M S A :=
  fun s => let '(o, t') := m (proj s) in (o, upd t' s).

(** ** models/loan_tracking_detail.py: class LoanTrackingDetail *)

Module LoanTrackingDetail.

Section Methods.

(** The product table and [fields.Datetime.now()] *)
Variable products : list product.
Variable now : Z.

Definition _compute_days_in_loan (r : loan_tracking_detail) : Z :=
  let end_date :=
    if decide (ltd_status r = active) then now
    else default (ltd_loan_date r) (ltd_resolution_date r) in
  (end_date - ltd_loan_date r) / 86400.

Definition _compute_overdue_status (r : loan_tracking_detail) : bool :=
  bool_decide (ltd_status r = active)
  && match ltd_expected_return_date r with
     | Some d => d <? date_of now
     | None => false
     end.

(** Stored computed fields are recomputed when a field of their
    [@api.depends] list has been written. *)
Definition recompute (vals : list ltd_val) (r : loan_tracking_detail)
  : loan_tracking_detail :=
  let r1 :=
    if touches [F_resolution_date; F_status] vals
    then with_days_in_loan (_compute_days_in_loan r) r else r in
  if touches [F_status] vals
  then with_is_overdue (_compute_overdue_status r1) r1 else r1.

Definition _check_tracking_consistency : M loan_tracking_detail unit :=
  let* record := get in
  let p := browse_product products (ltd_product_id record) in
  match prod_tracking p with
  | serial =>
      if negb (bool_decide (is_Some (ltd_lot_id record))) then
        raise (ValidationError
                 ("El producto " +:+ prod_name p +:+ " requiere número de serie."))
      else if negb (Qeq_bool (ltd_quantity record) 1) then
        raise (ValidationError
                 ("Los productos con número de serie deben tener cantidad = 1. "
                  +:+ "Producto: " +:+ prod_name p))
      else ret tt
  | lot =>
      if negb (bool_decide (is_Some (ltd_lot_id record))) then
        raise (ValidationError
                 ("El producto " +:+ prod_name p +:+ " requiere número de lote."))
      else ret tt
  | none =>
      if bool_decide (is_Some (ltd_lot_id record)) then
        raise (ValidationError
                 ("El producto " +:+ prod_name p
                  +:+ " no usa rastreo por serie/lote."))
      else ret tt
  end.

Definition is_returned (s : status) : bool :=
  bool_decide (s ∈ [returned_good; returned_damaged; returned_defective]).

(** The assignment [record.resolution_date = now] of the last test is
    itself a write; the checks it triggers again find the sale line and
    the return transfer already tested and the date set. *)
Definition _check_resolution_consistency : M loan_tracking_detail unit :=
  let* record := get in
  when (bool_decide (ltd_status record = sold)
        && negb (bool_decide (is_Some (ltd_sale_order_line_id record))))
    (raise (ValidationError
       "Los préstamos vendidos deben tener una línea de orden de venta asociada."))
  >>
  when (is_returned (ltd_status record)
        && negb (bool_decide (is_Some (ltd_return_picking_id record))))
    (raise (ValidationError
       "Los préstamos devueltos deben tener una transferencia de devolución asociada."))
  >>
  when (negb (bool_decide (ltd_status record = active))
        && negb (bool_decide (is_Some (ltd_resolution_date record))))
    (modify (fun r => recompute [Set_resolution_date (Some now)]
                        (assign (Set_resolution_date (Some now)) r))).

(** [write(vals)]: store the values, run the [@api.constrains] methods
    one of whose fields is a key of [vals], recompute stored fields. *)
Definition write (vals : list ltd_val) : M loan_tracking_detail unit :=
  modify (assign_all vals) >>
  when (touches [F_quantity; F_product_id; F_lot_id] vals)
    _check_tracking_consistency >>
  when (touches [F_status; F_resolution_date; F_sale_order_line_id;
                 F_return_picking_id] vals)
    _check_resolution_consistency >>
  modify (recompute vals).

(** [sale_order_line] is a recordset of at most one line; the fields of
    an empty recordset read as [False] and [0.0]. *)
Definition action_mark_as_sold (sale_order_line : option sale_order_line)
    (sale_price : option Q) : M loan_tracking_detail unit :=
  let* self := get in
  if negb (bool_decide (ltd_status self = active)) then
    raise (UserError "Solo los préstamos activos pueden marcarse como vendidos.")
  else
    write [ Set_status sold;
            Set_sale_order_line_id (sol_id <$> sale_order_line);
            Set_sale_price
              (or_else Qfalsy (default 0%Q sale_price)
                 (default 0%Q (price_unit <$> sale_order_line)));
            Set_resolution_date (Some now) ].

Definition status_mapping : gmap string status :=
  {[ "good" := returned_good;
     "damaged" := returned_damaged;
     "defective" := returned_defective ]}.

(** [return_picking] is the id of the return transfer, [None] for an
    empty recordset; [notes=None] is [None]. *)
Definition action_mark_as_returned (return_picking : option nat)
    (condition : string) (notes : option string)
  : M loan_tracking_detail unit :=
  let* self := get in
  if negb (bool_decide (ltd_status self ∈ [active; pending_resolution])) then
    raise (UserError "Solo los préstamos activos pueden marcarse como devueltos.")
  else
    write [ Set_status (default returned_good (status_mapping !! condition));
            Set_return_picking_id return_picking;
            Set_resolution_date (Some now);
            Set_return_condition_notes (default "" notes) ].

End Methods.

(** *** Table-level operations *)

(** [_order = 'loan_date desc, id desc'] *)
Definition before (a b : loan_tracking_detail) : bool :=
  (ltd_loan_date b <? ltd_loan_date a)
  || ((ltd_loan_date a =? ltd_loan_date b) && (ltd_id b <? ltd_id a)%nat).

Fixpoint insert_sorted (r : loan_tracking_detail) (l : list loan_tracking_detail)
  : list loan_tracking_detail :=
  match l with
  | [] => [r]
  | x :: l' => if before x r then x :: insert_sorted r l' else r :: l
  end.

Definition sort_by_order (l : list loan_tracking_detail)
  : list loan_tracking_detail :=
  foldr insert_sorted [] l.

(** [self.search(domain)], the domain given as a predicate on rows. *)
Definition search (domain : loan_tracking_detail -> bool) (e : Env)
  : list loan_tracking_detail :=
  sort_by_order (filter domain (tracking_details e)).

(** The search domains [[('picking_id', '=', L)]] and
    [[('picking_id', '=', L), ('status', '=', 'active')]]. *)
Definition of_loan (L : nat) (r : loan_tracking_detail) : bool :=
  bool_decide (ltd_picking_id r = L).

Definition active_of_loan (L : nat) (r : loan_tracking_detail) : bool :=
  bool_decide (ltd_picking_id r = L) && bool_decide (ltd_status r = active).

(** A method called on the record [i]. *)
Definition call {A} (i : nat)
    (m : list product -> Z -> M loan_tracking_detail A) : M Env A :=
  let* e := get in
  zoom tracking_details with_tracking_details
    (on_row ltd_id i (m (product_product e) (clock e))).

Definition browse (e : Env) (i : nat) : option loan_tracking_detail :=
  find (fun r => bool_decide (ltd_id r = i)) (tracking_details e).

(** [create(vals)] of a complete row: a fresh id, every constraint
    checked, stored fields computed; the row is inserted when the
    constraints pass. *)
Definition create (r : loan_tracking_detail) : M Env nat :=
  let* e := get in
  let i := fresh_id (map ltd_id (tracking_details e)) in
  let all_fields :=
    [ Set_product_id (ltd_product_id r); Set_lot_id (ltd_lot_id r);
      Set_quantity (ltd_quantity r); Set_status (ltd_status r);
      Set_resolution_date (ltd_resolution_date r);
      Set_sale_order_line_id (ltd_sale_order_line_id r);
      Set_return_picking_id (ltd_return_picking_id r) ] in
  match write (product_product e) (clock e) all_fields (with_id i r) with
  | (Ok _, r') =>
      modify (with_tracking_details (tracking_details e ++ [r'])) >> ret i
  | (Raise ex, _) => raise ex
  end.

(** [record.copy(default)] *)
Definition copy (i : nat) (defaults : list ltd_val) : M Env nat :=
  let* e := get in
  match browse e i with
  | Some r => create (assign_all defaults r)
  | None => raise (ValueError "Expected singleton")
  end.

(** The filters of [get_loan_analytics]; an absent or empty filter adds
    no condition to the domain. *)
Definition analytics_domain (date_from date_to : option Z)
    (partner_ids : list nat) (r : loan_tracking_detail) : bool :=
  match date_from with Some d => d <=? ltd_loan_date r | None => true end
  && match date_to with Some d => ltd_loan_date r <=? d | None => true end
  && match partner_ids with
     | [] => true
     | _ => match ltd_partner_id r with
            | Some p => bool_decide (p ∈ partner_ids)
            | None => false
            end
     end.

Record analytics := {
  total_loans : nat;
  active_loans : nat;
  overdue_loans : nat;
  sold_conversions : nat;
  returns_good : nat;
  returns_damaged : nat;
  avg_days_in_loan : Q;
  conversion_rate : Q
}.

Definition count (p : loan_tracking_detail -> bool)
    (l : list loan_tracking_detail) : nat :=
  length (filter p l).

Definition sum_Z (l : list Z) : Z := foldr Z.add 0 l.

(** The values of the dictionary are evaluated in order; a division
    is evaluated only under [if records]. *)
Definition get_loan_analytics (date_from date_to : option Z)
    (partner_ids : list nat) (e : Env) : outcome analytics :=
  let records := search (analytics_domain date_from date_to partner_ids) e in
  and_then
    (match records with
     | [] => Ok 0%Q
     | _ => int_truediv (sum_Z (map ltd_days_in_loan records))
              (Z.of_nat (length records))
     end)
    (fun avg =>
  and_then
    (match records with
     | [] => Ok 0%Q
     | _ =>
         and_then
           (int_truediv
              (Z.of_nat
                 (count (fun r => bool_decide (ltd_status r = sold)) records))
              (Z.of_nat (length records)))
           (fun ratio => Ok (float_mul ratio 100))
     end)
    (fun rate =>
  Ok {| total_loans := length records;
        active_loans :=
          count (fun r => bool_decide (ltd_status r = active)) records;
        overdue_loans := count ltd_is_overdue records;
        sold_conversions :=
          count (fun r => bool_decide (ltd_status r = sold)) records;
        returns_good :=
          count (fun r => bool_decide (ltd_status r = returned_good)) records;
        returns_damaged :=
          count (fun r => bool_decide
                            (ltd_status r ∈ [returned_damaged; returned_defective]))
            records;
        avg_days_in_loan := avg;
        conversion_rate := rate |})).

End LoanTrackingDetail.

(** ** models/stock_picking.py: class StockPicking *)

Module StockPicking.

(** One [key: value] pair of a [vals] dictionary for [stock.picking]:
    the keys the module writes on existing transfers. *)
Inductive sp_val :=
| Set_loan_state (s : loan_state)
| Set_loan_notes (n : string)
| Set_conversion_sale_order_id (o : option nat)
| Set_state (s : string).

Definition new_loan_state (vals : list sp_val) : option loan_state :=
  foldl (fun acc v => match v with Set_loan_state s => Some s | _ => acc end)
    None vals.

Definition assign (v : sp_val) (p : stock_picking) : stock_picking :=
  {| sp_id := sp_id p; sp_name := sp_name p;
     sp_state := match v with Set_state s => s | _ => sp_state p end;
     sp_type_in_loans_warehouse := sp_type_in_loans_warehouse p;
     is_loan := is_loan p;
     loan_return_origin_id := loan_return_origin_id p;
     loaned_to_partner_id := loaned_to_partner_id p;
     date_done := date_done p;
     sp_loan_state :=
       match v with Set_loan_state s => Some s | _ => sp_loan_state p end;
     loan_expected_return_date := loan_expected_return_date p;
     loan_notes := match v with Set_loan_notes n => n | _ => loan_notes p end;
     overdue_days := overdue_days p;
     sp_is_overdue := sp_is_overdue p;
     sp_user_id := sp_user_id p;
     conversion_sale_order_id :=
       match v with
       | Set_conversion_sale_order_id o => o
       | _ => conversion_sale_order_id p
       end;
     move_ids_without_package := move_ids_without_package p |}.

Definition with_overdue (days : Z) (flag : bool) (p : stock_picking)
  : stock_picking :=
  {| sp_id := sp_id p; sp_name := sp_name p; sp_state := sp_state p;
     sp_type_in_loans_warehouse := sp_type_in_loans_warehouse p;
     is_loan := is_loan p;
     loan_return_origin_id := loan_return_origin_id p;
     loaned_to_partner_id := loaned_to_partner_id p;
     date_done := date_done p;
     sp_loan_state := sp_loan_state p;
     loan_expected_return_date := loan_expected_return_date p;
     loan_notes := loan_notes p;
     overdue_days := days;
     sp_is_overdue := flag;
     sp_user_id := sp_user_id p;
     conversion_sale_order_id := conversion_sale_order_id p;
     move_ids_without_package := move_ids_without_package p |}.

Definition in_active_family (s : option loan_state) : bool :=
  match s with
  | Some s => bool_decide (s ∈ [loan_active; in_trial; partially_resolved])
  | None => false
  end.

Definition _compute_overdue_days (today : Z) (picking : stock_picking)
  : stock_picking :=
  match loan_expected_return_date picking with
  | Some d =>
      if is_loan picking && in_active_family (sp_loan_state picking) then
        let days := Z.max 0 (today - d) in
        with_overdue days (0 <? days) picking
      else with_overdue 0 false picking
  | None => with_overdue 0 false picking
  end.

(** The dictionary [valid_transitions]. *)
Definition valid_transitions : list (loan_state * list loan_state) :=
  [ (loan_active, [in_trial; resolving]);
    (in_trial, [resolving; completed]);
    (resolving, [partially_resolved; completed]);
    (partially_resolved, [resolving; completed]);
    (completed, []) ].

(** [d.get(k, dflt)] on an association list. *)
Definition dict_get {K V} `{EqDecision K} (d : list (K * V)) (k : K) (dflt : V) : V :=
  default dflt (snd <$> find (fun kv => bool_decide (fst kv = k)) d).

Definition _validate_state_transition (new_state : loan_state)
  : M stock_picking unit :=
  let* self := get in
  match sp_loan_state self with
  | Some current =>
      if negb (bool_decide (new_state ∈ dict_get valid_transitions current []))
      then
        raise (ValidationError
                 ("Transición de estado no válida: "
                  +:+ loan_state_key current +:+ " → "
                  +:+ loan_state_key new_state))
      else ret tt
  | None => ret tt
  end.

Definition browse (e : Env) (i : nat) : option stock_picking :=
  find (fun p => bool_decide (sp_id p = i)) (pickings e).

Definition call {A} (i : nat) (m : M stock_picking A) : M Env A :=
  zoom pickings with_pickings (on_row sp_id i m).

(** [super().write(vals)] on one row: the values are stored and the
    stored fields that depend on [loan_state] are recomputed. *)
Definition base_write (today : Z) (vals : list sp_val) (p : stock_picking)
  : stock_picking :=
  let p' := foldl (fun p v => assign v p) p vals in
  if bool_decide (is_Some (new_loan_state vals))
  then _compute_overdue_days today p' else p'.

(** [_trigger_quantity_recalculation] calls the recomputation methods of
    the product model on the transfer inside [try: ... except Exception:
    pass]: whatever they do or raise, the transfer, the ledger and the
    flow of control are unaffected. *)
Definition _trigger_quantity_recalculation (i : nat) : M Env unit := ret tt.

(** The body of the loop [for picking in self] that validates a change
    of [loan_state]. *)
Definition validation_step (new_state : loan_state) (i : nat) : M Env unit :=
  let* e := get in
  match browse e i with
  | Some picking =>
      when (is_loan picking) (call i (_validate_state_transition new_state))
  | None => ret tt
  end.

(** [write(vals)] on the recordset [self].  Assigning a field of a
    stored record ([picking.loan_state = x]) is [write({'loan_state': x})]
    in the ORM, so every change of [loan_state] comes through here.
    The handling of [location_dest_id] concerns a field that is not
    modelled. *)
Definition write (self : list nat) (vals : list sp_val) : M Env unit :=
  match new_loan_state vals with
  | Some new_state => for_each self (validation_step new_state)
  | None => ret tt
  end >>
  let* e := get in
  for_each self (fun i => call i (modify (base_write (today e) vals))) >>
  for_each self (fun i =>
    let* e := get in
    match browse e i with
    | Some picking =>
        when (existsb (fun v => match v with
                                | Set_state _ | Set_loan_state _ => true
                                | _ => false
                                end) vals
              && (is_loan picking
                  || bool_decide (is_Some (loan_return_origin_id picking))))
          (_trigger_quantity_recalculation i)
    | None => ret tt
    end).

Definition tracking_of (e : Env) (pid : nat) : tracking :=
  prod_tracking (browse_product (product_product e) pid).

Definition auto_return_notes (e : Env) : string :=
  "Devuelto automáticamente el " +:+ pretty (clock e).

(** The [default] dictionary of [record.copy] for a partial return. *)
Definition partial_return_defaults (self : nat) (remaining_qty : Q) (e : Env)
  : list ltd_val :=
  [ Set_quantity remaining_qty;
    Set_status returned_good;
    Set_return_picking_id (Some self);
    Set_resolution_date (Some (clock e));
    Set_return_condition_notes
      ("Devolución parcial automática el " +:+ pretty (clock e)) ].

(** The loop over [tracking_records] for a product without serial
    numbers; [remaining_qty <= 0] leaves the loop.  The quantities are
    floats: the comparisons and the two differences are those of
    floats. *)
Fixpoint consume_returned (self : nat) (tracking_records : list nat)
    (remaining_qty : Q) : M Env unit :=
  match tracking_records with
  | [] => ret tt
  | i :: rest =>
      if float_le remaining_qty 0 then ret tt
      else
        let* e := get in
        match LoanTrackingDetail.browse e i with
        | None => raise (ValueError "Expected singleton")
        | Some record =>
            if float_le (ltd_quantity record) remaining_qty then
              LoanTrackingDetail.call i (fun products now =>
                LoanTrackingDetail.action_mark_as_returned products now
                  (Some self) "good" (Some (auto_return_notes e))) >>
              consume_returned self rest
                (float_sub remaining_qty (ltd_quantity record))
            else
              (let* _ :=
                 LoanTrackingDetail.copy i
                   (partial_return_defaults self remaining_qty e)
               in
               LoanTrackingDetail.call i (fun products now =>
                 LoanTrackingDetail.write products now
                   [ Set_quantity
                       (float_sub (ltd_quantity record) remaining_qty) ])) >>
              consume_returned self rest 0
        end
  end.

Definition _update_original_loan_state (original_loan : nat) : M Env unit :=
  let* e := get in
  let active_tracking :=
    LoanTrackingDetail.search
      (LoanTrackingDetail.active_of_loan original_loan) e in
  match active_tracking with
  | [] => write [original_loan] [Set_loan_state completed]
  | _ =>
      let total_tracking :=
        LoanTrackingDetail.search (LoanTrackingDetail.of_loan original_loan) e in
      when (length active_tracking <? length total_tracking)%nat
        (write [original_loan] [Set_loan_state partially_resolved])
  end.

(** The domain [[('picking_id', '=', L), ('product_id', '=', P),
    ('status', '=', 'active')]]. *)
Definition active_of_product (L P : nat) (r : loan_tracking_detail) : bool :=
  bool_decide (ltd_picking_id r = L)
  && bool_decide (ltd_product_id r = P)
  && bool_decide (ltd_status r = active).

(** The body of the loop [for return_move in self.move_ids_without_package]. *)
Definition reconcile_move (self original_loan : nat) (return_move : stock_move)
  : M Env unit :=
  let* e := get in
  let qty_returned := float_sum (map qty_done (move_line_ids return_move)) in
  if float_le qty_returned 0 then ret tt
  else if decide (tracking_of e (mv_product_id return_move) = serial) then
    for_each (move_line_ids return_move) (fun move_line =>
      match ml_lot_id move_line with
      | Some l =>
          when (Qlt_bool 0 (qty_done move_line))
            (let* e1 := get in
             let tracking_records :=
               LoanTrackingDetail.search
                 (fun r =>
                    bool_decide (ltd_picking_id r = original_loan)
                    && bool_decide
                         (ltd_product_id r = mv_product_id return_move)
                    && bool_decide (ltd_lot_id r = Some l)
                    && bool_decide (ltd_status r = active)) e1 in
             for_each tracking_records (fun record =>
               LoanTrackingDetail.call (ltd_id record)
                 (fun products now =>
                    LoanTrackingDetail.action_mark_as_returned
                      products now (Some self) "good"
                      (Some (auto_return_notes e1)))))
      | None => ret tt
      end)
  else
    let tracking_records :=
      LoanTrackingDetail.search
        (active_of_product original_loan (mv_product_id return_move)) e in
    consume_returned self (map ltd_id tracking_records) qty_returned.

Definition _update_loan_tracking_on_return (self : nat) : M Env unit :=
  let* e := get in
  match browse e self with
  | None => raise (ValueError "Expected singleton")
  | Some picking =>
      match loan_return_origin_id picking with
      | None => ret tt
      | Some original_loan =>
          for_each (move_ids_without_package picking)
            (reconcile_move self original_loan)
          >> _update_original_loan_state original_loan
      end
  end.

(** [button_validate]: [super().button_validate()] is the inventory
    engine; its effect on the modelled fields is [state = 'done']. *)
Definition button_validate (self : nat) : M Env unit :=
  call self (modify (assign (Set_state "done"))) >>
  let* e := get in
  match browse e self with
  | None => raise (ValueError "Expected singleton")
  | Some picking =>
      when (bool_decide (sp_state picking = "done")
            && bool_decide (is_Some (loan_return_origin_id picking)))
        (_update_loan_tracking_on_return self >>
         _trigger_quantity_recalculation self) >>
      when (bool_decide (sp_state picking = "done") && is_loan picking)
        (_trigger_quantity_recalculation self)
  end.

(** Case folding of [ilike]: ASCII letters and, in UTF-8, the letters
    of the Latin-1 supplement (two bytes, the first one 195). *)
Definition lower_byte (c : ascii) : ascii :=
  let n := nat_of_ascii c in
  if ((65 <=? n) && (n <=? 90))%nat then ascii_of_nat (n + 32) else c.

Definition lower_latin1 (c : ascii) : ascii :=
  let n := nat_of_ascii c in
  if ((128 <=? n) && (n <=? 158) && negb (n =? 151))%nat
  then ascii_of_nat (n + 32) else c.

Fixpoint lower (s : string) : string :=
  match s with
  | EmptyString => EmptyString
  | String c s' =>
      if (nat_of_ascii c =? 195)%nat then
        match s' with
        | String d s'' => String c (String (lower_latin1 d) (lower s''))
        | EmptyString => String c EmptyString
        end
      else String (lower_byte c) (lower s')
  end.

(** [(field, 'ilike', pat)] for a pattern without wildcard characters. *)
Definition ilike (value pat : string) : bool :=
  contains (lower pat) (lower value).

Definition activity_type_name (e : Env) (t : option nat) : string :=
  match t with
  | Some i =>
      default "" (mat_name <$>
                    find (fun ty => bool_decide (mat_id ty = i)) (activity_types e))
  | None => ""
  end.

(** The domain of the search for an existing reminder. *)
Definition is_existing_overdue_activity (e : Env) (self : nat)
    (a : mail_activity) : bool :=
  bool_decide (res_model a = "stock.picking")
  && bool_decide (res_id a = self)
  && ilike (activity_type_name e (activity_type_id a)) "préstamo vencido"
  && (today e <=? date_deadline a).

Definition _create_overdue_activity (self : nat) : M Env unit :=
  let* e := get in
  match browse e self with
  | None => raise (ValueError "Expected singleton")
  | Some picking =>
      match filter (is_existing_overdue_activity e self) (activities e) with
      | _ :: _ => ret tt
      | [] =>
          let activity_type :=
            match todo_activity_type e with
            | Some t => Some t
            | None => mat_id <$> head (activity_types e)
            end in
          modify (with_activities
            (activities e ++
             [ {| act_id := fresh_id (map act_id (activities e));
                  activity_type_id := activity_type;
                  res_model := "stock.picking";
                  res_id := self;
                  summary := "Préstamo Vencido - " +:+ sp_name picking;
                  date_deadline := today e;
                  act_user_id := default (current_user e) (sp_user_id picking)
               |} ]))
      end
  end.

Definition _cron_check_overdue_loans : M Env unit :=
  let* e := get in
  let overdue_pickings :=
    filter (fun p => sp_is_overdue p && in_active_family (sp_loan_state p))
      (pickings e) in
  for_each overdue_pickings (fun picking =>
    _create_overdue_activity (sp_id picking)).

(** [create(vals)] for the values the resolution wizard passes (no
    [loaned_to_partner_id], no [is_loan]); the only creation of a
    transfer in these sources.  The row gets the field defaults
    ([loan_state = 'active']) and the name the engine's sequence gives
    it.  Then the override: when the transfer type belongs to a loans
    warehouse, [picking.is_loan = True] is a write that runs
    [_check_loan_requirements], whose first test raises for a transfer
    without [loaned_to_partner_id]; otherwise [_setup_loan_location]
    would return at once for the same reason. *)
Definition create (in_loans_warehouse : bool) (moves : list stock_move)
  : M Env nat :=
  let* e := get in
  let i := fresh_id (map sp_id (pickings e)) in
  let row (loan : bool) :=
    {| sp_id := i; sp_name := "PICK/" +:+ pretty i; sp_state := "draft";
       sp_type_in_loans_warehouse := in_loans_warehouse;
       is_loan := loan;
       loan_return_origin_id := None; loaned_to_partner_id := None;
       date_done := None; sp_loan_state := Some loan_active;
       loan_expected_return_date := None; loan_notes := "";
       overdue_days := 0; sp_is_overdue := false; sp_user_id := None;
       conversion_sale_order_id := None;
       move_ids_without_package := moves |} in
  if in_loans_warehouse then
    modify (with_pickings (pickings e ++ [row true])) >>
    raise (UserError "Los préstamos deben tener un cliente destino asignado.")
  else
    modify (with_pickings (pickings e ++ [row false])) >> ret i.

(** [action_confirm] of the inventory engine. *)
Definition action_confirm (self : nat) : M Env unit :=
  call self (modify (assign (Set_state "confirmed"))).

End StockPicking.

(** ** models/loan_tracking_detail.py: class LoanValuationTracker *)

Module LoanValuationTracker.

Definition with_current_cost (c : Q) (r : loan_valuation_tracker)
  : loan_valuation_tracker :=
  {| lvt_id := lvt_id r; lvt_picking_id := lvt_picking_id r;
     lvt_product_id := lvt_product_id r; lvt_lot_id := lvt_lot_id r;
     lvt_loan_date := lvt_loan_date r;
     lvt_original_cost := lvt_original_cost r;
     current_cost := c;
     valuation_difference := valuation_difference r;
     is_resolved := is_resolved r; resolution_type := resolution_type r;
     final_cost := final_cost r |}.

Definition with_valuation_difference (d : Q) (r : loan_valuation_tracker)
  : loan_valuation_tracker :=
  {| lvt_id := lvt_id r; lvt_picking_id := lvt_picking_id r;
     lvt_product_id := lvt_product_id r; lvt_lot_id := lvt_lot_id r;
     lvt_loan_date := lvt_loan_date r;
     lvt_original_cost := lvt_original_cost r;
     current_cost := current_cost r;
     valuation_difference := d;
     is_resolved := is_resolved r; resolution_type := resolution_type r;
     final_cost := final_cost r |}.

(** [@api.depends('product_id')] *)
Definition _compute_current_cost (products : list product)
    (record : loan_valuation_tracker) : loan_valuation_tracker :=
  match lvt_product_id record with
  | Some pid =>
      with_current_cost (standard_price (browse_product products pid)) record
  | None => with_current_cost 0 record
  end.

(** [@api.depends('original_cost', 'current_cost')] *)
Definition _compute_valuation_difference (record : loan_valuation_tracker)
  : loan_valuation_tracker :=
  with_valuation_difference
    (float_sub (current_cost record) (lvt_original_cost record)) record.

(** [create(vals)] with the keys [create_for_loan] gives: both stored
    computed fields are computed for the new row. *)
Definition create (picking : nat) (product_id : nat) (lot_id : option nat)
    (loan_date : Z) (original_cost : Q) : M Env nat :=
  let* e := get in
  let i := fresh_id (map lvt_id (valuations e)) in
  let row :=
    {| lvt_id := i; lvt_picking_id := picking;
       lvt_product_id := Some product_id; lvt_lot_id := lot_id;
       lvt_loan_date := loan_date; lvt_original_cost := original_cost;
       current_cost := 0; valuation_difference := 0;
       is_resolved := false; resolution_type := None; final_cost := 0 |} in
  modify (with_valuations
            (valuations e ++
             [ _compute_valuation_difference
                 (_compute_current_cost (product_product e) row) ])) >>
  ret i.

Definition create_for_loan (picking : stock_picking) : M Env unit :=
  let* e := get in
  let loan_date := default (clock e) (date_done picking) in
  for_each (move_ids_without_package picking) (fun move =>
    let p := browse_product (product_product e) (mv_product_id move) in
    if decide (prod_tracking p = serial) then
      for_each (move_line_ids move) (fun move_line =>
        match ml_lot_id move_line with
        | Some l =>
            let* _ := create (sp_id picking) (mv_product_id move) (Some l)
                        loan_date (standard_price p) in ret tt
        | None => ret tt
        end)
    else
      let* _ := create (sp_id picking) (mv_product_id move) None
                  loan_date (standard_price p) in ret tt).

(** Writing [standard_price] on a product.  The ORM recomputes a stored
    computed field when a field of its [@api.depends] list is written;
    [current_cost] depends on ['product_id'] only (which product the
    row refers to), not on ['product_id.standard_price'], so the write
    reaches no row of [loan.valuation.tracker]. *)
Definition write_standard_price (product_id : nat) (price : Q) : M Env unit :=
  modify (fun e =>
    with_products
      (map (fun p =>
              if bool_decide (prod_id p = product_id)
              then {| prod_id := prod_id p; prod_name := prod_name p;
                      prod_tracking := prod_tracking p;
                      standard_price := price; list_price := list_price p |}
              else p)
         (product_product e)) e).

(** Reading the stored fields of the row [i]. *)
Definition browse (e : Env) (i : nat) : option loan_valuation_tracker :=
  find (fun r => bool_decide (lvt_id r = i)) (valuations e).

Definition read_current_cost (e : Env) (i : nat) : option Q :=
  current_cost <$> browse e i.

Definition read_valuation_difference (e : Env) (i : nat) : option Q :=
  valuation_difference <$> browse e i.

(** The product's standard cost at the time of reading. *)
Definition live_cost (e : Env) (i : nat) : option Q :=
  r ← browse e i;
  pid ← lvt_product_id r;
  Some (standard_price (browse_product (product_product e) pid)).

Definition mark_as_resolved (kind : resolution_kind) (final : option Q)
    (r : loan_valuation_tracker) : loan_valuation_tracker :=
  {| lvt_id := lvt_id r; lvt_picking_id := lvt_picking_id r;
     lvt_product_id := lvt_product_id r; lvt_lot_id := lvt_lot_id r;
     lvt_loan_date := lvt_loan_date r;
     lvt_original_cost := lvt_original_cost r;
     current_cost := current_cost r;
     valuation_difference := valuation_difference r;
     is_resolved := true; resolution_type := Some kind;
     final_cost := or_else Qfalsy (default 0%Q final) (lvt_original_cost r) |}.

End LoanValuationTracker.

(** ** wizard/loan_resolution_wizard.py *)

Module LoanResolutionWizard.

Inductive resolution_type := buy | return_ | keep_loan.
Inductive return_condition := good | damaged | defective.

#[global] Instance resolution_type_eq_dec : EqDecision resolution_type.
Proof. solve_decision. Defined.

Definition return_condition_key (c : option return_condition) : string :=
  match c with
  | Some good => "good"
  | Some damaged => "damaged"
  | Some defective => "defective"
  | None => "False"
  end.

(** [loan.resolution.wizard.line] (prefix [wl_]) *)
Record wizard_line := {
  tracking_detail_id : nat;
  wl_product_id : nat;
  wl_lot_id : option stock_lot;
  loaned_qty : Q;
  qty_to_resolve : Q;
  wl_resolution_type : option resolution_type;
  unit_price : Q;
  wl_return_condition : option return_condition
}.

(** [loan.resolution.wizard] (prefix [wiz_]) *)
Record wizard := {
  wiz_picking_id : nat;
  wiz_resolution_date : Z;
  wiz_notes : option string;
  resolution_line_ids : list wizard_line
}.

Definition fmt_float (q : Q) : string :=
  pretty (Qnum q) +:+ "/" +:+ pretty (Zpos (Qden q)).

Definition nl : string := String (ascii_of_nat 10) EmptyString.

Definition product_name (e : Env) (line : wizard_line) : string :=
  prod_name (browse_product (product_product e) (wl_product_id line)).

Definition is_serial (e : Env) (line : wizard_line) : bool :=
  bool_decide
    (prod_tracking (browse_product (product_product e) (wl_product_id line))
     = serial).

Definition has_type (t : resolution_type) (line : wizard_line) : bool :=
  bool_decide (wl_resolution_type line = Some t).

(** [default_get]: when the context has the key ['picking_id'], one
    line per active entry of that transfer, to keep.  [context] is
    [self.env.context], its values the ids it carries. *)
Definition default_get (context : gmap string nat) (e : Env)
  : list wizard_line :=
  match context !! "picking_id" with
  | None => []
  | Some picking_id =>
  match StockPicking.browse e picking_id with
  | Some picking =>
      if is_loan picking then
        map (fun detail =>
               {| tracking_detail_id := ltd_id detail;
                  wl_product_id := ltd_product_id detail;
                  wl_lot_id :=
                    l ← ltd_lot_id detail;
                    find (fun x => bool_decide (lot_ref x = l)) (stock_lots e);
                  loaned_qty := ltd_quantity detail;
                  qty_to_resolve := ltd_quantity detail;
                  wl_resolution_type := Some keep_loan;
                  unit_price := 0;
                  wl_return_condition := Some good |})
          (LoanTrackingDetail.search
             (LoanTrackingDetail.active_of_loan picking_id) e)
      else []
  | None => []
  end
  end.

(** The flags of [_compute_totals]. *)
Definition has_sales (w : wizard) : bool :=
  existsb (has_type buy) (resolution_line_ids w).
Definition has_returns (w : wizard) : bool :=
  existsb (has_type return_) (resolution_line_ids w).
Definition has_continued_loans (w : wizard) : bool :=
  existsb (has_type keep_loan) (resolution_line_ids w).

Definition total_sale_amount (w : wizard) : Q :=
  foldl (fun total_sale l =>
           float_add total_sale (float_mul (qty_to_resolve l) (unit_price l)))
    0%Q (filter (has_type buy) (resolution_line_ids w)).

(** The [@api.constrains] methods of a line. *)
Definition _check_quantity_consistency (e : Env) (line : wizard_line)
  : outcome unit :=
  if Qlt_bool (loaned_qty line) (qty_to_resolve line) then
    Raise (ValidationError
             ("No se puede resolver más cantidad de la prestada para "
              +:+ product_name e line +:+ ". Prestado: "
              +:+ fmt_float (loaned_qty line) +:+ ", Intentando resolver: "
              +:+ fmt_float (qty_to_resolve line)))
  else if Qle_bool (qty_to_resolve line) 0 then
    Raise (ValidationError
             ("La cantidad a resolver debe ser mayor a 0 para "
              +:+ product_name e line))
  else if is_serial e line && negb (Qeq_bool (qty_to_resolve line) 1) then
    Raise (ValidationError
             ("Los productos con número de serie solo permiten cantidades de 1. "
              +:+ "Producto: " +:+ product_name e line))
  else Ok tt.

Definition _check_sale_price (e : Env) (line : wizard_line) : outcome unit :=
  if has_type buy line && Qle_bool (unit_price line) 0 then
    Raise (ValidationError
             ("El precio de venta debe ser mayor a 0 para "
              +:+ product_name e line))
  else Ok tt.

Definition _validate_resolution (self : wizard) : M Env unit :=
  let* e := get in
  when (bool_decide (resolution_line_ids self = []))
    (raise (UserError "No hay productos para resolver.")) >>
  when (existsb (fun l => bool_decide (wl_resolution_type l = None))
          (resolution_line_ids self))
    (raise (UserError
              "Todas las líneas deben tener un tipo de resolución definido.")) >>
  for_each (resolution_line_ids self) (fun line =>
    when (Qle_bool (qty_to_resolve line) 0)
      (raise (UserError
                ("La cantidad a resolver debe ser mayor a 0 para "
                 +:+ product_name e line))) >>
    when (Qlt_bool (loaned_qty line) (qty_to_resolve line))
      (raise (UserError
                ("No se puede resolver más cantidad de la prestada para "
                 +:+ product_name e line +:+ ". Prestado: "
                 +:+ fmt_float (loaned_qty line) +:+ ", Intentando resolver: "
                 +:+ fmt_float (qty_to_resolve line))))) >>
  for_each (filter (has_type buy) (resolution_line_ids self)) (fun line =>
    when (Qle_bool (unit_price line) 0)
      (raise (UserError
                ("El precio de venta debe ser mayor a 0 para "
                 +:+ product_name e line)))).

(** The dictionary [grouped_lines]: keys in insertion order.  A key is
    [(product, price)], or [(product, price, lot or 0)] for a product
    with serial numbers. *)
Record group := {
  g_product_id : nat;
  g_quantity : Q;
  g_price : Q;
  g_lot_name : option string
}.

Definition group_key : Type := nat * Q * option nat.

Definition key_eqb (a b : group_key) : bool :=
  bool_decide (a.1.1 = b.1.1) && Qeq_bool a.1.2 b.1.2
  && bool_decide (a.2 = b.2).

Definition line_key (e : Env) (line : wizard_line) : group_key :=
  (wl_product_id line, unit_price line,
   if is_serial e line
   then Some (default 0%nat (lot_ref <$> wl_lot_id line))
   else None).

Fixpoint add_to_group (k : group_key) (line : wizard_line)
    (groups : list (group_key * group)) : list (group_key * group) :=
  match groups with
  | [] =>
      [ (k, {| g_product_id := wl_product_id line;
               g_quantity := float_add 0 (qty_to_resolve line);
               g_price := unit_price line;
               g_lot_name := lot_name <$> wl_lot_id line |}) ]
  | (k', g) :: rest =>
      if key_eqb k' k then
        (k', {| g_product_id := g_product_id g;
                g_quantity := float_add (g_quantity g) (qty_to_resolve line);
                g_price := g_price g;
                g_lot_name := g_lot_name g |}) :: rest
      else (k', g) :: add_to_group k line rest
  end.

Definition order_line_name (g : group) : string :=
  match g_lot_name g with
  | Some n =>
      if bool_decide (n = "") then "Conversión de préstamo"
      else "Conversión préstamo - S/N: " +:+ n
  | None => "Conversión de préstamo"
  end.

Fixpoint number_lines (order next : nat) (gs : list group)
  : list sale_order_line :=
  match gs with
  | [] => []
  | g :: gs' =>
      {| sol_id := next; sol_order_id := order;
         sol_product_id := g_product_id g;
         sol_product_uom_qty := g_quantity g;
         price_unit := g_price g;
         sol_name := order_line_name g |} :: number_lines order (S next) gs'
  end.

(** [self.env['sale.order'].create(sale_vals)] is the sales subsystem:
    the order gets a fresh id and one line per entry of [order_line]. *)
Definition _create_sale_order (self : wizard) (sale_lines_ : list wizard_line)
  : M Env (list sale_order_line) :=
  let* e := get in
  let grouped_lines :=
    foldl (fun groups line => add_to_group (line_key e line) line groups)
      [] sale_lines_ in
  let order := fresh_id (map sol_order_id (sale_lines e)) in
  let order_line :=
    number_lines order (fresh_id (map sol_id (sale_lines e)))
      (map snd grouped_lines) in
  modify (with_sale_lines (sale_lines e ++ order_line)) >>
  StockPicking.write [wiz_picking_id self]
    [StockPicking.Set_conversion_sale_order_id (Some order)] >>
  ret order_line.

Definition _process_sales (self : wizard) : M Env (option nat) :=
  match filter (has_type buy) (resolution_line_ids self) with
  | [] => ret None
  | sale_lines_ =>
      let* order_line := _create_sale_order self sale_lines_ in
      for_each sale_lines_ (fun line =>
        LoanTrackingDetail.call (tracking_detail_id line) (fun products now =>
          LoanTrackingDetail.action_mark_as_sold products now
            (head (filter
                     (fun sol =>
                        bool_decide (sol_product_id sol = wl_product_id line)
                        && match wl_lot_id line with
                           | None => true
                           | Some l => contains (lot_name l) (sol_name sol)
                           end)
                     order_line))
            (Some (unit_price line)))) >>
      ret (sol_order_id <$> head order_line)
  end.

Definition _create_return_picking (self : wizard)
    (return_lines : list wizard_line) : M Env nat :=
  let* e := get in
  match main_stock_location e with
  | None =>
      raise (UserError "No se encontró almacén principal para devoluciones.")
  | Some _ =>
      let return_type_in_loans_warehouse :=
        default false
          (sp_type_in_loans_warehouse
             <$> StockPicking.browse e (wiz_picking_id self)) in
      let moves :=
        map (fun line =>
               {| mv_product_id := wl_product_id line;
                  product_uom_qty := qty_to_resolve line;
                  mv_lot_ids :=
                    match wl_lot_id line with
                    | Some l => [lot_ref l]
                    | None => []
                    end;
                  move_line_ids := [] |})
          return_lines in
      let* return_picking :=
        StockPicking.create return_type_in_loans_warehouse moves in
      StockPicking.action_confirm return_picking >>
      ret return_picking
  end.

Definition _process_returns (self : wizard) : M Env (option nat) :=
  match filter (has_type return_) (resolution_line_ids self) with
  | [] => ret None
  | return_lines =>
      let* return_picking := _create_return_picking self return_lines in
      for_each return_lines (fun line =>
        let* e := get in
        LoanTrackingDetail.call (tracking_detail_id line) (fun products now =>
          LoanTrackingDetail.write products now
            [ Set_status pending_resolution;
              Set_notes ("Marcado para devolución el " +:+ pretty (today e)
                         +:+ ". Condición: "
                         +:+ return_condition_key (wl_return_condition line)) ]))
      >> ret (Some return_picking)
  end.

Definition _process_continued_loans (self : wizard) : M Env (list nat) :=
  let continued_lines := filter (has_type keep_loan) (resolution_line_ids self) in
  for_each continued_lines (fun line =>
    let* e := get in
    LoanTrackingDetail.call (tracking_detail_id line) (fun products now =>
      LoanTrackingDetail.write products now
        [ Set_notes ("Préstamo extendido el " +:+ pretty (today e)
                     +:+ ". Resolución: mantener en préstamo.") ])) >>
  ret (map tracking_detail_id continued_lines).

Definition _update_original_loan_state (self : wizard) : M Env unit :=
  let* e := get in
  let new_state :=
    if has_continued_loans self then partially_resolved else completed in
  let old_notes :=
    default "" (loan_notes <$> StockPicking.browse e (wiz_picking_id self)) in
  StockPicking.write [wiz_picking_id self]
    [ StockPicking.Set_loan_state new_state;
      StockPicking.Set_loan_notes
        (old_notes +:+ nl +:+ nl +:+ "Resolución " +:+ pretty (today e) +:+ ": "
         +:+ or_else (fun n => bool_decide (n = "")) (default "" (wiz_notes self))
               "Procesado") ].

Record results := {
  sale_order : option nat;
  return_picking : option nat;
  continued_details : list nat
}.

(** [action_process_resolution]; the value returned is the dictionary
    [results] that [_return_resolution_results] renders. *)
Definition action_process_resolution (self : wizard) : M Env results :=
  _validate_resolution self >>
  try_except
    (let* so := if has_sales self then _process_sales self else ret None in
     let* rp := if has_returns self then _process_returns self else ret None in
     let* cd :=
       if has_continued_loans self then _process_continued_loans self
       else ret [] in
     _update_original_loan_state self >>
     ret {| sale_order := so; return_picking := rp; continued_details := cd |})
    (fun e =>
       raise (UserError
                ("Error al procesar la resolución del préstamo: " +:+ str e))).

End LoanResolutionWizard.

(** ** The transition table as the specification words it

    [active → in_trial | resolving]; [in_trial → resolving | completed];
    [resolving → partially_resolved | completed];
    [partially_resolved → resolving | completed]; [completed] is
    terminal. *)
Definition spec_transition (source target : loan_state) : bool :=
  match source, target with
  | loan_active, in_trial | loan_active, resolving => true
  | in_trial, resolving | in_trial, completed => true
  | resolving, partially_resolved | resolving, completed => true
  | partially_resolved, resolving | partially_resolved, completed => true
  | _, _ => false
  end.

(** ** The aggregate state of a loan as the specification words it

    [completed] if no active entry remains, [partially_resolved] if
    some but not all entries are still active, otherwise no change. *)
Definition spec_aggregate_state (n_active n_total : nat) : option loan_state :=
  if (n_active =? 0)%nat then Some completed
  else if (n_active <? n_total)%nat then Some partially_resolved
  else None.

(** ** Well-formed entries of a product without serial numbers

    The lot reference agrees with the product's tracking, as
    [_check_tracking_consistency] left it when the entry was created. *)
Definition non_serial_entry (products : list product)
    (r : loan_tracking_detail) : Prop :=
  match prod_tracking (browse_product products (ltd_product_id r)) with
  | serial => False
  | lot => is_Some (ltd_lot_id r)
  | none => ltd_lot_id r = None
  end.

(** ** Observations of the ledger and computations that keep them *)

(** The ids and quantities of the ledger, in table order. *)
Definition id_qty (r : loan_tracking_detail) : nat * Q :=
  (ltd_id r, ltd_quantity r).

Definition ledger_shape (e : Env) : list (nat * Q) :=
  map id_qty (tracking_details e).

Definition sets_quantity (v : ltd_val) : bool :=
  match v with Set_quantity _ => true | _ => false end.

(** A computation that leaves the observation [f] of the state as it
    was, whether it returns or raises. *)
Definition keeps {X A} (f : Env -> X) (m : M Env A) : Prop :=
  forall e, f (m e).2 = f e.

(** ** Scenarios: concrete products, entries and transfers *)

Module Scenario.

Definition widget : product :=
  {| prod_id := 1; prod_name := "Widget"; prod_tracking := none;
     standard_price := 100; list_price := 150 |}.

Definition laptop : product :=
  {| prod_id := 2; prod_name := "Laptop"; prod_tracking := serial;
     standard_price := 900; list_price := 1200 |}.

Definition reagent : product :=
  {| prod_id := 3; prod_name := "Reagent"; prod_tracking := lot;
     standard_price := 40; list_price := 60 |}.

Definition catalogue : list product := [widget; laptop; reagent].

(** An active entry of [qty] units of [product_id] lent by transfer 1 at
    time 0 to partner 7. *)
Definition entry (i product_id : nat) (lot_id : option nat) (qty : Q)
  : loan_tracking_detail :=
  {| ltd_id := i; ltd_picking_id := 1; ltd_product_id := product_id;
     ltd_lot_id := lot_id; ltd_quantity := qty; ltd_status := active;
     ltd_loan_date := 0; ltd_resolution_date := None;
     ltd_expected_return_date := None; ltd_partner_id := Some 7%nat;
     ltd_original_cost := 100; ltd_sale_price := 0;
     ltd_sale_order_line_id := None; ltd_return_picking_id := None;
     ltd_days_in_loan := 0; ltd_is_overdue := false;
     ltd_notes := ""; ltd_return_condition_notes := "" |}.

Definition three_widgets : loan_tracking_detail := entry 1 1 None 3.

(** One unit of the lot-tracked reagent, lot 11. *)
Definition one_reagent : loan_tracking_detail := entry 2 3 (Some 11%nat) 1.

Definition widget_sale_line : sale_order_line :=
  {| sol_id := 1; sol_order_id := 1; sol_product_id := 1;
     sol_product_uom_qty := 1; price_unit := 150;
     sol_name := "Conversión de préstamo" |}.

(** [three_widgets] once a resolution has marked it for return at time
    100: the consistency check has stamped the date. *)
Definition pending_widgets : loan_tracking_detail :=
  (LoanTrackingDetail.write catalogue 100
     [Set_status pending_resolution; Set_notes "Marcado para devolución"]
     three_widgets).2.

(** The loan transfer 1 (validated, lent to partner 7) in a given
    [loan_state]; [in_loans_warehouse] tells whether its transfer type
    belongs to a loans warehouse. *)
Definition loan_transfer (state : loan_state) (in_loans_warehouse : bool)
  : stock_picking :=
  {| sp_id := 1; sp_name := "LOAN/0001"; sp_state := "done";
     sp_type_in_loans_warehouse := in_loans_warehouse;
     is_loan := true; loan_return_origin_id := None;
     loaned_to_partner_id := Some 7%nat; date_done := Some 0;
     sp_loan_state := Some state;
     loan_expected_return_date := Some 5; loan_notes := "";
     overdue_days := 0; sp_is_overdue := false; sp_user_id := Some 3%nat;
     conversion_sale_order_id := None;
     move_ids_without_package :=
       [ {| mv_product_id := 1; product_uom_qty := 3; mv_lot_ids := [];
            move_line_ids := [ {| ml_lot_id := None; qty_done := 3 |} ] |} ] |}.

(** The return transfer 2 of loan 1, bringing back [qty] widgets. *)
Definition return_transfer (qty : Q) : stock_picking :=
  {| sp_id := 2; sp_name := "RET/0002"; sp_state := "assigned";
     sp_type_in_loans_warehouse := false;
     is_loan := false; loan_return_origin_id := Some 1%nat;
     loaned_to_partner_id := None; date_done := None;
     sp_loan_state := Some loan_active;
     loan_expected_return_date := None; loan_notes := "";
     overdue_days := 0; sp_is_overdue := false; sp_user_id := None;
     conversion_sale_order_id := None;
     move_ids_without_package :=
       [ {| mv_product_id := 1; product_uom_qty := qty; mv_lot_ids := [];
            move_line_ids := [ {| ml_lot_id := None; qty_done := qty |} ] |} ] |}.

(** An ordinary transfer (not a loan) whose [loan_state] column holds
    [completed]. *)
Definition plain_transfer : stock_picking :=
  {| sp_id := 4; sp_name := "INT/0004"; sp_state := "done";
     sp_type_in_loans_warehouse := false;
     is_loan := false; loan_return_origin_id := None;
     loaned_to_partner_id := None; date_done := Some 0;
     sp_loan_state := Some completed;
     loan_expected_return_date := None; loan_notes := "";
     overdue_days := 0; sp_is_overdue := false; sp_user_id := None;
     conversion_sale_order_id := None;
     move_ids_without_package := [] |}.

(** A database on day 10 (second 864000) with the standard activity
    type of the mail module, [mail.mail_activity_data_todo], named
    "To-Do". *)
Definition world (transfers : list stock_picking)
    (entries : list loan_tracking_detail) : Env :=
  {| clock := 864000;
     product_product := catalogue;
     stock_lots := [ {| lot_ref := 11; lot_name := "LOT-11" |} ];
     tracking_details := entries;
     pickings := transfers;
     sale_lines := [];
     activities := [];
     activity_types := [ {| mat_id := 1; mat_name := "To-Do" |} ];
     todo_activity_type := Some 1%nat;
     valuations := [];
     main_stock_location := Some 8%nat;
     current_user := 2 |}.

(** Loan 1 with its three widgets in one active entry. *)
Definition loan_of_three (state : loan_state) (in_loans_warehouse : bool) : Env :=
  world [loan_transfer state in_loans_warehouse] [three_widgets].

(** The same with the return transfer of all three widgets, ready to be
    validated. *)
Definition full_return_pending (state : loan_state) : Env :=
  world [loan_transfer state false; return_transfer 3] [three_widgets].

(** The resolution of the three widgets as one to buy, one to return
    and one to keep: three lines on the entry 1. *)
Definition split_line (t : LoanResolutionWizard.resolution_type) (price : Q)
  : LoanResolutionWizard.wizard_line :=
  {| LoanResolutionWizard.tracking_detail_id := 1;
     LoanResolutionWizard.wl_product_id := 1;
     LoanResolutionWizard.wl_lot_id := None;
     LoanResolutionWizard.loaned_qty := 3;
     LoanResolutionWizard.qty_to_resolve := 1;
     LoanResolutionWizard.wl_resolution_type := Some t;
     LoanResolutionWizard.unit_price := price;
     LoanResolutionWizard.wl_return_condition :=
       Some LoanResolutionWizard.good |}.

Definition three_way_split : LoanResolutionWizard.wizard :=
  {| LoanResolutionWizard.wiz_picking_id := 1;
     LoanResolutionWizard.wiz_resolution_date := 864000;
     LoanResolutionWizard.wiz_notes := None;
     LoanResolutionWizard.resolution_line_ids :=
       [ split_line LoanResolutionWizard.buy 150;
         split_line LoanResolutionWizard.return_ 0;
         split_line LoanResolutionWizard.keep_loan 0 ] |}.

(** Loan 1, five days overdue, as [_compute_overdue_days] stores it. *)
Definition overdue_loan : stock_picking :=
  StockPicking._compute_overdue_days 10 (loan_transfer loan_active false).

Definition overdue_world : Env := world [overdue_loan] [three_widgets].

(** Loan 1 with the valuation rows [create_for_loan] makes for it. *)
Definition valued_world : Env :=
  (LoanValuationTracker.create_for_loan (loan_transfer loan_active false)
     (loan_of_three loan_active false)).2.

End Scenario.

(** * Further models and observations *)

(** The three facts [_check_resolution_consistency] tests or
    establishes. *)
Definition resolution_consistent (r : loan_tracking_detail) : Prop :=
  (ltd_status r = sold -> is_Some (ltd_sale_order_line_id r))
  /\ (LoanTrackingDetail.is_returned (ltd_status r) = true ->
      is_Some (ltd_return_picking_id r))
  /\ (ltd_status r <> active -> is_Some (ltd_resolution_date r)).

(** The fields the resolution check reads. *)
Definition resolution_fields (r : loan_tracking_detail)
  : status * option nat * option nat * option Z :=
  (ltd_status r, ltd_sale_order_line_id r, ltd_return_picking_id r,
   ltd_resolution_date r).

Definition is_terminal (s : status) : bool :=
  bool_decide (s ∈ [sold; returned_good; returned_damaged; returned_defective]).

(** [a] is listed no later than [b]: not after it in
    ['loan_date desc, id desc']. *)
Definition listed_le (a b : loan_tracking_detail) : Prop :=
  ltd_loan_date b < ltd_loan_date a
  \/ (ltd_loan_date a = ltd_loan_date b /\ (ltd_id b <= ltd_id a)%nat).

(** What [_validate_resolution] asks of a submission. *)
Definition line_resolvable (line : LoanResolutionWizard.wizard_line) : Prop :=
  is_Some (LoanResolutionWizard.wl_resolution_type line)
  /\ (0 < LoanResolutionWizard.qty_to_resolve line)%Q
  /\ (LoanResolutionWizard.qty_to_resolve line
      <= LoanResolutionWizard.loaned_qty line)%Q
  /\ (LoanResolutionWizard.wl_resolution_type line
      = Some LoanResolutionWizard.buy ->
      (0 < LoanResolutionWizard.unit_price line)%Q).

Definition resolvable (w : LoanResolutionWizard.wizard) : Prop :=
  LoanResolutionWizard.resolution_line_ids w <> []
  /\ Forall line_resolvable (LoanResolutionWizard.resolution_line_ids w).

(** A check: a computation that returns or raises an exception of the
    given kind, without changing the state. *)
Definition is_check {S} (P : exn -> Prop) (m : M S unit) : Prop :=
  forall s, m s = (Ok tt, s) \/ exists ex, P ex /\ m s = (Raise ex, s).

Definition is_user_error (ex : exn) : Prop := exists msg, ex = UserError msg.
(** The invariant of the dictionary [grouped_lines]: a group carries the
    product and the price of its key. *)
Definition keyed
    (gs : list (LoanResolutionWizard.group_key * LoanResolutionWizard.group))
  : Prop :=
  Forall (fun kg =>
            LoanResolutionWizard.g_product_id kg.2 = kg.1.1.1
            /\ (LoanResolutionWizard.g_price kg.2 == kg.1.1.2)%Q) gs.

(** A group, or a line of the order, of the product of [line] at its
    price. *)
Definition grouped (line : LoanResolutionWizard.wizard_line)
    (gs : list (LoanResolutionWizard.group_key * LoanResolutionWizard.group))
  : Prop :=
  Exists (fun kg =>
            LoanResolutionWizard.g_product_id kg.2
            = LoanResolutionWizard.wl_product_id line
            /\ (LoanResolutionWizard.g_price kg.2
                == LoanResolutionWizard.unit_price line)%Q) gs.

Definition billed (line : LoanResolutionWizard.wizard_line)
    (order_line : list sale_order_line) : Prop :=
  Exists (fun sol =>
            sol_product_id sol = LoanResolutionWizard.wl_product_id line
            /\ (price_unit sol == LoanResolutionWizard.unit_price line)%Q)
    order_line.

(** A property of the database that a computation hands on, whether it
    returns or raises. *)
Definition preserves {A} (I : Env -> Prop) (m : M Env A) : Prop :=
  forall e, I e -> I (m e).2.

(** The transfer [i] is a loan in state [s]. *)
Definition loan_in_state (i : nat) (s : loan_state) (e : Env) : Prop :=
  exists p, StockPicking.browse e i = Some p
            /\ is_loan p = true /\ sp_loan_state p = Some s.

(** What a successful resolution asks of the state of the loan. *)
Definition resolution_target (w : LoanResolutionWizard.wizard) : loan_state :=
  if LoanResolutionWizard.has_continued_loans w
  then partially_resolved else completed.





(** What identifies an entry of the ledger: its id, its loan and its
    product. *)
Definition entry_key (r : loan_tracking_detail) : nat * nat * nat :=
  (ltd_id r, ltd_picking_id r, ltd_product_id r).

Definition ledger_keys (e : Env) : list (nat * nat * nat) :=
  map entry_key (tracking_details e).

Definition same_loan_product (k k' : nat * nat * nat) : Prop :=
  k.1.2 = k'.1.2 /\ k.2 = k'.2.

(** The ledger of [e'] continues that of [e]: the entries of [e] are
    there, in their places, under their ids, loans and products, and an
    entry that was added is of a loan and a product that had one. *)
Definition continues (e e' : Env) : Prop :=
  exists new,
    ledger_keys e' = (ledger_keys e ++ new)%list
    /\ Forall (fun k' => exists k, k ∈ ledger_keys e /\ same_loan_product k k')
         new.

(** A computation whose ledger continues the one it started from,
    whether it returns or raises. *)
Definition grows {A} (m : M Env A) : Prop := forall e, continues e (m e).2.

(** ** models/stock_picking.py: the buttons of a loan and
    [_create_tracking_details] *)

Module LoanActions.

(** The window action the button returns: its name, the wizard model it
    opens and the [default_picking_id] of its context. *)
Record act_window := {
  aw_name : string;
  aw_res_model : string;
  default_picking_id : nat
}.

Definition action_resolve_loan_trial (self : stock_picking)
  : outcome act_window :=
  if negb (is_loan self) then
    Raise (UserError "Solo aplicable a préstamos.")
  else if negb (bool_decide
                  (sp_loan_state self ∈ [Some in_trial; Some loan_active])) then
    Raise (UserError "El préstamo debe estar en período de prueba o activo.")
  else
    Ok {| aw_name := "Resolver Préstamo";
          aw_res_model := "loan.resolution.wizard";
          default_picking_id := sp_id self |}.

(** The ['context'] of the action: its one key is
    ['default_picking_id']. *)
Definition aw_context (a : act_window) : gmap string nat :=
  {[ "default_picking_id" := default_picking_id a ]}.

(** The values [_create_tracking_details] gives [create] for one entry;
    [partner_id] and [expected_return_date] are related fields, stored
    from the transfer. *)
Definition tracking_vals (self : stock_picking) (e : Env) (move : stock_move)
    (lot_id : option nat) (quantity : Q) : loan_tracking_detail :=
  {| ltd_id := 0; ltd_picking_id := sp_id self;
     ltd_product_id := mv_product_id move;
     ltd_lot_id := lot_id; ltd_quantity := quantity; ltd_status := active;
     ltd_loan_date := default (clock e) (date_done self);
     ltd_resolution_date := None;
     ltd_expected_return_date := loan_expected_return_date self;
     ltd_partner_id := loaned_to_partner_id self;
     ltd_original_cost :=
       standard_price (browse_product (product_product e) (mv_product_id move));
     ltd_sale_price := 0;
     ltd_sale_order_line_id := None; ltd_return_picking_id := None;
     ltd_days_in_loan := 0; ltd_is_overdue := false;
     ltd_notes := ""; ltd_return_condition_notes := "" |}.

(** The list [tracking_details] the loops build. *)
Definition tracking_details_of (self : stock_picking) (e : Env)
  : list loan_tracking_detail :=
  flat_map (fun move =>
    if decide (StockPicking.tracking_of e (mv_product_id move) = serial) then
      flat_map (fun move_line =>
        match ml_lot_id move_line with
        | Some l =>
            if Qlt_bool 0 (qty_done move_line)
            then [tracking_vals self e move (Some l) 1]
            else []
        | None => []
        end) (move_line_ids move)
    else
      let qty_done_ := float_sum (map qty_done (move_line_ids move)) in
      if Qlt_bool 0 qty_done_
      then [tracking_vals self e move None qty_done_]
      else [])
    (move_ids_without_package self).

(** [create(tracking_details)] on the list: one row after the other, each
    with its constraints. *)
Definition _create_tracking_details (self : stock_picking) : M Env unit :=
  let* e := get in
  for_each (tracking_details_of self e) (fun vals =>
    let* _ := LoanTrackingDetail.create vals in ret tt).

End LoanActions.
(** What [create] stores of the values it is given. *)
Definition entry_vals (r : loan_tracking_detail)
  : nat * nat * option nat * Q * status * Z * option nat * Q :=
  (ltd_picking_id r, ltd_product_id r, ltd_lot_id r, ltd_quantity r,
   ltd_status r, ltd_loan_date r, ltd_partner_id r, ltd_original_cost r).

(** ** models/stock_picking.py: class ResPartner

    The statistics of a partner and the search methods of the computed
    fields.  A partner is its id; [all_partners] is [self.search([]).ids].
    A search method returns the domain [[('id', 'in', ids)]]: the list
    [ids] stands for it ([[('id', '=', False)]] is the empty list). *)

Module ResPartner.

(** [search([('loaned_to_partner_id', '=', partner.id),
    ('is_loan', '=', True)])] *)
Definition loans_of (partner : nat) (e : Env) : list stock_picking :=
  filter (fun p => bool_decide (loaned_to_partner_id p = Some partner)
                   && is_loan p)
    (pickings e).

Record loan_stats := {
  loan_count : nat;
  active_loans_count : nat;
  overdue_loans_count : nat
}.

(** The searches of [_compute_loan_stats] raise nothing, the [except]
    branch is never taken. *)
Definition _compute_loan_stats (partner : nat) (e : Env) : loan_stats :=
  let loans := loans_of partner e in
  {| loan_count := length loans;
     active_loans_count :=
       length (filter (fun p => StockPicking.in_active_family (sp_loan_state p))
                 loans);
     overdue_loans_count := length (filter sp_is_overdue loans) |}.

Definition _compute_has_active_loans (partner : nat) (e : Env) : bool :=
  (0 <? active_loans_count (_compute_loan_stats partner e))%nat.

(** [records.mapped('loaned_to_partner_id.id')]: the ids of the partners
    of the records, each once, in order of first appearance. *)
Definition mapped_partner_ids (records : list stock_picking) : list nat :=
  foldl (fun acc p =>
           match loaned_to_partner_id p with
           | Some i => if bool_decide (i ∈ acc) then acc else (acc ++ [i])%list
           | None => acc
           end) [] records.

(** The value of a search domain on an integer field: a number, or a
    list for [in] and [not in]. *)
Inductive search_value := VInt (z : Z) | VList (l : list Z).

(** [value == 0] *)
Definition is_zero (value : search_value) : bool :=
  match value with VInt z => z =? 0 | VList _ => false end.

(** [_apply_search_operator]; [None] is the [TypeError] of Python for
    an ordering of a number with a list, or [in] on a number. *)
Definition _apply_search_operator (field_value : Z) (operator : string)
    (search_value_ : search_value) : option bool :=
  if bool_decide (operator = "=") then
    Some (match search_value_ with
          | VInt z => field_value =? z
          | VList _ => false
          end)
  else if bool_decide (operator = "!=") then
    Some (match search_value_ with
          | VInt z => negb (field_value =? z)
          | VList _ => true
          end)
  else if bool_decide (operator = ">") then
    match search_value_ with
    | VInt z => Some (z <? field_value)
    | VList _ => None
    end
  else if bool_decide (operator = ">=") then
    match search_value_ with
    | VInt z => Some (z <=? field_value)
    | VList _ => None
    end
  else if bool_decide (operator = "<") then
    match search_value_ with
    | VInt z => Some (field_value <? z)
    | VList _ => None
    end
  else if bool_decide (operator = "<=") then
    match search_value_ with
    | VInt z => Some (field_value <=? z)
    | VList _ => None
    end
  else if bool_decide (operator = "in") then
    match search_value_ with
    | VInt _ => None
    | VList l => Some (bool_decide (field_value ∈ l))
    end
  else if bool_decide (operator = "not in") then
    match search_value_ with
    | VInt _ => None
    | VList l => Some (negb (bool_decide (field_value ∈ l)))
    end
  else Some false.

(** The loop [for partner in self.browse(ids)] that collects the
    partners whose statistic matches. *)
Fixpoint matching_partners (stat : nat -> nat) (operator : string)
    (value : search_value) (ids : list nat) : option (list nat) :=
  match ids with
  | [] => Some []
  | partner :: rest =>
      b ← _apply_search_operator (Z.of_nat (stat partner)) operator value;
      matching ← matching_partners stat operator value rest;
      Some (if b : bool then partner :: matching else matching)
  end.

Definition _search_loan_count (operator : string) (value : search_value)
    (all_partners : list nat) (e : Env) : option (list nat) :=
  let partners_with_loans :=
    mapped_partner_ids (filter is_loan (pickings e)) in
  if bool_decide (operator = ">") && is_zero value then
    Some partners_with_loans
  else if bool_decide (operator = "=") && is_zero value then
    Some (filter (fun p => negb (bool_decide (p ∈ partners_with_loans)))
            all_partners)
  else
    matching_partners (fun p => loan_count (_compute_loan_stats p e))
      operator value partners_with_loans.

(** The domain [[('is_loan', '=', True), ('loan_state', 'in',
    ['active', 'in_trial', 'partially_resolved'])]] *)
Definition active_loan (p : stock_picking) : bool :=
  is_loan p && StockPicking.in_active_family (sp_loan_state p).

Definition _search_has_active_loans (operator : string) (value : bool)
    (all_partners : list nat) (e : Env) : list nat :=
  let partners_with_active :=
    mapped_partner_ids (filter active_loan (pickings e)) in
  let partners_without_active :=
    filter (fun p => negb (bool_decide (p ∈ partners_with_active)))
      all_partners in
  if bool_decide (operator = "=") && value then partners_with_active
  else if bool_decide (operator = "=") && negb value then
    partners_without_active
  else if bool_decide (operator = "!=") && value then partners_without_active
  else if bool_decide (operator = "!=") && negb value then
    partners_with_active
  else if value then partners_with_active
  else [].

Definition _search_active_loans_count (operator : string)
    (value : search_value) (all_partners : list nat) (e : Env)
  : option (list nat) :=
  let partners_with_active :=
    mapped_partner_ids (filter active_loan (pickings e)) in
  if bool_decide (operator = ">") && is_zero value then
    Some partners_with_active
  else if bool_decide (operator = "=") && is_zero value then
    Some (filter (fun p => negb (bool_decide (p ∈ partners_with_active)))
            all_partners)
  else
    matching_partners (fun p => active_loans_count (_compute_loan_stats p e))
      operator value partners_with_active.

Definition _search_overdue_loans_count (operator : string)
    (value : search_value) (all_partners : list nat) (e : Env)
  : option (list nat) :=
  let partners_with_overdue :=
    mapped_partner_ids
      (filter (fun p => is_loan p && sp_is_overdue p) (pickings e)) in
  if bool_decide (operator = ">") && is_zero value then
    Some partners_with_overdue
  else if bool_decide (operator = "=") && is_zero value then
    Some (filter (fun p => negb (bool_decide (p ∈ partners_with_overdue)))
            all_partners)
  else
    matching_partners (fun p => overdue_loans_count (_compute_loan_stats p e))
      operator value partners_with_overdue.

End ResPartner.

(** What a search on a counter finds: the partners whose counter
    matches, among those with a positive counter; those without are
    found by [('=', 0)] alone. *)
Definition finds (stat : nat -> nat) (operator : string)
    (value : ResPartner.search_value) (all_partners : list nat)
    (p : nat) : Prop :=
  ResPartner._apply_search_operator (Z.of_nat (stat p)) operator value
  = Some true
  /\ (if bool_decide (operator = "=") && ResPartner.is_zero value
      then p ∈ all_partners else (0 < stat p)%nat).

(** ** models/loan_tracking_detail.py: the valuation report *)

Module ValuationReport.

Record report := {
  unresolved_loans_count : nat;
  total_original_value : Q;
  total_current_value : Q;
  total_valuation_impact : Q;
  avg_valuation_difference : Q;
  significant_differences : list loan_valuation_tracker
}.

(** [search([('is_resolved', '=', False)])]; the rows are given in table
    order. *)
Definition unresolved (e : Env) : list loan_valuation_tracker :=
  filter (fun r => negb (is_resolved r)) (valuations e).

(** [abs(r.valuation_difference) > r.original_cost * 0.1] *)
Definition significant (r : loan_valuation_tracker) : bool :=
  negb (float_le (Qabs (valuation_difference r))
          (float_mul (lvt_original_cost r) (1 # 10))).

(** The costs are floats: the sums, the difference and the quotient are
    those of floats. *)
Definition get_valuation_impact_report (e : Env) : outcome report :=
  let unresolved_records := unresolved e in
  let total_original := float_sum (map lvt_original_cost unresolved_records) in
  let total_current := float_sum (map current_cost unresolved_records) in
  let total_difference := float_sub total_current total_original in
  and_then
    (match unresolved_records with
     | [] => Ok 0%Q
     | _ => float_truediv total_difference
              (inject_Z (Z.of_nat (length unresolved_records)))
     end)
    (fun avg =>
  Ok {| unresolved_loans_count := length unresolved_records;
        total_original_value := total_original;
        total_current_value := total_current;
        total_valuation_impact := total_difference;
        avg_valuation_difference := avg;
        significant_differences := filter significant unresolved_records |}).

End ValuationReport.




(** ** models/stock_picking.py: the locations of loans

    [_get_shared_temporary_location] of [StockPicking] and
    [_get_or_create_dedicated_location] of [ResPartner] read and write
    the location table of the inventory engine and one field of the
    partner. *)

Module LoanLocations.

(** [stock.location]: the fields the two methods set. *)
Record stock_location := {
  loc_id : nat;
  loc_name : string;
  loc_location_id : nat;
  loc_partner_id : option nat
}.

(** [loans_stock_location] is [lot_stock_id] of the first warehouse of
    type ['loans'], when there is one; [dedicated_loan_location_id] is
    the field of that name, by partner. *)
Record Db := {
  loans_stock_location : option nat;
  stock_locations : list stock_location;
  dedicated_loan_location_id : gmap nat nat
}.

Definition with_location (l : stock_location) (db : Db) : Db :=
  {| loans_stock_location := loans_stock_location db;
     stock_locations := (stock_locations db ++ [l])%list;
     dedicated_loan_location_id := dedicated_loan_location_id db |}.

Definition with_dedicated (partner location : nat) (db : Db) : Db :=
  {| loans_stock_location := loans_stock_location db;
     stock_locations := stock_locations db;
     dedicated_loan_location_id :=
       <[partner := location]> (dedicated_loan_location_id db) |}.

(** The domain [[('name', '=', 'Préstamos Temporales'),
    ('location_id', '=', parent)]] *)
Definition is_shared (parent : nat) (l : stock_location) : bool :=
  bool_decide (loc_name l = "Préstamos Temporales")
  && bool_decide (loc_location_id l = parent).

Definition _get_shared_temporary_location : M Db nat :=
  let* db := get in
  match loans_stock_location db with
  | None => raise (UserError "No se encontró almacén de préstamos configurado.")
  | Some parent =>
      match head (filter (is_shared parent) (stock_locations db)) with
      | Some temp_location => ret (loc_id temp_location)
      | None =>
          let i := fresh_id (map loc_id (stock_locations db)) in
          modify (with_location
                    {| loc_id := i; loc_name := "Préstamos Temporales";
                       loc_location_id := parent; loc_partner_id := None |})
          >> ret i
      end
  end.

Definition _get_or_create_dedicated_location (self : nat) (name : string)
  : M Db nat :=
  let* db := get in
  match dedicated_loan_location_id db !! self with
  | Some location => ret location
  | None =>
      match loans_stock_location db with
      | None =>
          raise (UserError "No se encontró almacén de préstamos configurado.")
      | Some parent =>
          let i := fresh_id (map loc_id (stock_locations db)) in
          modify (with_location
                    {| loc_id := i; loc_name := "Préstamos - " +:+ name;
                       loc_location_id := parent;
                       loc_partner_id := Some self |}) >>
          modify (with_dedicated self i) >>
          ret i
      end
  end.

End LoanLocations.

(** Every dedicated location is in the table, and no two partners have
    the same one. *)
Definition dedicated_ok (db : LoanLocations.Db) : Prop :=
  (forall p l, LoanLocations.dedicated_loan_location_id db !! p = Some l ->
     l ∈ map LoanLocations.loc_id (LoanLocations.stock_locations db))
  /\ (forall p q l,
        LoanLocations.dedicated_loan_location_id db !! p = Some l ->
        LoanLocations.dedicated_loan_location_id db !! q = Some l -> p = q).

(** ** Further scenarios *)

Module Examples.
Import Scenario.

(** The resolution that buys the three widgets of entry 1 at 150. *)
Definition buy_all : LoanResolutionWizard.wizard :=
  {| LoanResolutionWizard.wiz_picking_id := 1;
     LoanResolutionWizard.wiz_resolution_date := 864000;
     LoanResolutionWizard.wiz_notes := None;
     LoanResolutionWizard.resolution_line_ids :=
       [ {| LoanResolutionWizard.tracking_detail_id := 1;
            LoanResolutionWizard.wl_product_id := 1;
            LoanResolutionWizard.wl_lot_id := None;
            LoanResolutionWizard.loaned_qty := 3;
            LoanResolutionWizard.qty_to_resolve := 3;
            LoanResolutionWizard.wl_resolution_type :=
              Some LoanResolutionWizard.buy;
            LoanResolutionWizard.unit_price := 150;
            LoanResolutionWizard.wl_return_condition :=
              Some LoanResolutionWizard.good |} ] |}.

(** The wizard as the button of loan 1, in state [active], opens it. *)
Definition untouched_wizard : LoanResolutionWizard.wizard :=
  {| LoanResolutionWizard.wiz_picking_id := 1;
     LoanResolutionWizard.wiz_resolution_date := 864000;
     LoanResolutionWizard.wiz_notes := None;
     LoanResolutionWizard.resolution_line_ids :=
       LoanResolutionWizard.default_get
         (LoanActions.aw_context
            {| LoanActions.aw_name := "Resolver Préstamo";
               LoanActions.aw_res_model := "loan.resolution.wizard";
               LoanActions.default_picking_id := 1 |})
         (loan_of_three loan_active false) |}.


(** Loan 1 in state [resolving] with the return of two of its three
    widgets, ready to be validated. *)
Definition partial_return_pending : Env :=
  world [loan_transfer resolving false; return_transfer 2] [three_widgets].

(** A loans warehouse whose stock location is 20, and no dedicated
    location yet. *)
Definition loans_db : LoanLocations.Db :=
  {| LoanLocations.loans_stock_location := Some 20%nat;
     LoanLocations.stock_locations :=
       [ {| LoanLocations.loc_id := 20; LoanLocations.loc_name := "Stock";
            LoanLocations.loc_location_id := 19;
            LoanLocations.loc_partner_id := None |} ];
     LoanLocations.dedicated_loan_location_id := ∅ |}.

(** Loan 1 in state [resolving], lent as 0.1 and 0.2 of the widget,
    with the return of 0.3, ready to be validated. *)
Definition decimal_return_pending : Env :=
  world [loan_transfer resolving false; return_transfer (3 # 10)]
    [entry 1 1 None (1 # 10); entry 2 1 None (2 # 10)].

(** A valuation row of a product lent at cost 0.3 that now costs 0.1,
    in the database of loan 1. *)
Definition cheaper_row : loan_valuation_tracker :=
  {| lvt_id := 1; lvt_picking_id := 9; lvt_product_id := Some 3%nat;
     lvt_lot_id := None; lvt_loan_date := 0; lvt_original_cost := 3 # 10;
     current_cost := 1 # 10;
     valuation_difference := float_sub (1 # 10) (3 # 10);
     is_resolved := false; resolution_type := None; final_cost := 0 |}.

Definition cheaper_world : Env :=
  with_valuations [cheaper_row] (loan_of_three loan_active false).

End Examples.

(** * Properties *)

(** ** The tracking ledger *)

Section TrackingLedger.

Import LoanTrackingDetail.

Variable products : list product.
Variable now : Z.

Lemma status_mapping_fallback (condition : string) :
  condition <> "good" -> condition <> "damaged" -> condition <> "defective" ->
  status_mapping !! condition = None.
Proof.
  intros H1 H2 H3. unfold status_mapping.
  by rewrite !lookup_insert_ne, lookup_singleton_ne.
Qed.

Lemma check_resolution_cases r :
  _check_resolution_consistency now r =
  if bool_decide (ltd_status r = sold)
     && negb (bool_decide (is_Some (ltd_sale_order_line_id r)))
  then (Raise (ValidationError
         "Los préstamos vendidos deben tener una línea de orden de venta asociada."), r)
  else if is_returned (ltd_status r)
          && negb (bool_decide (is_Some (ltd_return_picking_id r)))
  then (Raise (ValidationError
         "Los préstamos devueltos deben tener una transferencia de devolución asociada."), r)
  else if negb (bool_decide (ltd_status r = active))
          && negb (bool_decide (is_Some (ltd_resolution_date r)))
  then (Ok tt, recompute now [Set_resolution_date (Some now)]
                 (assign (Set_resolution_date (Some now)) r))
  else (Ok tt, r).
Proof.
  unfold _check_resolution_consistency, bind, get, when, raise, ret, modify.
  repeat (destruct (_ && _); simpl; try reflexivity).
Qed.

Lemma check_resolution_keeps_date r d :
  ltd_resolution_date r = Some d ->
  ltd_resolution_date (_check_resolution_consistency now r).2 = Some d.
Proof.
  intros Hd. rewrite check_resolution_cases, Hd.
  rewrite (bool_decide_eq_true_2 (is_Some (Some d))) by eauto.
  rewrite andb_false_r.
  repeat (destruct (_ && _); simpl; try done).
Qed.

Lemma check_resolution_stamps r :
  ltd_status r <> active ->
  ltd_resolution_date r = None ->
  succeeded (_check_resolution_consistency now r) = true ->
  ltd_resolution_date (_check_resolution_consistency now r).2 = Some now.
Proof.
  intros Hs Hd. rewrite check_resolution_cases, Hd.
  rewrite (bool_decide_eq_false_2 (ltd_status r = active)) by done.
  rewrite (bool_decide_eq_false_2 (is_Some None)) by (intros [? ?]; done).
  simpl.
  repeat (destruct (_ && _); simpl; try done).
Qed.

Lemma status_mapping_returned (condition : string) :
  is_returned (default returned_good (status_mapping !! condition)) = true.
Proof.
  unfold status_mapping.
  destruct (decide (condition = "good")) as [->|H1];
    [rewrite lookup_insert_eq; reflexivity|].
  rewrite lookup_insert_ne by done.
  destruct (decide (condition = "damaged")) as [->|H2];
    [rewrite lookup_insert_eq; reflexivity|].
  rewrite lookup_insert_ne by done.
  destruct (decide (condition = "defective")) as [->|H3];
    [rewrite lookup_singleton_eq; reflexivity|].
  rewrite lookup_singleton_ne by done. reflexivity.
Qed.

Lemma mark_returned_from_open rp condition notes r :
  ltd_status r ∈ [active; pending_resolution] ->
  exists r',
    action_mark_as_returned products now (Some rp) condition notes r = (Ok tt, r')
    /\ ltd_status r' = default returned_good (status_mapping !! condition)
    /\ ltd_return_picking_id r' = Some rp
    /\ ltd_resolution_date r' = Some now
    /\ ltd_return_condition_notes r' = default "" notes
    /\ ltd_quantity r' = ltd_quantity r
    /\ ltd_id r' = ltd_id r.
Proof.
  intros Hs. unfold action_mark_as_returned, bind, get.
  rewrite bool_decide_eq_true_2 by done. simpl.
  pose proof (status_mapping_returned condition) as Hm.
  destruct r; simpl in *.
  destruct (default returned_good (status_mapping !! condition));
    try discriminate Hm;
    (eexists; split; [reflexivity|]; simpl; auto 10).
Qed.

Lemma mark_sold_stamps l price r :
  ltd_status r = active ->
  ltd_resolution_date (action_mark_as_sold products now (Some l) price r).2
  = Some now.
Proof. intros Hs. destruct r; simpl in *; subst. reflexivity. Qed.

Lemma check_tracking_accepts r :
  let p := browse_product products (ltd_product_id r) in
  succeeded (_check_tracking_consistency products r) = true <->
    (prod_tracking p = serial ->
       is_Some (ltd_lot_id r) /\ (ltd_quantity r == 1)%Q)
    /\ (prod_tracking p = lot -> is_Some (ltd_lot_id r))
    /\ (prod_tracking p = none <-> ltd_lot_id r = None).
Proof.
  unfold _check_tracking_consistency, bind, get, raise, ret, succeeded. simpl.
  destruct (prod_tracking _) eqn:Ht, (ltd_lot_id r) eqn:Hl; simpl.
  - destruct (Qeq_bool (ltd_quantity r) 1) eqn:Hq; simpl.
    + apply Qeq_bool_iff in Hq. split; [intros _|done].
      split_and!; [eauto | done | done].
    + split; [done|]. intros (H1 & _). destruct (H1 eq_refl) as [_ H].
      apply Qeq_bool_iff in H. congruence.
  - split; [done|]. intros (H1 & _). destruct (H1 eq_refl) as [[? ?] _]. done.
  - split; [intros _|done]. split_and!; [done | eauto | done].
  - split; [done|]. intros (_ & H2 & _). destruct (H2 eq_refl) as [? ?]. done.
  - split; [done|]. intros (_ & _ & H3). by destruct H3 as [H3 _]; specialize (H3 eq_refl).
  - split; [intros _|done]. split_and!; done.
Qed.

Lemma check_tracking_state r :
  (_check_tracking_consistency products r).2 = r.
Proof.
  unfold _check_tracking_consistency, bind, get, raise, ret. simpl.
  repeat case_match; reflexivity.
Qed.

Lemma check_tracking_raises r :
  succeeded (_check_tracking_consistency products r) = false ->
  exists msg,
    _check_tracking_consistency products r = (Raise (ValidationError msg), r).
Proof.
  unfold _check_tracking_consistency, bind, get, raise, ret, succeeded. simpl.
  repeat case_match; intros; simplify_eq; eauto.
Qed.

Lemma write_rejects_inconsistent vals r :
  touches [F_quantity; F_product_id; F_lot_id] vals = true ->
  succeeded (_check_tracking_consistency products (assign_all vals r)) = false ->
  exists msg,
    write products now vals r = (Raise (ValidationError msg), assign_all vals r).
Proof.
  intros Ht Hc. destruct (check_tracking_raises _ Hc) as [msg Hm].
  exists msg. unfold write, bind, modify, when. rewrite Ht, Hm. reflexivity.
Qed.

Lemma mark_sold_from_active l price r :
  ltd_status r = active ->
  exists r',
    action_mark_as_sold products now (Some l) price r = (Ok tt, r')
    /\ ltd_status r' = sold
    /\ ltd_sale_order_line_id r' = Some (sol_id l)
    /\ ltd_sale_price r' = or_else Qfalsy (default 0%Q price) (price_unit l)
    /\ ltd_resolution_date r' = Some now.
Proof.
  intros Hs. destruct r; simpl in Hs; subst.
  eexists. split; [reflexivity|]. simpl. auto.
Qed.

Lemma mark_sold_refused line price r :
  ltd_status r <> active ->
  action_mark_as_sold products now line price r
  = (Raise (UserError
              "Solo los préstamos activos pueden marcarse como vendidos."), r).
Proof.
  intros Hs. unfold action_mark_as_sold, bind, get, raise.
  by rewrite bool_decide_eq_false_2.
Qed.

End TrackingLedger.

Lemma filter_none {A} (p : A -> bool) (l : list A) :
  Forall (fun x => p x = false) l -> filter p l = [].
Proof.
  induction 1 as [|x l Hx _ IH]; [done|].
  rewrite filter_cons_False; [done|]. rewrite Hx. exact id.
Qed.

(** ** Tables and the monad *)

Section Tables.
Context {R : Type} (key : R -> nat).

Lemma row_key i tbl r : row key i tbl = Some r -> key r = i.
Proof.
  intros H. apply find_some in H as [_ H]. by apply bool_decide_eq_true in H.
Qed.

Lemma on_row_Some {A} i (m : M R A) tbl r :
  row key i tbl = Some r ->
  on_row key i m tbl = ((m r).1, replace_row key i (m r).2 tbl).
Proof.
  unfold row. induction tbl as [|x tbl IH]; simpl; [done|].
  destruct (bool_decide (key x = i)).
  - intros [= ->]. by destruct (m r).
  - intros H. rewrite (IH H). reflexivity.
Qed.

Lemma on_row_None {A} i (m : M R A) tbl :
  row key i tbl = None ->
  on_row key i m tbl = (Raise (ValueError "Expected singleton"), tbl).
Proof.
  unfold row. induction tbl as [|x tbl IH]; simpl; [done|].
  destruct (bool_decide (key x = i)); [done|].
  intros H. by rewrite (IH H).
Qed.

Lemma replace_row_same i tbl r :
  row key i tbl = Some r -> replace_row key i r tbl = tbl.
Proof.
  unfold row. induction tbl as [|x tbl IH]; simpl; [done|].
  destruct (bool_decide (key x = i)).
  - by intros [= ->].
  - intros H. by rewrite (IH H).
Qed.

Lemma row_replace_row i tbl r r' :
  row key i tbl = Some r -> key r' = i ->
  row key i (replace_row key i r' tbl) = Some r'.
Proof.
  unfold row. intros H Hk. induction tbl as [|x tbl IH]; simpl in *; [done|].
  destruct (bool_decide (key x = i)) eqn:E; simpl.
  - by rewrite bool_decide_eq_true_2.
  - rewrite E. auto.
Qed.

Lemma row_replace_row_ne i j tbl r' :
  i <> j -> key r' = i ->
  row key j (replace_row key i r' tbl) = row key j tbl.
Proof.
  unfold row. intros Hij Hk. induction tbl as [|x tbl IH]; simpl; [done|].
  destruct (bool_decide (key x = i)) eqn:E; simpl.
  - apply bool_decide_eq_true in E.
    rewrite !bool_decide_eq_false_2 by congruence. reflexivity.
  - by rewrite IH.
Qed.

Lemma length_replace_row i r' tbl :
  length (replace_row key i r' tbl) = length tbl.
Proof.
  induction tbl as [|x tbl IH]; simpl; [done|].
  destruct (bool_decide (key x = i)); simpl; congruence.
Qed.

Lemma row_app_l i tbl tbl' r :
  row key i tbl = Some r -> row key i (tbl ++ tbl') = Some r.
Proof.
  unfold row. induction tbl as [|x tbl IH]; simpl; [done|].
  destruct (bool_decide (key x = i)); auto.
Qed.

End Tables.

Lemma when_ret {S} b (s : S) : when b (ret tt) s = (Ok tt, s).
Proof. by destruct b. Qed.

Lemma for_each_one {S A} (x : A) (body : A -> M S unit) (s : S) :
  for_each [x] body s = body x s.
Proof. simpl. unfold bind, ret. by destruct (body x s) as [[[]|] ?]. Qed.

Lemma bind_run {S A B} (m : M S A) (k : A -> M S B) (s : S) :
  bind m k s =
  match m s with
  | (Ok a, s') => k a s'
  | (Raise e, s') => (Raise e, s')
  end.
Proof. reflexivity. Qed.

Lemma with_pickings_same e : with_pickings (pickings e) e = e.
Proof. by destruct e. Qed.

Lemma with_tracking_details_same e :
  with_tracking_details (tracking_details e) e = e.
Proof. by destruct e. Qed.

(** ** The loan transfer state machine *)

Section Transitions.
Import StockPicking.

Lemma valid_transitions_spec s n :
  bool_decide (n ∈ dict_get valid_transitions s []) = spec_transition s n.
Proof. by destruct s, n. Qed.

Lemma validate_cases n p s :
  sp_loan_state p = Some s ->
  _validate_state_transition n p =
    if spec_transition s n then (Ok tt, p)
    else (Raise (ValidationError
                   ("Transición de estado no válida: "
                    +:+ loan_state_key s +:+ " → " +:+ loan_state_key n)), p).
Proof.
  intros Hs. unfold _validate_state_transition, bind, get, raise, ret.
  rewrite Hs, valid_transitions_spec. by destruct (spec_transition s n).
Qed.

Lemma base_write_loan_state today n p :
  sp_loan_state (base_write today [Set_loan_state n] p) = Some n
  /\ sp_id (base_write today [Set_loan_state n] p) = sp_id p
  /\ is_loan (base_write today [Set_loan_state n] p) = is_loan p.
Proof.
  unfold base_write, _compute_overdue_days. simpl.
  repeat case_match; simpl; auto.
Qed.

Lemma call_Some {A} e i p (m : M stock_picking A) :
  browse e i = Some p ->
  StockPicking.call i m e =
    ((m p).1, with_pickings (replace_row sp_id i (m p).2 (pickings e)) e).
Proof.
  intros Hb. unfold StockPicking.call, zoom.
  by rewrite (on_row_Some sp_id i m _ p Hb).
Qed.

Lemma call_read_only {A} e i p (m : M stock_picking A) :
  browse e i = Some p -> (m p).2 = p ->
  StockPicking.call i m e = ((m p).1, e).
Proof.
  intros Hb Hp. rewrite (call_Some e i p m Hb), Hp.
  by rewrite (replace_row_same sp_id i _ p Hb), with_pickings_same.
Qed.

Lemma validate_unset n p :
  sp_loan_state p = None -> _validate_state_transition n p = (Ok tt, p).
Proof.
  intros Hs. unfold _validate_state_transition, bind, get, ret. by rewrite Hs.
Qed.

Lemma validate_read_only n p : (_validate_state_transition n p).2 = p.
Proof.
  unfold _validate_state_transition, bind, get, raise, ret.
  repeat case_match; reflexivity.
Qed.

Lemma trigger_phase (b : stock_picking -> bool) i e :
  (let* e0 := get in
   match browse e0 i with
   | Some picking => when (b picking) (_trigger_quantity_recalculation i)
   | None => ret tt
   end) e = (Ok tt, e).
Proof.
  unfold bind, get. simpl. destruct (browse e i); [|done].
  apply when_ret.
Qed.

(** Writing [loan_state] on one transfer. *)
Lemma write_loan_state_cases e i p n :
  browse e i = Some p ->
  StockPicking.write [i] [Set_loan_state n] e =
    match sp_loan_state p with
    | Some s =>
        if is_loan p && negb (spec_transition s n) then
          (Raise (ValidationError
                    ("Transición de estado no válida: "
                     +:+ loan_state_key s +:+ " → " +:+ loan_state_key n)), e)
        else
          (Ok tt,
           with_pickings
             (replace_row sp_id i (base_write (today e) [Set_loan_state n] p)
                (pickings e)) e)
    | None =>
        (Ok tt,
         with_pickings
           (replace_row sp_id i (base_write (today e) [Set_loan_state n] p)
              (pickings e)) e)
    end.
Proof.
  intros Hb.
  assert (Hrest :
    (let* e0 := get in
     for_each [i] (fun i => call i (modify (base_write (today e0) [Set_loan_state n]))) >>
     for_each [i] (fun i =>
       let* e1 := get in
       match browse e1 i with
       | Some picking =>
           when (existsb (fun v => match v with
                                   | Set_state _ | Set_loan_state _ => true
                                   | _ => false
                                   end) [Set_loan_state n]
                 && (is_loan picking
                     || bool_decide (is_Some (loan_return_origin_id picking))))
             (_trigger_quantity_recalculation i)
       | None => ret tt
       end)) e
    = (Ok tt,
       with_pickings
         (replace_row sp_id i (base_write (today e) [Set_loan_state n] p)
            (pickings e)) e)).
  { rewrite bind_run. unfold get at 1. cbv beta iota.
    rewrite bind_run, for_each_one, (call_Some e i p _ Hb).
    unfold modify. cbn [fst snd].
    rewrite for_each_one. apply trigger_phase. }
  assert (Hval :
    match new_loan_state [Set_loan_state n] with
    | Some new_state => for_each [i] (validation_step new_state)
    | None => ret tt
    end e
    = (if is_loan p then (_validate_state_transition n p).1 else Ok tt, e)).
  { change (new_loan_state [Set_loan_state n]) with (Some n). cbv beta iota.
    rewrite for_each_one. unfold validation_step. rewrite bind_run.
    unfold get at 1. cbv beta iota.
    rewrite Hb.
    destruct (is_loan p); simpl; [|done].
    by rewrite (call_read_only e i p _ Hb (validate_read_only n p)). }
  unfold StockPicking.write. rewrite bind_run, Hval.
  destruct (is_loan p) eqn:Hloan.
  - destruct (sp_loan_state p) as [s|] eqn:Hs.
    + rewrite (validate_cases n p s Hs).
      destruct (spec_transition s n); cbn [fst negb andb];
        [apply Hrest | reflexivity].
    + rewrite (validate_unset n p Hs). cbn [fst]. apply Hrest.
  - cbv beta iota. rewrite Hrest. by destruct (sp_loan_state p).
Qed.
Lemma validation_step_read_only n i e :
  (validation_step n i e).2 = e.
Proof.
  unfold validation_step. rewrite bind_run. unfold get at 1. cbv beta iota.
  destruct (browse e i) as [p|] eqn:Hb; [|done].
  destruct (is_loan p); [|done]. simpl.
  by rewrite (call_read_only e i p _ Hb (validate_read_only n p)).
Qed.

Lemma validation_step_refuses n i e p s :
  browse e i = Some p ->
  is_loan p = true ->
  sp_loan_state p = Some s ->
  spec_transition s n = false ->
  succeeded (validation_step n i e) = false.
Proof.
  intros Hb Hl Hs Ht. unfold validation_step. rewrite bind_run.
  unfold get at 1. cbv beta iota. rewrite Hb, Hl. simpl.
  rewrite (call_read_only e i p _ Hb (validate_read_only n p)).
  by rewrite (validate_cases n p s Hs), Ht.
Qed.

Lemma validation_phase_refuses n self i e p s :
  i ∈ self ->
  browse e i = Some p ->
  is_loan p = true ->
  sp_loan_state p = Some s ->
  spec_transition s n = false ->
  succeeded (for_each self (validation_step n) e) = false.
Proof.
  intros Hin Hb Hl Hs Ht.
  induction self as [|j self IH]; [by apply elem_of_nil in Hin|].
  cbn [for_each]. rewrite bind_run.
  pose proof (validation_step_read_only n j e) as Hro.
  destruct (validation_step n j e) as [[[]|ex] e'] eqn:Hj; [|done].
  simpl in Hro. subst e'.
  apply elem_of_cons in Hin as [->|Hin]; [|by apply IH].
  pose proof (validation_step_refuses n j e p s Hb Hl Hs Ht) as Hr.
  by rewrite Hj in Hr.
Qed.

Lemma write_recordset_validated self n e i p s :
  i ∈ self ->
  browse e i = Some p ->
  is_loan p = true ->
  sp_loan_state p = Some s ->
  succeeded (write self [Set_loan_state n] e) = true ->
  spec_transition s n = true.
Proof.
  intros Hin Hb Hl Hs Hok.
  destruct (spec_transition s n) eqn:Ht; [done|].
  pose proof (validation_phase_refuses n self i e p s Hin Hb Hl Hs Ht) as Hv.
  unfold write in Hok. rewrite bind_run in Hok.
  change (new_loan_state [Set_loan_state n])
    with (Some n) in Hok. cbv beta iota in Hok.
  destruct (for_each self (validation_step n) e) as [[[]|ex] e']; done.
Qed.

Lemma write_loan_state_stored e i p n :
  browse e i = Some p ->
  sp_loan_state
    <$> browse
          (with_pickings
             (replace_row sp_id i (base_write (today e) [Set_loan_state n] p)
                (pickings e)) e) i
  = Some (Some n).
Proof.
  intros Hb.
  pose proof (base_write_loan_state (today e) n p) as (Hn & Hid & _).
  unfold browse.
  replace (pickings (with_pickings _ e)) with
    (replace_row sp_id i (base_write (today e) [Set_loan_state n] p)
       (pickings e)) by (by destruct e).
  pose proof (row_replace_row sp_id i (pickings e) p
                (base_write (today e) [Set_loan_state n] p) Hb) as Hrow.
  unfold row in Hrow. rewrite Hrow; [by rewrite <- Hn|].
  rewrite Hid. apply (row_key sp_id i (pickings e) p Hb).
Qed.

(** The outcome of the validated write of [loan_state] on the
    transfer [p], whose state is [s]. *)
Lemma write_loan_state_outcome e i p s n :
  browse e i = Some p ->
  sp_loan_state p = Some s ->
  (is_loan p && negb (spec_transition s n) = true ->
     StockPicking.write [i] [Set_loan_state n] e
     = (Raise (ValidationError
                 ("Transición de estado no válida: "
                  +:+ loan_state_key s +:+ " → " +:+ loan_state_key n)), e))
  /\ (is_loan p && negb (spec_transition s n) = false ->
      exists e',
        StockPicking.write [i] [Set_loan_state n] e = (Ok tt, e')
        /\ (sp_loan_state <$> browse e' i) = Some (Some n)
        /\ tracking_details e' = tracking_details e).
Proof.
  intros Hb Hs. rewrite (write_loan_state_cases e i p n Hb), Hs.
  split; intros ->; [done|].
  eexists. split; [reflexivity|]. split; [by apply write_loan_state_stored|].
  by destruct e.
Qed.

End Transitions.

(** ** Return reconciliation *)

Section Reconciliation.

Lemma ltd_call_Some {A} e i r
    (m : list product -> Z -> M loan_tracking_detail A) :
  LoanTrackingDetail.browse e i = Some r ->
  LoanTrackingDetail.call i m e =
    ((m (product_product e) (clock e) r).1,
     with_tracking_details
       (replace_row ltd_id i (m (product_product e) (clock e) r).2
          (tracking_details e)) e).
Proof.
  intros Hb. unfold LoanTrackingDetail.call, zoom. rewrite bind_run.
  unfold get at 1. cbv beta iota.
  by rewrite (on_row_Some ltd_id i _ _ r Hb).
Qed.

Lemma consume_stop self records remaining e :
  float_le remaining 0 = true \/ records = [] ->
  StockPicking.consume_returned self records remaining e = (Ok tt, e).
Proof.
  intros [H| ->]; [|done]. destruct records; [done|]. simpl. by rewrite H.
Qed.

Lemma check_tracking_non_serial products r :
  non_serial_entry products r ->
  LoanTrackingDetail._check_tracking_consistency products r = (Ok tt, r).
Proof.
  unfold non_serial_entry, LoanTrackingDetail._check_tracking_consistency,
    bind, get, raise, ret. simpl.
  destruct (prod_tracking _); [done| |].
  - intros H. by rewrite bool_decide_eq_true_2.
  - intros ->. done.
Qed.

Lemma consume_whole self i rest remaining e r :
  LoanTrackingDetail.browse e i = Some r ->
  ltd_status r = active ->
  float_le remaining 0 = false ->
  float_le (ltd_quantity r) remaining = true ->
  exists r',
    ltd_status r' = returned_good
    /\ ltd_return_picking_id r' = Some self
    /\ ltd_resolution_date r' = Some (clock e)
    /\ ltd_quantity r' = ltd_quantity r
    /\ ltd_id r' = ltd_id r
    /\ StockPicking.consume_returned self (i :: rest) remaining e
       = StockPicking.consume_returned self rest
           (float_sub remaining (ltd_quantity r))
           (with_tracking_details
              (replace_row ltd_id i r' (tracking_details e)) e).
Proof.
  intros Hb Hs Hpos Hle.
  destruct (mark_returned_from_open (product_product e) (clock e) self "good"
              (Some (StockPicking.auto_return_notes e)) r) as (r' & Hrun & H1 & H2 & H3 & _ & H5 & H6).
  { rewrite Hs. set_solver. }
  exists r'. split_and!; try done.
  cbn [StockPicking.consume_returned]. rewrite Hpos.
  rewrite bind_run. unfold get at 1. cbv beta iota. rewrite Hb, Hle.
  rewrite bind_run, (ltd_call_Some e i r _ Hb), Hrun. reflexivity.
Qed.


Lemma copy_partial self remaining e i r :
  LoanTrackingDetail.browse e i = Some r ->
  non_serial_entry (product_product e) r ->
  exists part,
    LoanTrackingDetail.copy i (StockPicking.partial_return_defaults self remaining e) e
    = (Ok (fresh_id (map ltd_id (tracking_details e))),
       with_tracking_details (tracking_details e ++ [part]) e)
    /\ ltd_id part = fresh_id (map ltd_id (tracking_details e))
    /\ ltd_quantity part = remaining
    /\ ltd_status part = returned_good
    /\ ltd_return_picking_id part = Some self
    /\ ltd_resolution_date part = Some (clock e)
    /\ ltd_picking_id part = ltd_picking_id r
    /\ ltd_product_id part = ltd_product_id r
    /\ ltd_lot_id part = ltd_lot_id r.
Proof.
  intros Hb Hns.
  unfold LoanTrackingDetail.copy. rewrite bind_run. unfold get at 1.
  cbv beta iota. rewrite Hb.
  unfold LoanTrackingDetail.create. rewrite bind_run. unfold get at 1.
  cbv beta iota.
  set (i' := fresh_id (map ltd_id (tracking_details e))).
  set (row0 := with_id i' (assign_all (StockPicking.partial_return_defaults self remaining e) r)).
  assert (Hw :
    exists part,
      LoanTrackingDetail.write (product_product e) (clock e)
        [ Set_product_id (ltd_product_id (assign_all (StockPicking.partial_return_defaults self remaining e) r));
          Set_lot_id (ltd_lot_id (assign_all (StockPicking.partial_return_defaults self remaining e) r));
          Set_quantity (ltd_quantity (assign_all (StockPicking.partial_return_defaults self remaining e) r));
          Set_status (ltd_status (assign_all (StockPicking.partial_return_defaults self remaining e) r));
          Set_resolution_date (ltd_resolution_date (assign_all (StockPicking.partial_return_defaults self remaining e) r));
          Set_sale_order_line_id (ltd_sale_order_line_id (assign_all (StockPicking.partial_return_defaults self remaining e) r));
          Set_return_picking_id (ltd_return_picking_id (assign_all (StockPicking.partial_return_defaults self remaining e) r)) ]
        row0 = (Ok tt, part)
      /\ ltd_id part = i'
      /\ ltd_quantity part = remaining
      /\ ltd_status part = returned_good
      /\ ltd_return_picking_id part = Some self
      /\ ltd_resolution_date part = Some (clock e)
      /\ ltd_picking_id part = ltd_picking_id r
      /\ ltd_product_id part = ltd_product_id r
      /\ ltd_lot_id part = ltd_lot_id r).
  { subst row0. generalize i'. intros j.
    unfold LoanTrackingDetail.write. rewrite bind_run.
    unfold modify at 1. cbv beta iota. rewrite bind_run.
    change (touches [F_quantity; F_product_id; F_lot_id] _) with true.
    unfold when at 1.
    rewrite check_tracking_non_serial by (by destruct r).
    cbv beta iota. destruct r; simpl.
    eexists. split; [reflexivity|]. simpl. split_and!; reflexivity. }
  destruct Hw as (part & Hw & Hfields).
  exists part. split; [|exact Hfields].
  rewrite Hw. reflexivity.
Qed.


Lemma write_quantity_non_serial products now q r :
  non_serial_entry products r ->
  LoanTrackingDetail.write products now [Set_quantity q] r
  = (Ok tt, assign (Set_quantity q) r).
Proof.
  intros Hns. unfold LoanTrackingDetail.write. rewrite bind_run.
  unfold modify at 1. cbv beta iota. rewrite bind_run.
  change (touches [F_quantity; F_product_id; F_lot_id] _) with true.
  unfold when at 1.
  rewrite check_tracking_non_serial by (by destruct r).
  reflexivity.
Qed.

Lemma consume_split self i rest remaining e r :
  LoanTrackingDetail.browse e i = Some r ->
  ltd_status r = active ->
  non_serial_entry (product_product e) r ->
  float_le remaining 0 = false ->
  float_le (ltd_quantity r) remaining = false ->
  exists part,
    ltd_id part = fresh_id (map ltd_id (tracking_details e))
    /\ ltd_quantity part = remaining
    /\ ltd_status part = returned_good
    /\ ltd_return_picking_id part = Some self
    /\ ltd_resolution_date part = Some (clock e)
    /\ ltd_picking_id part = ltd_picking_id r
    /\ ltd_product_id part = ltd_product_id r
    /\ ltd_lot_id part = ltd_lot_id r
    /\ StockPicking.consume_returned self (i :: rest) remaining e
       = (Ok tt,
          with_tracking_details
            (replace_row ltd_id i
               (assign (Set_quantity (float_sub (ltd_quantity r) remaining)) r)
               (tracking_details e ++ [part])) e).
Proof.
  intros Hb Hs Hns Hpos Hlt.
  destruct (copy_partial self remaining e i r Hb Hns)
    as (part & Hcopy & Hfields).
  exists part. split_and!; try apply Hfields.
  cbn [StockPicking.consume_returned]. rewrite Hpos.
  rewrite bind_run. unfold get at 1. cbv beta iota. rewrite Hb, Hlt.
  rewrite bind_run, bind_run.
  rewrite Hcopy. cbv beta iota.
  set (e1 := with_tracking_details (tracking_details e ++ [part]) e).
  assert (Hb1 : LoanTrackingDetail.browse e1 i = Some r).
  { unfold LoanTrackingDetail.browse, e1. destruct e; simpl in *.
    by apply (row_app_l ltd_id). }
  rewrite (ltd_call_Some e1 i r _ Hb1).
  rewrite write_quantity_non_serial by (by destruct e).
  cbn [fst snd].
  rewrite consume_stop by (by left).
  by destruct e.
Qed.


Lemma length_insert_sorted r l :
  length (LoanTrackingDetail.insert_sorted r l) = S (length l).
Proof.
  induction l as [|x l IH]; simpl; [done|].
  destruct (LoanTrackingDetail.before x r); simpl; congruence.
Qed.

Lemma length_sort_by_order l :
  length (LoanTrackingDetail.sort_by_order l) = length l.
Proof.
  induction l as [|x l IH]; simpl; [done|].
  rewrite length_insert_sorted. congruence.
Qed.

Lemma length_search domain e :
  length (LoanTrackingDetail.search domain e)
  = length (filter domain (tracking_details e)).
Proof. apply length_sort_by_order. Qed.

Lemma update_original_loan_state_cases L e :
  StockPicking._update_original_loan_state L e =
    if (length (filter (LoanTrackingDetail.active_of_loan L) (tracking_details e)) =? 0)%nat then
      StockPicking.write [L] [StockPicking.Set_loan_state completed] e
    else if (length (filter (LoanTrackingDetail.active_of_loan L) (tracking_details e))
             <? length (filter (LoanTrackingDetail.of_loan L) (tracking_details e)))%nat then
      StockPicking.write [L] [StockPicking.Set_loan_state partially_resolved] e
    else (Ok tt, e).
Proof.
  unfold StockPicking._update_original_loan_state. rewrite bind_run.
  unfold get at 1. cbv beta iota.
  rewrite <- (length_search (LoanTrackingDetail.active_of_loan L) e).
  rewrite <- (length_search (LoanTrackingDetail.of_loan L) e).
  destruct (LoanTrackingDetail.search (LoanTrackingDetail.active_of_loan L) e) as [|x act];
    [reflexivity|].
  cbn [length Nat.eqb]. unfold when.
  by destruct (_ <? _)%nat.
Qed.

Lemma update_original_loan_state_requests L e :
  StockPicking._update_original_loan_state L e =
    match spec_aggregate_state
            (length (filter (LoanTrackingDetail.active_of_loan L)
                       (tracking_details e)))
            (length (filter (LoanTrackingDetail.of_loan L) (tracking_details e)))
    with
    | Some n => StockPicking.write [L] [StockPicking.Set_loan_state n] e
    | None => (Ok tt, e)
    end.
Proof.
  rewrite update_original_loan_state_cases. unfold spec_aggregate_state.
  by repeat case_match.
Qed.

End Reconciliation.

(** ** Frame lemmas: what a computation leaves untouched *)

Section Frames.
Context {X : Type} (f : Env -> X).

Lemma keeps_ret {A} (a : A) : keeps f (ret a).
Proof. by intros e. Qed.

Lemma keeps_raise {A} ex : keeps f (raise (A := A) ex).
Proof. by intros e. Qed.

Lemma keeps_get : keeps f get.
Proof. by intros e. Qed.

Lemma keeps_bind {A B} (m : M Env A) (k : A -> M Env B) :
  keeps f m -> (forall a, keeps f (k a)) -> keeps f (bind m k).
Proof.
  intros Hm Hk e. unfold bind. specialize (Hm e).
  destruct (m e) as [[a|ex] e']; simpl in *; [|done].
  by rewrite Hk.
Qed.

Lemma keeps_when b (m : M Env unit) : keeps f m -> keeps f (when b m).
Proof. destruct b; [done|]. intros _. apply keeps_ret. Qed.

Lemma keeps_for_each {A} (l : list A) (body : A -> M Env unit) :
  (forall x, keeps f (body x)) -> keeps f (for_each l body).
Proof.
  intros Hb. induction l as [|x l IH]; simpl; [apply keeps_ret|].
  apply keeps_bind; auto.
Qed.

Lemma keeps_try_except {A} (m : M Env A) h :
  keeps f m -> (forall ex, keeps f (h ex)) -> keeps f (try_except m h).
Proof.
  intros Hm Hh e. unfold try_except. specialize (Hm e).
  destruct (m e) as [[a|ex] e']; simpl in *; [done|].
  by rewrite Hh.
Qed.

Lemma keeps_modify (g : Env -> Env) :
  (forall e, f (g e) = f e) -> keeps f (modify g).
Proof. intros Hg e. apply Hg. Qed.

Lemma keeps_if {A} (b : bool) (m1 m2 : M Env A) :
  keeps f m1 -> keeps f m2 -> keeps f (if b then m1 else m2).
Proof. by destruct b. Qed.

End Frames.

(** ** The resolution wizard never reshapes the ledger *)

Section WizardFrame.

Lemma on_row_shape {A} (g : loan_tracking_detail -> nat * Q) i
    (m : M loan_tracking_detail A) tbl :
  (forall r, g (m r).2 = g r) ->
  map g (on_row ltd_id i m tbl).2 = map g tbl.
Proof.
  intros Hm. induction tbl as [|x tbl IH]; simpl; [done|].
  destruct (bool_decide (ltd_id x = i)).
  - specialize (Hm x). destruct (m x) as [o x']. simpl in *. by rewrite Hm.
  - destruct (on_row ltd_id i m tbl) as [o tbl']. simpl in *. by rewrite IH.
Qed.

Lemma ltd_call_keeps {A} i (m : list product -> Z -> M loan_tracking_detail A) :
  (forall products now r, id_qty (m products now r).2 = id_qty r) ->
  keeps ledger_shape (LoanTrackingDetail.call i m).
Proof.
  intros Hm e. unfold LoanTrackingDetail.call, zoom, bind, get. simpl.
  pose proof (on_row_shape id_qty i (m (product_product e) (clock e))
                (tracking_details e) (Hm _ _)) as H.
  destruct (on_row _ _ _ _) as [o tbl']. simpl in *.
  unfold ledger_shape. by destruct e.
Qed.

Lemma assign_all_id_qty vals r :
  existsb sets_quantity vals = false ->
  id_qty (assign_all vals r) = id_qty r.
Proof.
  unfold assign_all. revert r.
  induction vals as [|v vals IH]; intros r; simpl; [done|].
  intros H. apply orb_false_iff in H as [Hv H].
  rewrite (IH _ H). by destruct v.
Qed.

Lemma recompute_id_qty now vals r :
  id_qty (LoanTrackingDetail.recompute now vals r) = id_qty r.
Proof.
  unfold LoanTrackingDetail.recompute. by repeat case_match.
Qed.

Lemma check_resolution_id_qty now r :
  id_qty (LoanTrackingDetail._check_resolution_consistency now r).2 = id_qty r.
Proof.
  rewrite check_resolution_cases. repeat case_match; try done.
Qed.

Lemma write_id_qty products now vals r :
  existsb sets_quantity vals = false ->
  id_qty (LoanTrackingDetail.write products now vals r).2 = id_qty r.
Proof.
  intros Hv. unfold LoanTrackingDetail.write, bind, modify, when, ret.
  pose proof (check_tracking_state products (assign_all vals r)) as Ht.
  pose proof (check_resolution_id_qty now (assign_all vals r)) as Hr.
  destruct (touches [F_quantity; F_product_id; F_lot_id] vals).
  - destruct (LoanTrackingDetail._check_tracking_consistency _ _) as [[[]|ex] r1];
      simpl in *; subst; [|by apply assign_all_id_qty].
    destruct (touches _ vals).
    + destruct (LoanTrackingDetail._check_resolution_consistency _ _) as [[[]|ex] r2];
        simpl in *; rewrite ?recompute_id_qty, Hr; by apply assign_all_id_qty.
    + simpl. rewrite recompute_id_qty. by apply assign_all_id_qty.
  - destruct (touches _ vals).
    + destruct (LoanTrackingDetail._check_resolution_consistency _ _) as [[[]|ex] r2];
        simpl in *; rewrite ?recompute_id_qty, Hr; by apply assign_all_id_qty.
    + simpl. rewrite recompute_id_qty. by apply assign_all_id_qty.
Qed.

Lemma mark_sold_id_qty products now line price r :
  id_qty (LoanTrackingDetail.action_mark_as_sold products now line price r).2
  = id_qty r.
Proof.
  unfold LoanTrackingDetail.action_mark_as_sold, bind, get, raise.
  simpl. destruct (negb _); [done|]. by apply write_id_qty.
Qed.

Ltac keeps_step :=
  first
    [ apply keeps_ret
    | apply keeps_raise
    | apply keeps_get
    | apply keeps_when
    | apply keeps_if
    | apply keeps_for_each; intros ?
    | apply keeps_bind; [|intros ?]
    | apply keeps_modify; intros []; reflexivity ].

Lemma sp_call_keeps {A} i (m : M stock_picking A) :
  keeps ledger_shape (StockPicking.call i m).
Proof.
  intros e. unfold StockPicking.call, zoom.
  destruct (on_row _ _ _ _) as [o tbl']. by destruct e.
Qed.

Lemma sp_write_keeps self vals :
  keeps ledger_shape (StockPicking.write self vals).
Proof.
  unfold StockPicking.write, StockPicking._trigger_quantity_recalculation.
  apply keeps_bind; [|intros ?].
  { destruct (StockPicking.new_loan_state vals); [|apply keeps_ret].
    apply keeps_for_each; intros i. unfold StockPicking.validation_step.
    apply keeps_bind; [apply keeps_get|intros e].
    destruct (StockPicking.browse e i); [|apply keeps_ret].
    apply keeps_when, sp_call_keeps. }
  apply keeps_bind; [apply keeps_get|intros e].
  apply keeps_bind; [|intros ?].
  { apply keeps_for_each; intros i. apply sp_call_keeps. }
  apply keeps_for_each; intros i. apply keeps_bind; [apply keeps_get|intros e'].
  destruct (StockPicking.browse e' i); repeat keeps_step.
Qed.

Lemma sp_create_keeps in_loans_warehouse moves :
  keeps ledger_shape (StockPicking.create in_loans_warehouse moves).
Proof.
  unfold StockPicking.create.
  apply keeps_bind; [apply keeps_get|intros e].
  destruct in_loans_warehouse; repeat keeps_step.
Qed.

Import LoanResolutionWizard.

Lemma validate_resolution_keeps w :
  keeps ledger_shape (_validate_resolution w).
Proof. unfold _validate_resolution. repeat keeps_step. Qed.

Lemma process_sales_keeps w : keeps ledger_shape (_process_sales w).
Proof.
  unfold _process_sales.
  destruct (filter _ _); [apply keeps_ret|].
  apply keeps_bind; [|intros order_line].
  { unfold _create_sale_order.
    apply keeps_bind; [apply keeps_get|intros e].
    apply keeps_bind; [repeat keeps_step|intros ?].
    apply keeps_bind; [apply sp_write_keeps|intros ?]. apply keeps_ret. }
  apply keeps_bind; [|intros ?; apply keeps_ret].
  apply keeps_for_each; intros line.
  apply ltd_call_keeps. intros. apply mark_sold_id_qty.
Qed.

Lemma process_returns_keeps w : keeps ledger_shape (_process_returns w).
Proof.
  unfold _process_returns.
  destruct (filter _ _); [apply keeps_ret|].
  apply keeps_bind; [|intros rp].
  { unfold _create_return_picking.
    apply keeps_bind; [apply keeps_get|intros e].
    destruct (main_stock_location e); [|apply keeps_raise].
    apply keeps_bind; [apply sp_create_keeps|intros ?].
    apply keeps_bind; [apply sp_call_keeps|intros ?]. apply keeps_ret. }
  apply keeps_bind; [|intros ?; apply keeps_ret].
  apply keeps_for_each; intros line.
  apply keeps_bind; [apply keeps_get|intros e].
  apply ltd_call_keeps. intros. by apply write_id_qty.
Qed.

Lemma process_continued_keeps w :
  keeps ledger_shape (_process_continued_loans w).
Proof.
  unfold _process_continued_loans.
  apply keeps_bind; [|intros ?; apply keeps_ret].
  apply keeps_for_each; intros line.
  apply keeps_bind; [apply keeps_get|intros e].
  apply ltd_call_keeps. intros. by apply write_id_qty.
Qed.

Lemma action_process_resolution_keeps w :
  keeps ledger_shape (action_process_resolution w).
Proof.
  unfold action_process_resolution.
  apply keeps_bind; [apply validate_resolution_keeps|intros ?].
  apply keeps_try_except; [|intros ?; apply keeps_raise].
  apply keeps_bind;
    [apply keeps_if; [apply process_sales_keeps|apply keeps_ret]|intros ?].
  apply keeps_bind;
    [apply keeps_if; [apply process_returns_keeps|apply keeps_ret]|intros ?].
  apply keeps_bind;
    [apply keeps_if; [apply process_continued_keeps|apply keeps_ret]|intros ?].
  apply keeps_bind; [|intros ?; apply keeps_ret].
  unfold LoanResolutionWizard._update_original_loan_state.
  apply keeps_bind; [apply keeps_get|intros e]. apply sp_write_keeps.
Qed.

End WizardFrame.

Lemma reconcile_moves self e picking original_loan :
  StockPicking.browse e self = Some picking ->
  loan_return_origin_id picking = Some original_loan ->
  StockPicking._update_loan_tracking_on_return self e =
    (for_each (move_ids_without_package picking)
       (StockPicking.reconcile_move self original_loan)
     >> StockPicking._update_original_loan_state original_loan) e.
Proof.
  intros Hb Ho. unfold StockPicking._update_loan_tracking_on_return.
  rewrite bind_run. unfold get at 1. cbv beta iota. by rewrite Hb, Ho.
Qed.

Lemma reconcile_move_non_serial self e original_loan return_move :
  StockPicking.tracking_of e (mv_product_id return_move) <> serial ->
  float_le (float_sum (map qty_done (move_line_ids return_move))) 0 = false ->
  StockPicking.reconcile_move self original_loan return_move e =
    StockPicking.consume_returned self
      (map ltd_id
         (LoanTrackingDetail.search
            (StockPicking.active_of_product original_loan
               (mv_product_id return_move)) e))
      (float_sum (map qty_done (move_line_ids return_move))) e.
Proof.
  intros Hns Hq. unfold StockPicking.reconcile_move.
  rewrite bind_run. unfold get at 1. cbv beta iota zeta. rewrite Hq.
  by destruct (decide _) as [Hs|_].
Qed.

(** ** The overdue sweep and the valuation tracker *)

Lemma ilike_empty : StockPicking.ilike "" "préstamo vencido" = false.
Proof. reflexivity. Qed.

Lemma activity_type_name_unmatched e t :
  Forall (fun ty => StockPicking.ilike (mat_name ty) "préstamo vencido" = false)
    (activity_types e) ->
  StockPicking.ilike (StockPicking.activity_type_name e t) "préstamo vencido"
  = false.
Proof.
  intros Hall. unfold StockPicking.activity_type_name.
  destruct t as [i|]; [|apply ilike_empty].
  destruct (find _ _) as [ty|] eqn:Hf; simpl; [|apply ilike_empty].
  apply find_some in Hf as [Hin _].
  rewrite Forall_forall in Hall. by apply Hall, list_elem_of_In.
Qed.

(** While no activity type is named after overdue loans, the search
    for an existing reminder finds nothing, whatever the activities. *)
Lemma create_overdue_activity_adds e self picking :
  StockPicking.browse e self = Some picking ->
  Forall (fun ty => StockPicking.ilike (mat_name ty) "préstamo vencido" = false)
    (activity_types e) ->
  exists a,
    StockPicking._create_overdue_activity self e
    = (Ok tt, with_activities (activities e ++ [a]) e)
    /\ res_id a = self /\ res_model a = "stock.picking".
Proof.
  intros Hb Hall. unfold StockPicking._create_overdue_activity.
  rewrite bind_run. unfold get at 1. cbv beta iota. rewrite Hb.
  rewrite filter_none.
  - eexists. split; [reflexivity|]. done.
  - apply Forall_forall. intros a _.
    unfold StockPicking.is_existing_overdue_activity.
    rewrite (activity_type_name_unmatched e _ Hall).
    by rewrite andb_false_r.
Qed.

Lemma write_standard_price_keeps_valuations pid price :
  keeps valuations (LoanValuationTracker.write_standard_price pid price).
Proof. intros e. by destruct e. Qed.

(** ** Analytics never divide by zero *)

Lemma int_truediv_positive a n :
  int_truediv a (Z.of_nat (S n))
  = Ok (float (inject_Z a / inject_Z (Z.of_nat (S n)))).
Proof.
  unfold int_truediv. destruct (_ =? 0)%Z eqn:E; [|done].
  apply Z.eqb_eq in E. lia.
Qed.

Lemma get_loan_analytics_returns date_from date_to partner_ids e :
  exists a,
    LoanTrackingDetail.get_loan_analytics date_from date_to partner_ids e = Ok a.
Proof.
  unfold LoanTrackingDetail.get_loan_analytics.
  destruct (LoanTrackingDetail.search _ e) as [|r records]; [by eexists|].
  cbn [length]. rewrite !int_truediv_positive. by eexists.
Qed.

(** * The claims of the specification *)

Import Scenario.

(** C1 (code_bug).  The loan of three widgets in one active entry, and
    the submission "1 to buy, 1 to return, 1 to keep" on that entry
    (three lines that pass the constraints of a wizard line).
    - For the loan in state [active], the state a loan has from its
      creation, the submission is refused: the write of
      [partially_resolved] is not a transition of the table.
    - [_process_sales] bills the quantity to resolve (1) and marks the
      whole entry (3) sold.
    - For the loan in state [resolving] the submission returns: the
      ledger still has the one entry of three widgets, now pending
      resolution (no sold entry, no active entry), and the loan is
      [partially_resolved].
    - The return transfer the wizard made (transfer 2) carries no
      [loan_return_origin_id]: validating it leaves the entry pending
      resolution. *)
Theorem resolution_three_way_split_diverges :
  let active_loan := loan_of_three loan_active false in
  let sales := LoanResolutionWizard._process_sales three_way_split active_loan in
  let res :=
    LoanResolutionWizard.action_process_resolution three_way_split
      (loan_of_three resolving false) in
  let returned := StockPicking.button_validate 2 res.2 in
  Forall
    (fun line =>
       LoanResolutionWizard._check_quantity_consistency active_loan line = Ok tt
       /\ LoanResolutionWizard._check_sale_price active_loan line = Ok tt)
    (LoanResolutionWizard.resolution_line_ids three_way_split)
  /\ (LoanResolutionWizard.action_process_resolution three_way_split
        active_loan).1
     = Raise (UserError
         ("Error al procesar la resolución del préstamo: "
          +:+ "Transición de estado no válida: active → partially_resolved"))
  /\ succeeded sales = true
  /\ map sol_product_uom_qty (sale_lines sales.2) = [1%Q]
  /\ map (fun r => (ltd_status r, ltd_quantity r)) (tracking_details sales.2)
     = [(sold, 3%Q)]
  /\ succeeded res = true
  /\ map (fun r => (ltd_status r, ltd_quantity r)) (tracking_details res.2)
     = [(pending_resolution, 3%Q)]
  /\ (sp_loan_state <$> StockPicking.browse res.2 1)
     = Some (Some partially_resolved)
  /\ (loan_return_origin_id <$> StockPicking.browse res.2 2) = Some None
  /\ returned.1 = Ok tt
  /\ map (fun r => (ltd_status r, ltd_quantity r)) (tracking_details returned.2)
     = [(pending_resolution, 3%Q)].
Proof.
  vm_compute. split; [repeat constructor|]. repeat split; reflexivity.
Qed.

(** C2 (corrected).  On one transfer whose [loan_state] is set, writing
    a new [loan_state] is validated when the transfer is flagged
    [is_loan]: a transition of the table is stored, any other one
    raises the validation error that names the source and the target
    state and leaves the database as it was; [completed] has no
    successor.  On a transfer that is not flagged [is_loan] the write
    is stored without validation.  A write on several transfers
    succeeds only if the transition is in the table for each of them
    that is a loan. *)
Theorem loan_state_write_validated (e : Env) (i : nat) (p : stock_picking)
    (s n : loan_state) :
  StockPicking.browse e i = Some p ->
  sp_loan_state p = Some s ->
  (is_loan p = true -> spec_transition s n = false ->
     StockPicking.write [i] [StockPicking.Set_loan_state n] e
     = (Raise (ValidationError
                 ("Transición de estado no válida: "
                  +:+ loan_state_key s +:+ " → " +:+ loan_state_key n)), e))
  /\ (is_loan p = false \/ spec_transition s n = true ->
      exists e',
        StockPicking.write [i] [StockPicking.Set_loan_state n] e = (Ok tt, e')
        /\ (sp_loan_state <$> StockPicking.browse e' i) = Some (Some n))
  /\ (forall self,
        i ∈ self -> is_loan p = true ->
        succeeded
          (StockPicking.write self [StockPicking.Set_loan_state n] e) = true ->
        spec_transition s n = true)
  /\ spec_transition completed n = false.
Proof.
  intros Hb Hs.
  destruct (write_loan_state_outcome e i p s n Hb Hs) as [Hno Hyes].
  split_and!.
  - intros Hl Ht. apply Hno. by rewrite Hl, Ht.
  - intros Hok. destruct Hyes as (e' & Hrun & Hst & _).
    { destruct Hok as [-> | ->]; [done|]. apply andb_false_r. }
    eauto.
  - intros self Hin Hl. by apply (write_recordset_validated self n e i p s).
  - by destruct n.
Qed.

Lemma loan_state_write_validated_witness :
  StockPicking.write [1%nat] [StockPicking.Set_loan_state loan_active]
    (loan_of_three completed false)
  = (Raise (ValidationError
              "Transición de estado no válida: completed → active"),
     loan_of_three completed false).
Proof.
  apply (proj1 (loan_state_write_validated (loan_of_three completed false) 1
                  (loan_transfer completed false) completed loan_active
                  eq_refl eq_refl));
    reflexivity.
Defined.

(** C2, counterexample.  On a transfer that is not a loan, the write
    [completed → active] is accepted. *)
Lemma plain_transfer_completed_to_active :
  let res :=
    StockPicking.write [4%nat] [StockPicking.Set_loan_state loan_active]
      (world [plain_transfer] []) in
  sp_loan_state plain_transfer = Some completed
  /\ res.1 = Ok tt
  /\ (sp_loan_state <$> StockPicking.browse res.2 4) = Some (Some loan_active).
Proof. vm_compute. repeat split; reflexivity. Qed.

(** C3 (code_bug).  The return of all three widgets of loan 1, a loan
    in state [active], the state a loan has from its creation.  The
    loop over the moves returns and leaves no active entry of the loan:
    the entry is marked returned.  The update of the state of the loan
    then asks for [completed], which the transition table refuses from
    [active]: [button_validate] raises and the loan is not completed.
    The return of two of the three widgets is refused in the same way,
    on [partially_resolved]. *)
Theorem full_return_of_active_loan_refused :
  let e := full_return_pending loan_active in
  let loop :=
    for_each (move_ids_without_package (return_transfer 3))
      (StockPicking.reconcile_move 2 1) e in
  let partial :=
    world [loan_transfer loan_active false; return_transfer 2] [three_widgets] in
  loop.1 = Ok tt
  /\ map (fun r => (ltd_status r, ltd_quantity r)) (tracking_details loop.2)
     = [(returned_good, 3%Q)]
  /\ LoanTrackingDetail.search (LoanTrackingDetail.active_of_loan 1) loop.2 = []
  /\ (StockPicking._update_original_loan_state 1 loop.2).1
     = Raise (ValidationError
                "Transición de estado no válida: active → completed")
  /\ (StockPicking.button_validate 2 e).1
     = Raise (ValidationError
                "Transición de estado no válida: active → completed")
  /\ (StockPicking.button_validate 2 partial).1
     = Raise (ValidationError
                "Transición de estado no válida: active → partially_resolved").
Proof. vm_compute. repeat split; reflexivity. Qed.

(** C4 (corrected).  The consistency check fills [resolution_date] in
    when an entry is written with a status other than [active] and no
    date yet, and never replaces a date that is set; marking an entry
    sold or returned stamps [resolution_date] with the current time,
    whatever it held. *)
Theorem resolution_date_stamping (products : list product) (now : Z)
    (r : loan_tracking_detail) :
  (forall d,
     ltd_resolution_date r = Some d ->
     ltd_resolution_date
       (LoanTrackingDetail._check_resolution_consistency now r).2 = Some d)
  /\ (ltd_status r <> active ->
      ltd_resolution_date r = None ->
      succeeded (LoanTrackingDetail._check_resolution_consistency now r) = true ->
      ltd_resolution_date
        (LoanTrackingDetail._check_resolution_consistency now r).2 = Some now)
  /\ (forall return_picking condition notes,
        ltd_status r = active \/ ltd_status r = pending_resolution ->
        ltd_resolution_date
          (LoanTrackingDetail.action_mark_as_returned products now
             (Some return_picking) condition notes r).2 = Some now)
  /\ (forall line price,
        ltd_status r = active ->
        ltd_resolution_date
          (LoanTrackingDetail.action_mark_as_sold products now (Some line)
             price r).2 = Some now).
Proof.
  split_and!.
  - intros d Hd. by apply check_resolution_keeps_date.
  - by apply check_resolution_stamps.
  - intros rp condition notes Hs.
    destruct (mark_returned_from_open products now rp condition notes r)
      as (r' & -> & _ & _ & Hd & _); [|exact Hd].
    destruct Hs as [-> | ->]; set_solver.
  - intros line price Hs.
    destruct (mark_sold_from_active products now line price r Hs)
      as (r' & -> & _ & _ & _ & Hd). exact Hd.
Qed.

Lemma resolution_date_stamping_witness :
  ltd_resolution_date
    (LoanTrackingDetail.action_mark_as_returned catalogue 200 (Some 2%nat)
       "good" None pending_widgets).2 = Some 200.
Proof.
  apply (proj1 (proj2 (proj2
           (resolution_date_stamping catalogue 200 pending_widgets)))).
  right. reflexivity.
Defined.

(** C4, counterexample.  An entry marked for return at time 100 has
    its resolution date stamped then; marking it returned at time 200
    overwrites the date. *)
Lemma resolution_date_overwritten :
  ltd_status pending_widgets = pending_resolution
  /\ ltd_resolution_date pending_widgets = Some 100
  /\ (LoanTrackingDetail.action_mark_as_returned catalogue 200 (Some 2%nat)
        "good" None pending_widgets).1 = Ok tt
  /\ ltd_resolution_date
       (LoanTrackingDetail.action_mark_as_returned catalogue 200 (Some 2%nat)
          "good" None pending_widgets).2 = Some 200.
Proof. vm_compute. repeat split; reflexivity. Qed.

(** C5 (code defect).  With the activity type of the mail module's
    data ("To-Do"), the overdue sweep run twice on the same day, on
    unchanged data, leaves two open reminders for the one overdue
    loan: the search for an existing reminder tests the name of the
    activity type against "préstamo vencido", and the reminder the
    sweep creates has the type "To-Do". *)
Theorem overdue_sweep_twice_duplicates :
  let once := (StockPicking._cron_check_overdue_loans overdue_world).2 in
  let twice := (StockPicking._cron_check_overdue_loans once).2 in
  sp_is_overdue overdue_loan = true
  /\ sp_loan_state overdue_loan = Some loan_active
  /\ pickings twice = pickings overdue_world
  /\ length (filter (fun a => bool_decide (res_id a = 1%nat)) (activities once))
     = 1%nat
  /\ length (filter (fun a => bool_decide (res_id a = 1%nat)) (activities twice))
     = 2%nat
  /\ Forall (fun a => today twice <= date_deadline a) (activities twice).
Proof.
  vm_compute. split_and!; try reflexivity.
  repeat constructor; discriminate.
Qed.

(** C6 (code defect).  After the standard cost of the product changes
    from 100 to 150, reading [current_cost] on the valuation row still
    yields 100 and [valuation_difference] still yields 0, while the
    live cost is 150 and the live difference 50: the stored fields
    depend on ['product_id'] only and are not recomputed. *)
Theorem current_cost_stale_after_cost_change :
  let e := (LoanValuationTracker.write_standard_price 1 150 valued_world).2 in
  LoanValuationTracker.live_cost valued_world 1 = Some 100%Q
  /\ LoanValuationTracker.live_cost e 1 = Some 150%Q
  /\ LoanValuationTracker.read_current_cost e 1 = Some 100%Q
  /\ LoanValuationTracker.read_valuation_difference e 1 = Some 0%Q
  /\ (lvt_original_cost <$> LoanValuationTracker.browse e 1) = Some 100%Q.
Proof. vm_compute. repeat split; reflexivity. Qed.

(** C7 (corrected).  The tracking check accepts an entry exactly when:
    a product with serial numbers has a lot reference and quantity 1, a
    lot-tracked product has a lot reference, and the product is
    untracked if and only if the entry has no lot reference.  A write
    of quantity, product or lot that breaks this raises a validation
    error. *)
Theorem tracking_consistency_enforced (products : list product) (now : Z)
    (r : loan_tracking_detail) :
  let p := browse_product products (ltd_product_id r) in
  (succeeded (LoanTrackingDetail._check_tracking_consistency products r) = true
   <->
   (prod_tracking p = serial ->
      is_Some (ltd_lot_id r) /\ (ltd_quantity r == 1)%Q)
   /\ (prod_tracking p = lot -> is_Some (ltd_lot_id r))
   /\ (prod_tracking p = none <-> ltd_lot_id r = None))
  /\ (forall vals,
        touches [F_quantity; F_product_id; F_lot_id] vals = true ->
        succeeded
          (LoanTrackingDetail._check_tracking_consistency products
             (assign_all vals r)) = false ->
        exists msg,
          LoanTrackingDetail.write products now vals r
          = (Raise (ValidationError msg), assign_all vals r)).
Proof.
  split.
  - apply check_tracking_accepts.
  - intros vals. apply write_rejects_inconsistent.
Qed.

Lemma tracking_consistency_enforced_witness :
  exists msg,
    LoanTrackingDetail.write catalogue 0 [Set_lot_id (Some 11%nat)] three_widgets
    = (Raise (ValidationError msg),
       assign_all [Set_lot_id (Some 11%nat)] three_widgets).
Proof.
  apply (proj2 (tracking_consistency_enforced catalogue 0 three_widgets));
    reflexivity.
Defined.

(** C7, counterexample.  One unit of a lot-tracked product with its lot
    reference passes the check, although the product is not tracked by
    serial number: "serial if and only if lot present and quantity 1"
    fails, and so does "lot-tracked if and only if lot present" for a
    serial-tracked unit. *)
Lemma tracking_biconditionals_fail :
  succeeded (LoanTrackingDetail._check_tracking_consistency catalogue one_reagent)
  = true
  /\ is_Some (ltd_lot_id one_reagent)
  /\ (ltd_quantity one_reagent == 1)%Q
  /\ prod_tracking (browse_product catalogue (ltd_product_id one_reagent))
     <> serial
  /\ succeeded
       (LoanTrackingDetail._check_tracking_consistency catalogue
          (entry 3 2 (Some 12%nat) 1)) = true
  /\ prod_tracking (browse_product catalogue 2) <> lot.
Proof. vm_compute. split_and!; try reflexivity; eauto; discriminate. Qed.

(** C8 (confirmed).  When no row of the ledger matches the filters,
    [get_loan_analytics] returns the zeroed metrics, for every
    combination of [date_from], [date_to] and [partner_ids]. *)
Theorem analytics_zero_without_rows (date_from date_to : option Z)
    (partner_ids : list nat) (e : Env) :
  Forall (fun r =>
            LoanTrackingDetail.analytics_domain date_from date_to partner_ids r
            = false) (tracking_details e) ->
  LoanTrackingDetail.get_loan_analytics date_from date_to partner_ids e
  = Ok {| LoanTrackingDetail.total_loans := 0;
          LoanTrackingDetail.active_loans := 0;
          LoanTrackingDetail.overdue_loans := 0;
          LoanTrackingDetail.sold_conversions := 0;
          LoanTrackingDetail.returns_good := 0;
          LoanTrackingDetail.returns_damaged := 0;
          LoanTrackingDetail.avg_days_in_loan := 0;
          LoanTrackingDetail.conversion_rate := 0 |}.
Proof.
  intros Hnone. unfold LoanTrackingDetail.get_loan_analytics,
    LoanTrackingDetail.search.
  rewrite (filter_none _ _ Hnone). reflexivity.
Qed.

Lemma analytics_zero_without_rows_witness :
  exists a,
    LoanTrackingDetail.get_loan_analytics (Some 50) None [7%nat]
      (loan_of_three loan_active false) = Ok a
    /\ LoanTrackingDetail.conversion_rate a = 0%Q
    /\ LoanTrackingDetail.avg_days_in_loan a = 0%Q.
Proof.
  eexists. split.
  - apply (analytics_zero_without_rows (Some 50) None [7%nat]
             (loan_of_three loan_active false)).
    repeat constructor.
  - split; reflexivity.
Defined.

(** C9 (confirmed).  [action_mark_as_sold] called on an entry that is
    not active raises the usage error and leaves the entry as it was;
    called on an active entry with a sale line it sets the status to
    [sold], stores the sale line and the price and stamps the
    resolution date; it succeeds on active entries only. *)
Theorem mark_sold_only_from_active (products : list product) (now : Z)
    (sale_line : option sale_order_line) (price : option Q)
    (r : loan_tracking_detail) :
  (ltd_status r <> active ->
     LoanTrackingDetail.action_mark_as_sold products now sale_line price r
     = (Raise (UserError
                 "Solo los préstamos activos pueden marcarse como vendidos."),
        r))
  /\ (forall l,
        ltd_status r = active -> sale_line = Some l ->
        exists r',
          LoanTrackingDetail.action_mark_as_sold products now sale_line price r
          = (Ok tt, r')
          /\ ltd_status r' = sold
          /\ ltd_sale_order_line_id r' = Some (sol_id l)
          /\ ltd_sale_price r'
             = or_else Qfalsy (default 0%Q price) (price_unit l)
          /\ ltd_resolution_date r' = Some now)
  /\ (succeeded
        (LoanTrackingDetail.action_mark_as_sold products now sale_line price r)
      = true -> ltd_status r = active).
Proof.
  split_and!.
  - apply mark_sold_refused.
  - intros l Hs ->. by apply mark_sold_from_active.
  - destruct (decide (ltd_status r = active)) as [|Hs]; [done|].
    by rewrite (mark_sold_refused products now sale_line price r Hs).
Qed.

Lemma mark_sold_only_from_active_witness :
  (exists r',
     LoanTrackingDetail.action_mark_as_sold catalogue 50
       (Some widget_sale_line) (Some 140%Q) three_widgets = (Ok tt, r')
     /\ ltd_status r' = sold
     /\ ltd_sale_order_line_id r' = Some 1%nat
     /\ ltd_sale_price r' = 140%Q
     /\ ltd_resolution_date r' = Some 50)
  /\ LoanTrackingDetail.action_mark_as_sold catalogue 50
       (Some widget_sale_line) (Some 140%Q) pending_widgets
     = (Raise (UserError
                 "Solo los préstamos activos pueden marcarse como vendidos."),
        pending_widgets).
Proof.
  split.
  - apply (proj1 (proj2 (mark_sold_only_from_active catalogue 50
                           (Some widget_sale_line) (Some 140%Q) three_widgets))
             widget_sale_line); reflexivity.
  - apply (proj1 (mark_sold_only_from_active catalogue 50
                    (Some widget_sale_line) (Some 140%Q) pending_widgets)).
    intros H. vm_compute in H. discriminate H.
Defined.

(** C10 (confirmed).  [action_mark_as_returned] on an active or pending
    entry, with a return transfer and a condition that is none of
    "good", "damaged", "defective", does not raise: the status becomes
    [returned_good], the return transfer is stored and the resolution
    date is stamped. *)
Theorem mark_returned_unknown_condition (products : list product) (now : Z)
    (return_picking : nat) (condition : string) (notes : option string)
    (r : loan_tracking_detail) :
  ltd_status r = active \/ ltd_status r = pending_resolution ->
  condition <> "good" -> condition <> "damaged" -> condition <> "defective" ->
  exists r',
    LoanTrackingDetail.action_mark_as_returned products now
      (Some return_picking) condition notes r = (Ok tt, r')
    /\ ltd_status r' = returned_good
    /\ ltd_return_picking_id r' = Some return_picking
    /\ ltd_resolution_date r' = Some now.
Proof.
  intros Hs H1 H2 H3.
  destruct (mark_returned_from_open products now return_picking condition
              notes r) as (r' & Hrun & Hst & Hrp & Hd & _).
  { destruct Hs as [-> | ->]; set_solver. }
  exists r'. rewrite (status_mapping_fallback condition H1 H2 H3) in Hst.
  auto.
Qed.

Lemma mark_returned_unknown_condition_witness :
  exists r',
    LoanTrackingDetail.action_mark_as_returned catalogue 200 (Some 2%nat)
      "lost" None pending_widgets = (Ok tt, r')
    /\ ltd_status r' = returned_good
    /\ ltd_return_picking_id r' = Some 2%nat
    /\ ltd_resolution_date r' = Some 200.
Proof.
  apply (mark_returned_unknown_condition catalogue 200 2 "lost" None
           pending_widgets).
  - right. reflexivity.
  - discriminate.
  - discriminate.
  - discriminate.
Defined.

(** * Further properties of the code *)

Section LedgerExtras.
Import LoanTrackingDetail.
Variable products : list product.
Variable now : Z.

Lemma assign_all_resolution_fields vals r :
  touches [F_status; F_resolution_date; F_sale_order_line_id;
           F_return_picking_id] vals = false ->
  resolution_fields (assign_all vals r) = resolution_fields r.
Proof.
  unfold assign_all. revert r.
  induction vals as [|v vals IH]; intros r; simpl; [done|].
  intros H. apply orb_false_iff in H as [Hv H].
  rewrite (IH _ H). destruct v; try done; by vm_compute in Hv.
Qed.

Lemma recompute_resolution_fields vals r :
  resolution_fields (recompute now vals r) = resolution_fields r.
Proof. unfold recompute. by repeat case_match. Qed.

Lemma resolution_consistent_fields r r' :
  resolution_fields r' = resolution_fields r ->
  resolution_consistent r -> resolution_consistent r'.
Proof.
  unfold resolution_fields, resolution_consistent.
  intros [= -> -> -> ->]. done.
Qed.

Lemma check_resolution_establishes r r' :
  _check_resolution_consistency now r = (Ok tt, r') ->
  resolution_consistent r'.
Proof.
  rewrite check_resolution_cases.
  destruct (bool_decide (ltd_status r = sold)) eqn:Es;
    destruct (bool_decide (is_Some (ltd_sale_order_line_id r))) eqn:El;
    simpl; try done;
    destruct (is_returned (ltd_status r)) eqn:Er;
    destruct (bool_decide (is_Some (ltd_return_picking_id r))) eqn:Ep;
    simpl; try done;
    destruct (bool_decide (ltd_status r = active)) eqn:Ea;
    destruct (bool_decide (is_Some (ltd_resolution_date r))) eqn:Ed;
    simpl; intros [= <-];
    repeat match goal with
      | H : bool_decide _ = true |- _ => apply bool_decide_eq_true in H
      | H : bool_decide _ = false |- _ => apply bool_decide_eq_false in H
      end;
    try (eapply resolution_consistent_fields;
         [apply recompute_resolution_fields|]);
    unfold resolution_consistent; destruct r; simpl in *;
    split_and!; intros; try done; try congruence; eauto.
Qed.

Lemma write_outcome vals r :
  write products now vals r =
  let r0 := assign_all vals r in
  match (if touches [F_quantity; F_product_id; F_lot_id] vals
         then _check_tracking_consistency products r0 else (Ok tt, r0)) with
  | (Raise ex, r1) => (Raise ex, r1)
  | (Ok _, r1) =>
      match (if touches [F_status; F_resolution_date; F_sale_order_line_id;
                         F_return_picking_id] vals
             then _check_resolution_consistency now r1 else (Ok tt, r1)) with
      | (Raise ex, r2) => (Raise ex, r2)
      | (Ok _, r2) => (Ok tt, recompute now vals r2)
      end
  end.
Proof.
  unfold write, bind, modify, when, ret. cbv zeta.
  destruct (touches [F_quantity; F_product_id; F_lot_id] vals);
    [destruct (_check_tracking_consistency _ _) as [[[]|] ?]|];
    try done;
    destruct (touches _ vals);
    try destruct (_check_resolution_consistency _ _) as [[[]|] ?]; done.
Qed.

(** The resolution invariant is kept by every write that returns, and
    established by one that writes one of its fields. *)
Lemma write_resolution_consistent vals r r' :
  touches [F_status; F_resolution_date; F_sale_order_line_id;
           F_return_picking_id] vals = true
  \/ resolution_consistent r ->
  write products now vals r = (Ok tt, r') ->
  resolution_consistent r'.
Proof.
  intros Hpre. rewrite write_outcome. cbv zeta.
  pose proof (check_tracking_state products (assign_all vals r)) as Ht.
  destruct (if touches [F_quantity; F_product_id; F_lot_id] vals
            then _ else _) as [[[]|ex] r1] eqn:E1; [|done].
  assert (r1 = assign_all vals r) as ->.
  { destruct (touches [F_quantity; F_product_id; F_lot_id] vals).
    - rewrite E1 in Ht. by simpl in Ht.
    - by inversion E1. }
  destruct (touches [F_status; _; _; _] vals) eqn:Etouch.
  - destruct (_check_resolution_consistency _ _) as [[[]|ex] r2] eqn:E2;
      [|done].
    intros [= <-].
    eapply resolution_consistent_fields;
      [apply recompute_resolution_fields|].
    by eapply check_resolution_establishes.
  - intros [= <-]. destruct Hpre as [|Hc]; [done|].
    eapply resolution_consistent_fields; [|exact Hc].
    rewrite recompute_resolution_fields.
    by apply assign_all_resolution_fields.
Qed.

(** X1.  A write on an entry that returns leaves it consistent as to its
    resolution: a sold entry has its sale line, a returned entry its
    return transfer, and an entry that is not active its resolution
    date, whenever the write touches one of those fields or the entry
    was consistent before. *)
Theorem write_keeps_resolution_consistent vals r r' :
  touches [F_status; F_resolution_date; F_sale_order_line_id;
           F_return_picking_id] vals = true
  \/ resolution_consistent r ->
  write products now vals r = (Ok tt, r') ->
  resolution_consistent r'.
Proof. apply write_resolution_consistent. Qed.

(** Resolved entries are final for the two actions. *)
Lemma resolved_entries_are_final sale_line price return_picking condition
    notes r :
  is_terminal (ltd_status r) = true ->
  action_mark_as_sold products now sale_line price r
  = (Raise (UserError
              "Solo los préstamos activos pueden marcarse como vendidos."), r)
  /\ action_mark_as_returned products now return_picking condition notes r
     = (Raise (UserError
                 "Solo los préstamos activos pueden marcarse como devueltos."),
        r).
Proof.
  intros Ht. split.
  - apply mark_sold_refused. intros E. by rewrite E in Ht.
  - unfold action_mark_as_returned, bind, get, raise.
    rewrite bool_decide_eq_false_2; [done|].
    intros Hin. apply list_elem_of_In in Hin.
    destruct (ltd_status r); try done; simpl in Hin; intuition discriminate.
Qed.

Lemma mark_sold_terminal l price r r' :
  action_mark_as_sold products now l price r = (Ok tt, r') ->
  is_terminal (ltd_status r') = true /\ resolution_consistent r'.
Proof.
  unfold action_mark_as_sold, bind, get, raise.
  destruct (negb _); [done|]. intros Hw.
  split; [|by eapply write_resolution_consistent; [left|exact Hw]].
  rewrite write_outcome in Hw. cbv zeta in Hw.
  change (touches [F_quantity; F_product_id; F_lot_id] _) with false in Hw.
  change (touches [F_status; _; _; _] _) with true in Hw.
  cbv iota in Hw.
  destruct (_check_resolution_consistency _ _) as [[[]|ex] r2] eqn:E2; [|done].
  inversion Hw; subst.
  pose proof (check_resolution_id_qty now) as _.
  assert (ltd_status r2 = sold) as Hs.
  { rewrite check_resolution_cases in E2.
    repeat case_match; simplify_eq; by destruct r. }
  unfold recompute. repeat case_match; simpl; by rewrite Hs.
Qed.

Lemma write_status_known vals r r' s :
  write products now vals r = (Ok tt, r') ->
  ltd_status (assign_all vals r) = s ->
  ltd_status r' = s
  /\ ltd_loan_date r' = ltd_loan_date (assign_all vals r)
  /\ (touches [F_status] vals = true ->
      ltd_is_overdue r' = _compute_overdue_status now r').
Proof.
  rewrite write_outcome. cbv zeta.
  pose proof (check_tracking_state products (assign_all vals r)) as Ht.
  destruct (if touches [F_quantity; F_product_id; F_lot_id] vals
            then _ else _) as [[[]|ex] r1] eqn:E1; [|done].
  assert (r1 = assign_all vals r) as ->.
  { destruct (touches [F_quantity; F_product_id; F_lot_id] vals).
    - rewrite E1 in Ht. by simpl in Ht.
    - by inversion E1. }
  intros Hw Hs.
  assert (exists r2, r' = recompute now vals r2
                     /\ ltd_status r2 = s
                     /\ ltd_loan_date r2 = ltd_loan_date (assign_all vals r))
    as (r2 & -> & Hs2 & Hl2).
  { destruct (touches [F_status; _; _; _] vals).
    - destruct (_check_resolution_consistency _ _) as [[[]|ex] r2] eqn:E2;
        [|done].
      inversion Hw; subst. exists r2. split; [done|].
      rewrite check_resolution_cases in E2.
      repeat case_match; simplify_eq; done.
    - inversion Hw; subst. by eexists. }
  unfold recompute.
  destruct (touches [F_resolution_date; F_status] vals),
    (touches [F_status] vals); simpl; split_and!; try done;
    intros _; unfold _compute_overdue_status; simpl; done.
Qed.

Lemma mark_returned_terminal rp condition notes r r' :
  action_mark_as_returned products now rp condition notes r = (Ok tt, r') ->
  is_terminal (ltd_status r') = true /\ resolution_consistent r'.
Proof.
  unfold action_mark_as_returned, bind, get, raise.
  destruct (negb _); [done|]. intros Hw.
  split; [|by eapply write_resolution_consistent; [left|exact Hw]].
  destruct (write_status_known _ _ _
              (default returned_good (status_mapping !! condition)) Hw)
    as [-> _]; [by destruct r|].
  pose proof (status_mapping_returned condition) as Hm.
  by destruct (default returned_good (status_mapping !! condition)).
Qed.

(** X2.  The two actions need their document: marking an active entry
    as sold without a sale line, or an open entry as returned without a
    return transfer, raises the validation error of the resolution
    check. *)
Theorem actions_need_their_document price condition notes r :
  (ltd_status r = active ->
     (action_mark_as_sold products now None price r).1
     = Raise (ValidationError
         "Los préstamos vendidos deben tener una línea de orden de venta asociada."))
  /\ (ltd_status r = active \/ ltd_status r = pending_resolution ->
      (action_mark_as_returned products now None condition notes r).1
      = Raise (ValidationError
          "Los préstamos devueltos deben tener una transferencia de devolución asociada.")).
Proof.
  split.
  - intros Hs. destruct r; simpl in *; subst. reflexivity.
  - intros Hs. unfold action_mark_as_returned, bind, get.
    rewrite bool_decide_eq_true_2
      by (destruct Hs as [-> | ->]; set_solver).
    pose proof (status_mapping_returned condition) as Hm.
    destruct r as [? ? ? ? ? ? ? ? ? ? ? ? sale_line ? ? ? ? ?]; simpl in *.
    destruct (default returned_good (status_mapping !! condition));
      try discriminate Hm; destruct sale_line; reflexivity.
Qed.

(** X3.  An entry that an action has resolved is not overdue, carries
    the time of the action as its resolution date, and counts its days
    in loan from the loan date to that time. *)
Theorem resolved_entry_not_overdue (first : M loan_tracking_detail unit) r r' :
  (exists l p, first = action_mark_as_sold products now l p)
  \/ (exists rp c n, first = action_mark_as_returned products now rp c n) ->
  first r = (Ok tt, r') ->
  ltd_is_overdue r' = false
  /\ ltd_resolution_date r' = Some now
  /\ ltd_days_in_loan r' = (now - ltd_loan_date r) / 86400.
Proof.
  intros [(l & p & ->)|(rp & c & n & ->)].
  - unfold action_mark_as_sold, bind, get, raise.
    destruct (bool_decide (ltd_status r = active)) eqn:Es; [|done].
    apply bool_decide_eq_true in Es. simpl.
    destruct r, l as [l|]; simpl in *; subst; [|done].
    intros [= <-]. done.
  - unfold action_mark_as_returned, bind, get, raise.
    destruct (bool_decide (ltd_status r ∈ _)) eqn:Es; [|done]. simpl.
    pose proof (status_mapping_returned c) as Hm.
    destruct r, rp as [rp|]; simpl in *;
      destruct (default returned_good (status_mapping !! c));
      try discriminate Hm; try done; intros [= <-]; done.
Qed.

End LedgerExtras.

(** X4.  Once an action has resolved an entry, neither action resolves
    it again, whenever it is called: both raise their user error and
    leave the entry as it is. *)
Theorem no_unresolving_by_actions products now products' now'
    (first : M loan_tracking_detail unit)
    sale_line price return_picking condition notes r r' :
  (exists l p, first = LoanTrackingDetail.action_mark_as_sold products now l p)
  \/ (exists rp c n,
        first = LoanTrackingDetail.action_mark_as_returned products now rp c n) ->
  first r = (Ok tt, r') ->
  LoanTrackingDetail.action_mark_as_sold products' now' sale_line price r'
  = (Raise (UserError
              "Solo los préstamos activos pueden marcarse como vendidos."), r')
  /\ LoanTrackingDetail.action_mark_as_returned products' now' return_picking
       condition notes r'
     = (Raise (UserError
                 "Solo los préstamos activos pueden marcarse como devueltos."),
        r').
Proof.
  intros Hfirst Hrun. apply resolved_entries_are_final.
  destruct Hfirst as [(l & p & ->)|(rp & c & n & ->)].
  - by apply (mark_sold_terminal products now l p r r').
  - by apply (mark_returned_terminal products now rp c n r r').
Qed.

Section Analytics.
Import LoanTrackingDetail.

Lemma count_le (p : loan_tracking_detail -> bool) l : (count p l <= length l)%nat.
Proof. unfold count. apply length_filter. Qed.

Lemma count_cons (p : loan_tracking_detail -> bool) r l :
  count p (r :: l) = ((if p r then 1 else 0) + count p l)%nat.
Proof.
  unfold count. destruct (p r) eqn:E.
  - rewrite filter_cons_True; [done|]. rewrite E. exact I.
  - rewrite filter_cons_False; [done|]. rewrite E. exact id.
Qed.

Lemma status_buckets l :
  (count (fun r => bool_decide (ltd_status r = active)) l
   + count (fun r => bool_decide (ltd_status r = sold)) l
   + count (fun r => bool_decide (ltd_status r = returned_good)) l
   + count (fun r => bool_decide
                       (ltd_status r ∈ [returned_damaged; returned_defective])) l
   + count (fun r => bool_decide (ltd_status r = pending_resolution)) l
   = length l)%nat.
Proof.
  induction l as [|r l IH]; [done|].
  rewrite !count_cons. cbn [length]. rewrite <- IH.
  destruct (ltd_status r);
    repeat first
      [ rewrite bool_decide_eq_true_2
          by first [done | rewrite list_elem_of_In; simpl; tauto]
      | rewrite bool_decide_eq_false_2
          by first [done | rewrite list_elem_of_In; simpl; intuition discriminate] ];
    lia.
Qed.

Lemma round_half_even_ge num den :
  (num / den <= round_half_even num den)%Z.
Proof. unfold round_half_even. repeat case_match; lia. Qed.

Lemma round_half_even_le num den K :
  (0 < den)%Z -> (num <= K * den)%Z -> (round_half_even num den <= K)%Z.
Proof.
  intros Hd Hn. unfold round_half_even.
  pose proof (Z.div_mod num den ltac:(lia)) as Hdm.
  pose proof (Z.mod_pos_bound num den Hd) as Hr.
  assert (num / den <= K)%Z by (apply Z.div_le_upper_bound; lia).
  destruct (2 * (num mod den) <? den)%Z eqn:E1; [lia|].
  apply Z.ltb_ge in E1.
  destruct (den <? 2 * (num mod den))%Z eqn:E2.
  - apply Z.ltb_lt in E2. nia.
  - destruct (Z.even (num / den)); [lia|nia].
Qed.

Lemma float_exponent_bound n d :
  (0 < n)%Z -> (0 < d)%Z ->
  (float_exponent n d <= Z.max (Z.log2 n - Z.log2 d - 51) (-1074))%Z.
Proof.
  intros Hn Hd. unfold float_exponent.
  destruct (scaled _ _ _) as [num den]. repeat case_match; lia.
Qed.

Lemma float_of_pos_bounds p d N :
  (0 < N < 2 ^ 50)%Z -> (Z.pos p <= N * Z.pos d)%Z ->
  (0 <= float_of_pos p d <= inject_Z N)%Q.
Proof.
  intros HN Hx. unfold float_of_pos.
  pose proof (float_exponent_bound (Z.pos p) (Z.pos d) ltac:(lia) ltac:(lia))
    as He.
  set (e := float_exponent (Z.pos p) (Z.pos d)) in *.
  assert (e < 0)%Z as Hneg.
  { assert (Z.log2 (Z.pos p) <= Z.log2 N + Z.log2 (Z.pos d) + 1)%Z.
    { transitivity (Z.log2 (N * Z.pos d)).
      - by apply Z.log2_le_mono.
      - apply Z.log2_mul_above; lia. }
    assert (Z.log2 N < 50)%Z by (apply Z.log2_lt_pow2; lia).
    lia. }
  unfold scaled. rewrite (proj2 (Z.ltb_lt e 0) Hneg).
  assert (0 < 2 ^ (- e))%Z as Hpow by (apply Z.pow_pos_nonneg; lia).
  pose proof (round_half_even_ge (Z.pos p * 2 ^ (- e)) (Z.pos d)) as Hge.
  pose proof (round_half_even_le (Z.pos p * 2 ^ (- e)) (Z.pos d)
                (N * 2 ^ (- e)) ltac:(lia) ltac:(nia)) as Hle.
  assert (0 <= Z.pos p * 2 ^ (- e) / Z.pos d)%Z
    by (apply Z.div_pos; lia).
  rewrite Qred_correct. unfold Qle, inject_Z. simpl.
  rewrite Z2Pos.id by done. split; nia.
Qed.

(** Rounding keeps a number between 0 and a whole number below [2^50]
    between them. *)
Lemma float_bounds x N :
  (0 < N < 2 ^ 50)%Z -> (0 <= x <= inject_Z N)%Q ->
  (0 <= float x <= inject_Z N)%Q.
Proof.
  intros HN [H0 H1]. destruct x as [n d]. unfold float. simpl.
  unfold Qle, inject_Z in *. simpl in *.
  destruct n as [|p|p]; [simpl; lia| |lia].
  apply (float_of_pos_bounds p d N HN). lia.
Qed.

Lemma ratio_bounds (c n : nat) :
  (c <= S n)%nat ->
  let rate :=
    float_mul (float (inject_Z (Z.of_nat c) / inject_Z (Z.of_nat (S n)))) 100 in
  (0 <= rate /\ rate <= 100)%Q.
Proof.
  intros Hc.
  assert (0 < inject_Z (Z.of_nat (S n)))%Q as Hpos.
  { change 0%Q with (inject_Z 0). rewrite <- Zlt_Qlt. lia. }
  assert (0 <= inject_Z (Z.of_nat c))%Q as Hc0.
  { change 0%Q with (inject_Z 0). rewrite <- Zle_Qle. lia. }
  assert (inject_Z (Z.of_nat c) <= inject_Z (Z.of_nat (S n)))%Q as Hle.
  { rewrite <- Zle_Qle. lia. }
  assert (0 <= inject_Z (Z.of_nat c) / inject_Z (Z.of_nat (S n)))%Q as H0.
  { apply Qle_shift_div_l; [done|]. lra. }
  assert (inject_Z (Z.of_nat c) / inject_Z (Z.of_nat (S n)) <= 1)%Q as H1.
  { apply Qle_shift_div_r; [done|]. lra. }
  set (q := (inject_Z (Z.of_nat c) / inject_Z (Z.of_nat (S n)))%Q) in *.
  pose proof (float_bounds q 1 ltac:(lia) (conj H0 H1)) as [Hr0 Hr1].
  pose proof (float_bounds (float q) 1 ltac:(lia) (conj Hr0 Hr1)) as [Hf0 Hf1].
  cbv zeta. unfold float_mul.
  assert (float 100 = 100%Q) as -> by (vm_compute; reflexivity).
  apply (float_bounds (float (float q) * 100) 100 ltac:(lia)).
  change (inject_Z 1) with 1%Q in *. change (inject_Z 100) with 100%Q.
  split; nra.
Qed.

(** X5.  The analytics always return; the total is the number of
    entries of the domain, the counts by status and the overdue count
    stay within it, and the conversion rate lies between 0 and 100. *)
Theorem analytics_well_formed date_from date_to partner_ids e :
  exists a,
    get_loan_analytics date_from date_to partner_ids e = Ok a
    /\ total_loans a
       = length (filter (analytics_domain date_from date_to partner_ids)
                   (tracking_details e))
    /\ (active_loans a + sold_conversions a + returns_good a + returns_damaged a
        <= total_loans a)%nat
    /\ (overdue_loans a <= total_loans a)%nat
    /\ (0 <= conversion_rate a)%Q /\ (conversion_rate a <= 100)%Q.
Proof.
  unfold get_loan_analytics.
  pose proof (length_search (analytics_domain date_from date_to partner_ids) e)
    as Hlen.
  destruct (search _ e) as [|r records] eqn:Hs.
  - eexists. split; [reflexivity|]. simpl in *. split_and!; try done; lia.
  - set (l := r :: records) in *.
    change (length l) with (S (length records)).
    rewrite !int_truediv_positive. cbn [and_then].
    eexists. split; [reflexivity|]. cbn -[count Qdiv Qmult].
    pose proof (status_buckets l) as Hb.
    pose proof (count_le ltd_is_overdue l) as Ho.
    pose proof (count_le (fun r => bool_decide (ltd_status r = sold)) l) as Hc.
    change (length l) with (S (length records)) in *.
    destruct (ratio_bounds _ _ Hc) as [H0 H1].
    split_and!; try done; lia.
Qed.

End Analytics.

Section Listing.
Import LoanTrackingDetail.

Lemma before_spec a b :
  before a b = true <->
  ltd_loan_date b < ltd_loan_date a
  \/ (ltd_loan_date a = ltd_loan_date b /\ (ltd_id b < ltd_id a)%nat).
Proof.
  unfold before.
  rewrite orb_true_iff, andb_true_iff, Z.ltb_lt, Z.eqb_eq, Nat.ltb_lt. tauto.
Qed.

Lemma not_before_listed_le x r : before x r = false -> listed_le r x.
Proof.
  intros H. unfold listed_le.
  destruct (Z.lt_trichotomy (ltd_loan_date x) (ltd_loan_date r)) as [?|[?|?]];
    [by left| |].
  - right. split; [done|].
    destruct (decide (ltd_id x <= ltd_id r)%nat); [done|].
    assert (before x r = true); [|congruence].
    apply before_spec. right. split; [done|lia].
  - assert (before x r = true); [|congruence].
    apply before_spec. by left.
Qed.

Lemma before_listed_le x r : before x r = true -> listed_le x r.
Proof. rewrite before_spec. unfold listed_le. intros [?|[? ?]]; [by left|]. right. split; [done|lia]. Qed.

Lemma listed_le_trans a b c : listed_le a b -> listed_le b c -> listed_le a c.
Proof. unfold listed_le. intros [?|[? ?]] [?|[? ?]]; [left|left|left|right]; try lia. Qed.

Lemma insert_sorted_perm r l : insert_sorted r l ≡ₚ r :: l.
Proof.
  induction l as [|x l IH]; simpl; [done|].
  destruct (before x r); [|done].
  rewrite IH. apply Permutation_swap.
Qed.

Lemma insert_sorted_sorted r l :
  StronglySorted listed_le l -> StronglySorted listed_le (insert_sorted r l).
Proof.
  induction 1 as [|x l Hl IH Hx]; simpl.
  - repeat constructor.
  - destruct (before x r) eqn:E.
    + constructor; [done|].
      rewrite insert_sorted_perm. constructor; [|done].
      by apply before_listed_le.
    + apply not_before_listed_le in E.
      constructor; [by constructor|].
      constructor; [done|].
      eapply Forall_impl; [exact Hx|]. intros y Hy.
      by eapply listed_le_trans.
Qed.

(** X6.  A search returns the entries of the domain, each once, listed
    by loan date and then id, latest first. *)
Theorem search_sorted_permutation domain e :
  search domain e ≡ₚ filter domain (tracking_details e)
  /\ StronglySorted listed_le (search domain e).
Proof.
  unfold search, sort_by_order.
  induction (filter domain (tracking_details e)) as [|r l [IHp IHs]]; simpl.
  - split; [done|constructor].
  - split; [by rewrite insert_sorted_perm, IHp|by apply insert_sorted_sorted].
Qed.

End Listing.

Section Checks.
Context {S : Type} (P : exn -> Prop).

Lemma is_check_ret : is_check (S := S) P (ret tt).
Proof. by left. Qed.

Lemma is_check_raise ex : P ex -> is_check (S := S) P (raise ex).
Proof. right. by eexists. Qed.

Lemma is_check_when b (m : M S unit) : is_check P m -> is_check P (when b m).
Proof. destruct b; [done|]. intros _. apply is_check_ret. Qed.

Lemma is_check_bind (m k : M S unit) :
  is_check P m -> is_check P k -> is_check P (m >> k).
Proof.
  intros Hm Hk s. unfold bind.
  destruct (Hm s) as [->|(ex & ? & ->)]; [apply Hk|]. right. by eexists.
Qed.

Lemma is_check_for_each {A} (l : list A) (body : A -> M S unit) :
  (forall x, is_check P (body x)) -> is_check P (for_each l body).
Proof.
  intros Hb. induction l as [|x l IH]; simpl; [apply is_check_ret|].
  by apply is_check_bind.
Qed.

Lemma check_bind_ok (m k : M S unit) s :
  is_check P m ->
  (m >> k) s = (Ok tt, s) <-> m s = (Ok tt, s) /\ k s = (Ok tt, s).
Proof.
  intros Hm. unfold bind.
  destruct (Hm s) as [->|(ex & ? & ->)]; [tauto|].
  split; [done|]. by intros [? _].
Qed.

Lemma for_each_check_ok {A} (l : list A) (body : A -> M S unit) s :
  (forall x, is_check P (body x)) ->
  for_each l body s = (Ok tt, s) <-> Forall (fun x => body x s = (Ok tt, s)) l.
Proof.
  intros Hb. induction l as [|x l IH]; simpl.
  - split; [constructor|done].
  - rewrite check_bind_ok by done. rewrite IH. split.
    + intros [? ?]. by constructor.
    + by inversion 1.
Qed.

Lemma when_raise_ok b ex (s : S) :
  when b (raise ex) s = (Ok tt, s) <-> b = false.
Proof. destruct b; simpl; unfold raise, ret; split; congruence. Qed.

End Checks.

Ltac user_check :=
  repeat first
    [ apply is_check_bind | apply is_check_for_each; intros ?
    | apply is_check_when | apply is_check_raise; by eexists
    | apply is_check_ret ].

Section Validation.
Import LoanResolutionWizard.

Lemma validate_resolution_is_check w :
  is_check is_user_error (_validate_resolution w).
Proof.
  intros e. unfold _validate_resolution. rewrite bind_run.
  unfold get at 1. cbv beta iota.
  apply (fun H1 H2 => is_check_bind is_user_error _ _ H1 H2 e); user_check.
Qed.

Lemma Qle_bool_false a b : Qle_bool a b = false <-> (b < a)%Q.
Proof.
  split.
  - intros H. apply Qnot_le_lt. intros Hle. apply Qle_bool_iff in Hle.
    congruence.
  - intros H. destruct (Qle_bool a b) eqn:E; [|done].
    apply Qle_bool_iff in E. lra.
Qed.

Lemma Qlt_bool_false a b : Qlt_bool a b = false <-> (b <= a)%Q.
Proof.
  unfold Qlt_bool. rewrite negb_false_iff. apply Qle_bool_iff.
Qed.

Lemma validate_resolution_iff w e :
  (_validate_resolution w e = (Ok tt, e) <-> resolvable w)
  /\ (~ resolvable w ->
      exists msg, _validate_resolution w e = (Raise (UserError msg), e)).
Proof.
  assert (Hiff : _validate_resolution w e = (Ok tt, e) <-> resolvable w).
  { unfold _validate_resolution. rewrite bind_run.
    unfold get at 1. cbv beta iota.
    rewrite (check_bind_ok is_user_error) by user_check.
    rewrite (check_bind_ok is_user_error) by user_check.
    rewrite (check_bind_ok is_user_error) by user_check.
    rewrite !when_raise_ok.
    rewrite !(for_each_check_ok is_user_error) by (intros ?; user_check).
    unfold resolvable. rewrite bool_decide_eq_false.
    split.
    - intros (Hne & Hty & Hqty & Hprice). split; [done|].
      apply Forall_forall. intros line Hin.
      rewrite Forall_forall in Hqty. specialize (Hqty line Hin).
      rewrite (check_bind_ok is_user_error) in Hqty by user_check.
      rewrite !when_raise_ok in Hqty. destruct Hqty as [Hq1 Hq2].
      apply Qle_bool_false in Hq1. apply Qlt_bool_false in Hq2.
      split_and!; try done.
      + destruct (wl_resolution_type line) eqn:Et; [done|].
        assert (existsb
                  (fun l => bool_decide (wl_resolution_type l = None))
                  (resolution_line_ids w) = true); [|congruence].
        apply existsb_exists. exists line.
        split; [by apply list_elem_of_In|by apply bool_decide_eq_true].
      + intros Hbuy. rewrite Forall_forall in Hprice.
        assert (Hin' : line ∈ filter (has_type buy) (resolution_line_ids w)).
        { apply list_elem_of_filter. split; [|done].
          unfold has_type. by apply bool_decide_pack. }
        specialize (Hprice line Hin'). rewrite when_raise_ok in Hprice.
        by apply Qle_bool_false in Hprice.
    - intros (Hne & Hall). rewrite Forall_forall in Hall.
      split_and!; try done.
      + destruct (existsb _ _) eqn:E; [|done].
        apply existsb_exists in E as (line & Hin & Hnone).
        apply bool_decide_eq_true in Hnone.
        destruct (Hall line) as [[? Hs] _]; [by apply list_elem_of_In|].
        congruence.
      + apply Forall_forall. intros line Hin.
        destruct (Hall line Hin) as (_ & Hq1 & Hq2 & _).
        rewrite (check_bind_ok is_user_error) by user_check.
        rewrite !when_raise_ok. split.
        * by apply Qle_bool_false.
        * by apply Qlt_bool_false.
      + apply Forall_forall. intros line Hin.
        apply list_elem_of_filter in Hin as [Hbuy Hin].
        unfold has_type in Hbuy. apply bool_decide_unpack in Hbuy.
        destruct (Hall line Hin) as (_ & _ & _ & Hp).
        rewrite when_raise_ok. apply Qle_bool_false. by apply Hp. }
  split; [exact Hiff|].
  intros Hno.
  destruct (validate_resolution_is_check w e) as [Hok|(ex & [msg ->] & Hex)];
    [by apply Hiff in Hok|by exists msg].
Qed.

(** X7.  The validation of a submission accepts exactly the submissions
    with at least one line whose lines all have a decision, a quantity
    to resolve that is positive and at most the quantity lent, and a
    positive price when bought; it refuses the others with a user
    error, and changes nothing either way. *)
Theorem validate_resolution_accepts w e :
  (_validate_resolution w e = (Ok tt, e) <-> resolvable w)
  /\ (~ resolvable w ->
      exists msg, _validate_resolution w e = (Raise (UserError msg), e)).
Proof. apply validate_resolution_iff. Qed.

End Validation.

Section LineConstraints.
Import LoanResolutionWizard.

Lemma check_quantity_consistency_accepts e line :
  _check_quantity_consistency e line = Ok tt <->
    (qty_to_resolve line <= loaned_qty line)%Q
    /\ (0 < qty_to_resolve line)%Q
    /\ (is_serial e line = true -> (qty_to_resolve line == 1)%Q).
Proof.
  unfold _check_quantity_consistency.
  destruct (Qlt_bool _ _) eqn:E1.
  { split; [done|]. intros (H & _). apply Qlt_bool_false in H. congruence. }
  apply Qlt_bool_false in E1.
  destruct (Qle_bool _ 0) eqn:E2.
  { split; [done|]. intros (_ & H & _). apply Qle_bool_false in H.
    congruence. }
  apply Qle_bool_false in E2.
  destruct (is_serial e line); simpl.
  - destruct (Qeq_bool _ 1) eqn:E3; simpl.
    + apply Qeq_bool_iff in E3. tauto.
    + split; [done|]. intros (_ & _ & H). specialize (H eq_refl).
      apply Qeq_bool_iff in H. congruence.
  - split; [|done]. intros _. split_and!; done.
Qed.

Lemma check_sale_price_accepts e line :
  _check_sale_price e line = Ok tt <->
    (wl_resolution_type line = Some buy -> (0 < unit_price line)%Q).
Proof.
  unfold _check_sale_price, has_type.
  destruct (decide (wl_resolution_type line = Some buy)) as [Hb|Hb].
  - rewrite bool_decide_eq_true_2 by done. simpl.
    destruct (Qle_bool _ 0) eqn:E.
    + split; [done|]. intros H. apply Qle_bool_false in H; [congruence|done].
    + apply Qle_bool_false in E. tauto.
  - rewrite bool_decide_eq_false_2 by done. simpl. tauto.
Qed.

(** X8.  The constraints of a wizard line ask what the validation of a
    submission asks of the line, and one thing more: quantity 1 for a
    product with serial numbers. *)
Theorem line_constraints_cover_validation e line :
  (is_Some (wl_resolution_type line)
   /\ _check_quantity_consistency e line = Ok tt
   /\ _check_sale_price e line = Ok tt)
  <-> (line_resolvable line
       /\ (is_serial e line = true -> (qty_to_resolve line == 1)%Q)).
Proof.
  rewrite check_quantity_consistency_accepts, check_sale_price_accepts.
  unfold line_resolvable. tauto.
Qed.

End LineConstraints.

Section SaleOrder.
Import LoanResolutionWizard.

Lemma add_to_group_keyed k line gs :
  k.1.1 = wl_product_id line -> k.1.2 = unit_price line ->
  keyed gs -> keyed (add_to_group k line gs).
Proof.
  intros Hp Hk. unfold keyed.
  induction 1 as [|[k' g] gs [Hg1 Hg2] Hgs IH]; simpl.
  - constructor; [|constructor]. simpl. rewrite Hp, Hk. by split.
  - destruct (key_eqb k' k); constructor; simpl in *; auto.
Qed.

Lemma add_to_group_groups k line gs :
  k.1.1 = wl_product_id line -> k.1.2 = unit_price line ->
  keyed gs -> grouped line (add_to_group k line gs).
Proof.
  intros Hp Hk. unfold keyed, grouped.
  induction 1 as [|[k' g] gs [Hg1 Hg2] Hgs IH]; simpl.
  - apply Exists_cons_hd. simpl. by split.
  - destruct (key_eqb k' k) eqn:E.
    + apply Exists_cons_hd. simpl in *.
      unfold key_eqb in E. apply andb_true_iff in E as [E _].
      apply andb_true_iff in E as [E1 E2].
      apply bool_decide_eq_true in E1. apply Qeq_bool_iff in E2.
      split; [congruence|]. rewrite Hg2, E2, Hk. reflexivity.
    + by apply Exists_cons_tl.
Qed.

Lemma add_to_group_keeps l k line gs :
  grouped l gs -> grouped l (add_to_group k line gs).
Proof.
  unfold grouped. induction 1 as [[k' g] gs Hg|[k' g] gs Hgs IH]; simpl.
  - destruct (key_eqb k' k); by apply Exists_cons_hd.
  - destruct (key_eqb k' k); by apply Exists_cons_tl.
Qed.

Lemma add_to_group_length k line gs :
  (length (add_to_group k line gs) <= S (length gs))%nat.
Proof.
  induction gs as [|[k' g] gs IH]; simpl; [lia|].
  destruct (key_eqb k' k); simpl; lia.
Qed.

Lemma grouped_lines_bill e ls gs :
  keyed gs ->
  let gs' :=
    foldl (fun groups line => add_to_group (line_key e line) line groups)
      gs ls in
  keyed gs'
  /\ Forall (fun l => grouped l gs') ls
  /\ (forall l, grouped l gs -> grouped l gs')
  /\ (length gs' <= length gs + length ls)%nat.
Proof.
  revert gs. induction ls as [|line ls IH]; intros gs Hk; simpl.
  - split_and!; [done|constructor|done|lia].
  - destruct (IH (add_to_group (line_key e line) line gs))
      as (H1 & H2 & H3 & H4).
    { by apply add_to_group_keyed. }
    pose proof (add_to_group_length (line_key e line) line gs).
    split_and!; [done| |intros l Hl|lia].
    + constructor; [|done]. apply H3. by apply add_to_group_groups.
    + apply H3. by apply add_to_group_keeps.
Qed.

Lemma number_lines_billed l order next gs :
  grouped l gs -> billed l (number_lines order next (map snd gs)).
Proof.
  unfold grouped, billed. intros H. revert next.
  induction H as [[k g] gs Hg|[k g] gs Hgs IH]; intros next; simpl.
  - by apply Exists_cons_hd.
  - apply Exists_cons_tl, IH.
Qed.

Lemma number_lines_length order next gs :
  length (number_lines order next gs) = length gs.
Proof.
  revert next. induction gs as [|g gs IH]; intros next; simpl; [done|].
  by rewrite IH.
Qed.

Lemma number_lines_order order next gs :
  Forall (fun sol => sol_order_id sol = order) (number_lines order next gs).
Proof.
  revert next. induction gs as [|g gs IH]; intros next; simpl; constructor;
    auto.
Qed.

Lemma fresh_id_fresh ids : fresh_id ids ∉ ids.
Proof.
  assert (H : forall i, i ∈ ids -> (i <= foldr Nat.max 0 ids)%nat).
  { induction ids as [|x ids IH]; intros i Hi; [by apply elem_of_nil in Hi|].
    apply elem_of_cons in Hi as [->|Hi]; simpl; [lia|].
    specialize (IH i Hi). lia. }
  intros Hin. apply H in Hin. unfold fresh_id in Hin. lia.
Qed.

Lemma sp_call_keeps_any {X A} (f : Env -> X) i (m : M stock_picking A) :
  (forall t e, f (with_pickings t e) = f e) ->
  keeps f (StockPicking.call i m).
Proof.
  intros Hf e. unfold StockPicking.call, zoom.
  destruct (on_row _ _ _ _) as [o tbl']. simpl. apply Hf.
Qed.

Lemma sp_write_keeps_any {X} (f : Env -> X) self vals :
  (forall t e, f (with_pickings t e) = f e) ->
  keeps f (StockPicking.write self vals).
Proof.
  intros Hf.
  unfold StockPicking.write, StockPicking._trigger_quantity_recalculation.
  apply keeps_bind; [|intros ?].
  { destruct (StockPicking.new_loan_state vals); [|apply keeps_ret].
    apply keeps_for_each; intros i. unfold StockPicking.validation_step.
    apply keeps_bind; [apply keeps_get|intros e].
    destruct (StockPicking.browse e i); [|apply keeps_ret].
    by apply keeps_when, sp_call_keeps_any. }
  apply keeps_bind; [apply keeps_get|intros e].
  apply keeps_bind; [|intros ?].
  { apply keeps_for_each; intros i. by apply sp_call_keeps_any. }
  apply keeps_for_each; intros i. apply keeps_bind; [apply keeps_get|intros e'].
  destruct (StockPicking.browse e' i); [|apply keeps_ret].
  apply keeps_when, keeps_ret.
Qed.

(** X9.  The sale order bills every line sold: its lines are added to
    the sales, all under one new order, at most one for each line sold,
    and every line sold has an order line of its product at its unit
    price. *)
Theorem create_sale_order_bills_lines w ls e order_line e' :
  _create_sale_order w ls e = (Ok order_line, e') ->
  sale_lines e' = (sale_lines e ++ order_line)%list
  /\ Forall (fun l => billed l order_line) ls
  /\ (length order_line <= length ls)%nat
  /\ exists order,
       (order ∉ map sol_order_id (sale_lines e))
       /\ Forall (fun sol => sol_order_id sol = order) order_line.
Proof.
  unfold _create_sale_order. rewrite bind_run. unfold get at 1.
  cbv beta iota zeta. rewrite bind_run. unfold modify at 1. cbv beta iota.
  rewrite bind_run.
  set (gs := foldl _ [] ls).
  set (order := fresh_id (map sol_order_id (sale_lines e))).
  set (lines := number_lines order _ (map snd gs)).
  pose proof (sp_write_keeps_any sale_lines [wiz_picking_id w]
                [StockPicking.Set_conversion_sale_order_id (Some order)]
                (fun t e => eq_refl)
                (with_sale_lines (sale_lines e ++ lines)%list e)) as Hk.
  destruct (StockPicking.write _ _ _) as [[[]|ex] e1]; [|done].
  unfold ret. intros [= <- <-]. simpl in Hk.
  destruct (grouped_lines_bill e ls [] (Forall_nil_2 _)) as (_ & Hb & _ & Hlen).
  fold gs in Hb, Hlen.
  split_and!.
  - by rewrite Hk; destruct e.
  - eapply Forall_impl; [exact Hb|]. intros l Hl.
    by apply number_lines_billed.
  - unfold lines. rewrite number_lines_length, length_map. simpl in Hlen. lia.
  - exists order. split; [apply fresh_id_fresh|apply number_lines_order].
Qed.

End SaleOrder.

Section Preserves.
Context (I : Env -> Prop).

Lemma preserves_ret {A} (a : A) : preserves I (ret a).
Proof. by intros e. Qed.

Lemma preserves_raise {A} ex : preserves I (raise (A := A) ex).
Proof. by intros e. Qed.

Lemma preserves_get : preserves I get.
Proof. by intros e. Qed.

Lemma preserves_bind {A B} (m : M Env A) (k : A -> M Env B) :
  preserves I m -> (forall a, preserves I (k a)) -> preserves I (bind m k).
Proof.
  intros Hm Hk e He. unfold bind. specialize (Hm e He).
  destruct (m e) as [[a|ex] e']; simpl in *; [|done]. by apply Hk.
Qed.

Lemma preserves_when b (m : M Env unit) :
  preserves I m -> preserves I (when b m).
Proof. destruct b; [done|]. intros _. apply preserves_ret. Qed.

Lemma preserves_for_each {A} (l : list A) (body : A -> M Env unit) :
  (forall x, preserves I (body x)) -> preserves I (for_each l body).
Proof.
  intros Hb. induction l as [|x l IH]; simpl; [apply preserves_ret|].
  apply preserves_bind; auto.
Qed.

Lemma preserves_modify (g : Env -> Env) :
  (forall e, I e -> I (g e)) -> preserves I (modify g).
Proof. intros Hg e He. by apply Hg. Qed.

Lemma preserves_if {A} (b : bool) (m1 m2 : M Env A) :
  preserves I m1 -> preserves I m2 -> preserves I (if b then m1 else m2).
Proof. by destruct b. Qed.

Lemma preserves_ltd_call {A} i
    (m : list product -> Z -> M loan_tracking_detail A) :
  (forall t e, I e -> I (with_tracking_details t e)) ->
  preserves I (LoanTrackingDetail.call i m).
Proof.
  intros HI e He. unfold LoanTrackingDetail.call, zoom, bind, get. simpl.
  destruct (on_row _ _ _ _) as [o tbl']. simpl. by apply HI.
Qed.

End Preserves.

Section Gate.
Import LoanResolutionWizard.

Variable i : nat.
Variable s : loan_state.

Lemma loan_in_state_tracking t e :
  loan_in_state i s e -> loan_in_state i s (with_tracking_details t e).
Proof. by destruct e. Qed.

Lemma loan_in_state_sale_lines t e :
  loan_in_state i s e -> loan_in_state i s (with_sale_lines t e).
Proof. by destruct e. Qed.

Lemma on_row_find_loan {A} j (m : M stock_picking A) tbl p :
  (forall r, sp_id (m r).2 = sp_id r /\ is_loan (m r).2 = is_loan r
             /\ sp_loan_state (m r).2 = sp_loan_state r) ->
  row sp_id i tbl = Some p ->
  exists p', row sp_id i (on_row sp_id j m tbl).2 = Some p'
             /\ is_loan p' = is_loan p
             /\ sp_loan_state p' = sp_loan_state p.
Proof.
  intros Hm. unfold row.
  induction tbl as [|x tbl IH]; simpl; [done|].
  destruct (Hm x) as (Hid & Hl & Hst).
  destruct (bool_decide (sp_id x = j)) eqn:Ej.
  - destruct (m x) as [o x'] eqn:Hx. simpl in *. rewrite Hid.
    destruct (bool_decide (sp_id x = i)); [|by eauto].
    intros [= <-]. eauto.
  - destruct (on_row sp_id j m tbl) as [o tbl'] eqn:Ho. simpl in *.
    destruct (bool_decide (sp_id x = i)); [by eauto|]. done.
Qed.

Lemma preserves_sp_call {A} j (m : M stock_picking A) :
  (forall r, sp_id (m r).2 = sp_id r /\ is_loan (m r).2 = is_loan r
             /\ sp_loan_state (m r).2 = sp_loan_state r) ->
  preserves (loan_in_state i s) (StockPicking.call j m).
Proof.
  intros Hm e (p & Hb & Hl & Hs). unfold StockPicking.call, zoom.
  destruct (on_row_find_loan j m (pickings e) p Hm Hb) as (p' & Hb' & Hl' & Hs').
  destruct (on_row sp_id j m (pickings e)) as [o tbl']. simpl in *.
  exists p'. split_and!; [by destruct e|congruence|congruence].
Qed.

Lemma preserves_sp_create in_loans_warehouse moves :
  preserves (loan_in_state i s)
    (StockPicking.create in_loans_warehouse moves).
Proof.
  intros e (p & Hb & Hl & Hs). unfold StockPicking.create.
  rewrite bind_run. unfold get at 1. cbv beta iota zeta.
  destruct in_loans_warehouse; simpl; exists p; split_and!; try done;
    unfold StockPicking.browse; destruct e; simpl in *;
    by apply (row_app_l sp_id).
Qed.

Lemma preserves_link_sale_order order :
  preserves (loan_in_state i s)
    (StockPicking.write [i]
       [StockPicking.Set_conversion_sale_order_id order]).
Proof.
  unfold StockPicking.write, StockPicking._trigger_quantity_recalculation.
  cbn [StockPicking.new_loan_state foldl].
  apply preserves_bind; [apply preserves_ret|intros _].
  apply preserves_bind; [apply preserves_get|intros e0].
  apply preserves_bind; [|intros _].
  - apply preserves_for_each. intros j. apply preserves_sp_call.
    intros r. by destruct r.
  - apply preserves_for_each. intros j.
    apply preserves_bind; [apply preserves_get|intros e1].
    destruct (StockPicking.browse e1 j); [|apply preserves_ret].
    apply preserves_when, preserves_ret.
Qed.

Lemma preserves_process_sales w :
  wiz_picking_id w = i ->
  preserves (loan_in_state i s) (_process_sales w).
Proof.
  intros Hi. unfold _process_sales.
  destruct (filter _ _); [apply preserves_ret|].
  apply preserves_bind; [|intros order_line].
  { unfold _create_sale_order.
    apply preserves_bind; [apply preserves_get|intros e].
    apply preserves_bind;
      [apply preserves_modify; intros ?; apply loan_in_state_sale_lines
      |intros _].
    rewrite Hi.
    apply preserves_bind; [apply preserves_link_sale_order|intros _].
    apply preserves_ret. }
  apply preserves_bind; [|intros _; apply preserves_ret].
  apply preserves_for_each; intros line.
  apply preserves_ltd_call. intros. by apply loan_in_state_tracking.
Qed.

Lemma preserves_process_returns w :
  preserves (loan_in_state i s) (_process_returns w).
Proof.
  unfold _process_returns.
  destruct (filter _ _); [apply preserves_ret|].
  apply preserves_bind; [|intros rp].
  { unfold _create_return_picking.
    apply preserves_bind; [apply preserves_get|intros e].
    destruct (main_stock_location e); [|apply preserves_raise].
    apply preserves_bind; [apply preserves_sp_create|intros j].
    apply preserves_bind; [|intros _; apply preserves_ret].
    unfold StockPicking.action_confirm. apply preserves_sp_call.
    intros r. by destruct r. }
  apply preserves_bind; [|intros _; apply preserves_ret].
  apply preserves_for_each; intros line.
  apply preserves_bind; [apply preserves_get|intros e].
  apply preserves_ltd_call. intros. by apply loan_in_state_tracking.
Qed.

Lemma preserves_process_continued w :
  preserves (loan_in_state i s) (_process_continued_loans w).
Proof.
  unfold _process_continued_loans.
  apply preserves_bind; [|intros _; apply preserves_ret].
  apply preserves_for_each; intros line.
  apply preserves_bind; [apply preserves_get|intros e].
  apply preserves_ltd_call. intros. by apply loan_in_state_tracking.
Qed.

Lemma write_validated self vals n e p :
  StockPicking.new_loan_state vals = Some n ->
  i ∈ self ->
  StockPicking.browse e i = Some p ->
  is_loan p = true ->
  sp_loan_state p = Some s ->
  succeeded (StockPicking.write self vals e) = true ->
  spec_transition s n = true.
Proof.
  intros Hn Hin Hb Hl Hs Hok.
  destruct (spec_transition s n) eqn:Ht; [done|].
  pose proof (validation_phase_refuses n self i e p s Hin Hb Hl Hs Ht) as Hv.
  unfold StockPicking.write in Hok. rewrite bind_run, Hn in Hok.
  destruct (for_each self (StockPicking.validation_step n) e)
    as [[[]|ex] e']; done.
Qed.

Lemma update_original_loan_state_validated w e :
  wiz_picking_id w = i ->
  loan_in_state i s e ->
  succeeded (LoanResolutionWizard._update_original_loan_state w e) = true ->
  spec_transition s (resolution_target w) = true.
Proof.
  intros Hi (p & Hb & Hl & Hs).
  unfold LoanResolutionWizard._update_original_loan_state.
  rewrite bind_run. unfold get at 1. cbv beta iota zeta. rewrite Hi.
  apply (write_validated [i] _ _ e p); try done.
  apply list_elem_of_singleton. done.
Qed.

End Gate.

Lemma bind_ok {S A B} (m : M S A) (k : A -> M S B) s b s' :
  bind m k s = (Ok b, s') ->
  exists a s1, m s = (Ok a, s1) /\ k a s1 = (Ok b, s').
Proof.
  unfold bind. destruct (m s) as [[a|ex] s1]; [|done]. eauto.
Qed.

Lemma preserves_run {A} I (m : M Env A) e o e' :
  preserves I m -> I e -> m e = (o, e') -> I e'.
Proof. intros Hm He Hr. specialize (Hm e He). by rewrite Hr in Hm. Qed.

Section Resolution.
Import LoanResolutionWizard.

Lemma resolution_gate w s e :
  loan_in_state (wiz_picking_id w) s e ->
  match action_process_resolution w e with
  | (Ok _, _) =>
      resolvable w /\ spec_transition s (resolution_target w) = true
  | (Raise ex, _) => is_user_error ex
  end.
Proof.
  intros HI. unfold action_process_resolution. rewrite bind_run.
  destruct (validate_resolution_iff w e) as [Hiff _].
  destruct (validate_resolution_is_check w e) as [Hv|(ex & Hex & Hv)];
    rewrite Hv; [|done].
  apply Hiff in Hv. unfold try_except.
  destruct (bind _ _ e) as [[r|ex] e1] eqn:Hbody; [|by eexists].
  split; [done|].
  apply bind_ok in Hbody as (so & e2 & H1 & Hbody).
  apply bind_ok in Hbody as (rp & e3 & H2 & Hbody).
  apply bind_ok in Hbody as (cd & e4 & H3 & Hbody).
  apply bind_ok in Hbody as ([] & e5 & H4 & _).
  apply (update_original_loan_state_validated (wiz_picking_id w) s w e4);
    [done| |by rewrite H4].
  eapply preserves_run; [|clear H3|exact H3].
  { apply preserves_if;
      [apply preserves_process_continued|apply preserves_ret]. }
  eapply preserves_run; [|clear H2|exact H2].
  { apply preserves_if;
      [apply preserves_process_returns|apply preserves_ret]. }
  eapply preserves_run; [| |exact H1]; [|done].
  apply preserves_if; [by apply preserves_process_sales|apply preserves_ret].
Qed.

(** X10.  A resolution goes through only along the transition table:
    when it returns, the submission was valid and the table allows the
    step from the state of the loan to [partially_resolved] (a line
    keeps the loan) or [completed]; whatever it raises reaches the
    user as a user error. *)
Theorem resolution_succeeds_along_table w s e :
  loan_in_state (wiz_picking_id w) s e ->
  match action_process_resolution w e with
  | (Ok _, _) =>
      resolvable w /\ spec_transition s (resolution_target w) = true
  | (Raise ex, _) => is_user_error ex
  end.
Proof. apply resolution_gate. Qed.

End Resolution.

Section Overdue.
Import StockPicking.

Ltac overdue_cases today p :=
  unfold _compute_overdue_days;
  let d := fresh "d" in
  let Hd := fresh "Hd" in
  let Hl := fresh "Hl" in
  let Hf := fresh "Hf" in
  destruct (loan_expected_return_date p) as [d|] eqn:Hd;
    [destruct (is_loan p) eqn:Hl;
       [destruct (in_active_family (sp_loan_state p)) eqn:Hf|]|];
    simpl; rewrite ?Hd, ?Hl, ?Hf; simpl; rewrite ?Z.ltb_lt.

Lemma compute_overdue_days_flag today p :
  sp_is_overdue (_compute_overdue_days today p) = true <->
    is_loan p = true
    /\ in_active_family (sp_loan_state p) = true
    /\ exists d, loan_expected_return_date p = Some d /\ d < today.
Proof.
  overdue_cases today p.
  - split.
    + intros H. split_and!; try done. exists d. split; [done|lia].
    + intros (_ & _ & d' & Hd' & H). simplify_eq. lia.
  - split; [done|]. by intros (_ & ? & _).
  - split; [done|]. by intros (? & _).
  - split; [done|]. by intros (_ & _ & d & ? & _).
Qed.

Lemma compute_overdue_days_positive today p :
  sp_is_overdue (_compute_overdue_days today p) = true
  <-> 0 < overdue_days (_compute_overdue_days today p).
Proof. overdue_cases today p; split; intros; try done; lia. Qed.

Lemma compute_overdue_days_bounds today p :
  0 <= overdue_days (_compute_overdue_days today p)
  /\ (forall d, loan_expected_return_date p = Some d ->
        sp_is_overdue (_compute_overdue_days today p) = true ->
        overdue_days (_compute_overdue_days today p) = today - d).
Proof.
  overdue_cases today p; (split; [lia|]); intros d' Hd';
    rewrite ?Z.ltb_lt; intros; simplify_eq; lia.
Qed.

Lemma compute_overdue_days_idempotent today p :
  _compute_overdue_days today (_compute_overdue_days today p)
  = _compute_overdue_days today p.
Proof. overdue_cases today p; done. Qed.

(** X11.  [_compute_overdue_days] flags a transfer as overdue exactly
    when it is a loan in an active state whose expected return date is
    past; the days overdue are never negative, positive exactly when
    the flag is set, and then the days since that date; computing
    again changes nothing. *)
Theorem compute_overdue_days_spec today p :
  let p' := _compute_overdue_days today p in
  (sp_is_overdue p' = true <->
     is_loan p = true
     /\ in_active_family (sp_loan_state p) = true
     /\ exists d, loan_expected_return_date p = Some d /\ d < today)
  /\ (sp_is_overdue p' = true <-> 0 < overdue_days p')
  /\ 0 <= overdue_days p'
  /\ (forall d, loan_expected_return_date p = Some d ->
        sp_is_overdue p' = true -> overdue_days p' = today - d)
  /\ _compute_overdue_days today p' = p'.
Proof.
  pose proof (compute_overdue_days_bounds today p) as [? ?].
  split_and!; auto using compute_overdue_days_flag,
    compute_overdue_days_positive, compute_overdue_days_idempotent.
Qed.












End Overdue.

Section Entries.

Lemma continues_refl e : continues e e.
Proof. exists []. by rewrite app_nil_r. Qed.

Lemma continues_eq e e' : ledger_keys e' = ledger_keys e -> continues e e'.
Proof. intros H. exists []. by rewrite app_nil_r. Qed.

Lemma continues_trans e1 e2 e3 :
  continues e1 e2 -> continues e2 e3 -> continues e1 e3.
Proof.
  intros (n1 & H1 & F1) (n2 & H2 & F2). exists (n1 ++ n2)%list. split.
  { by rewrite H2, H1, <- app_assoc. }
  apply Forall_app. split; [done|].
  eapply Forall_impl; [exact F2|]. intros k' (k & Hk & Hs). simpl.
  rewrite H1 in Hk. apply elem_of_app in Hk as [Hk|Hk].
  { by exists k. }
  rewrite Forall_forall in F1. destruct (F1 k Hk) as (k0 & Hk0 & Hs0).
  exists k0. split; [done|].
  unfold same_loan_product in *. intuition congruence.
Qed.

Lemma grows_keeps {A} (m : M Env A) : keeps ledger_keys m -> grows m.
Proof. intros Hk e. apply continues_eq, Hk. Qed.

Lemma grows_ret {A} (a : A) : grows (ret a).
Proof. intros e. apply continues_refl. Qed.

Lemma grows_raise {A} ex : grows (raise (A := A) ex).
Proof. intros e. apply continues_refl. Qed.

Lemma grows_bind {A B} (m : M Env A) (k : A -> M Env B) :
  grows m -> (forall a, grows (k a)) -> grows (bind m k).
Proof.
  intros Hm Hk e. rewrite bind_run. specialize (Hm e).
  destruct (m e) as [[a|ex] e1]; simpl in *; [|done].
  eapply continues_trans; [exact Hm|apply Hk].
Qed.

Lemma grows_when b (m : M Env unit) : grows m -> grows (when b m).
Proof. destruct b; [done|]. intros _. apply grows_ret. Qed.

Lemma grows_for_each {A} (l : list A) (body : A -> M Env unit) :
  (forall x, grows (body x)) -> grows (for_each l body).
Proof.
  intros Hb. induction l as [|x l IH]; simpl; [apply grows_ret|].
  apply grows_bind; auto.
Qed.

Lemma grows_get_bind {B} (k : Env -> M Env B) :
  (forall e, grows (k e)) -> grows (bind get k).
Proof.
  intros Hk. apply grows_bind; [|done]. intros e. apply continues_refl.
Qed.

Lemma on_row_map {R X A} (key : R -> nat) (g : R -> X) i (m : M R A) tbl :
  (forall r, g (m r).2 = g r) ->
  map g (on_row key i m tbl).2 = map g tbl.
Proof.
  intros Hm. induction tbl as [|x tbl IH]; simpl; [done|].
  destruct (bool_decide (key x = i)).
  - specialize (Hm x). destruct (m x) as [o x']. simpl in *. by rewrite Hm.
  - destruct (on_row key i m tbl) as [o tbl']. simpl in *. by rewrite IH.
Qed.

Lemma ltd_call_keeps_keys {A} i
    (m : list product -> Z -> M loan_tracking_detail A) :
  (forall products now r, entry_key (m products now r).2 = entry_key r) ->
  keeps ledger_keys (LoanTrackingDetail.call i m).
Proof.
  intros Hm e. unfold LoanTrackingDetail.call, zoom, bind, get. simpl.
  pose proof (on_row_map ltd_id entry_key i (m (product_product e) (clock e))
                (tracking_details e) (Hm _ _)) as H.
  destruct (on_row _ _ _ _) as [o tbl']. simpl in *.
  unfold ledger_keys. destruct e; simpl. by rewrite H.
Qed.

Lemma assign_all_key vals r :
  existsb (fun v => match v with Set_product_id _ => true | _ => false end)
    vals = false ->
  entry_key (assign_all vals r) = entry_key r.
Proof.
  unfold assign_all. revert r.
  induction vals as [|v vals IH]; intros r; simpl; [done|].
  intros H. apply orb_false_iff in H as [Hv H].
  rewrite (IH _ H). by destruct v.
Qed.

Lemma write_key products now vals r :
  entry_key (LoanTrackingDetail.write products now vals r).2
  = entry_key (assign_all vals r).
Proof.
  unfold LoanTrackingDetail.write, bind, modify, when, ret.
  pose proof (check_tracking_state products (assign_all vals r)) as Ht.
  assert (Hr : forall r0,
             entry_key
               (LoanTrackingDetail._check_resolution_consistency now r0).2
             = entry_key r0).
  { intros r0. rewrite check_resolution_cases. by repeat case_match. }
  assert (Hc : forall r0,
             entry_key (LoanTrackingDetail.recompute now vals r0)
             = entry_key r0).
  { intros r0. unfold LoanTrackingDetail.recompute. by repeat case_match. }
  specialize (Hr (assign_all vals r)).
  destruct (touches [F_quantity; F_product_id; F_lot_id] vals).
  - destruct (LoanTrackingDetail._check_tracking_consistency _ _)
      as [[[]|ex] r1]; simpl in *; subst; [|done].
    destruct (touches _ vals).
    + destruct (LoanTrackingDetail._check_resolution_consistency _ _)
        as [[[]|ex] r2]; simpl in *; rewrite ?Hc, Hr; done.
    + simpl. by rewrite Hc.
  - destruct (touches _ vals).
    + destruct (LoanTrackingDetail._check_resolution_consistency _ _)
        as [[[]|ex] r2]; simpl in *; rewrite ?Hc, Hr; done.
    + simpl. by rewrite Hc.
Qed.

Lemma mark_returned_key products now rp condition notes r :
  entry_key
    (LoanTrackingDetail.action_mark_as_returned products now rp condition
       notes r).2
  = entry_key r.
Proof.
  unfold LoanTrackingDetail.action_mark_as_returned, bind, get, raise.
  simpl. destruct (negb _); [done|]. rewrite write_key.
  by apply assign_all_key.
Qed.

(** The copy of an entry is a new entry, the last of the ledger, of the
    loan and the product of the entry copied. *)
Lemma copy_grows i defaults :
  existsb (fun v => match v with Set_product_id _ => true | _ => false end)
    defaults = false ->
  grows (LoanTrackingDetail.copy i defaults).
Proof.
  intros Hd e. unfold LoanTrackingDetail.copy. rewrite bind_run.
  unfold get at 1. cbv beta iota.
  destruct (LoanTrackingDetail.browse e i) as [record|] eqn:Hb;
    [|apply continues_refl].
  unfold LoanTrackingDetail.create. rewrite bind_run.
  unfold get at 1. cbv beta iota zeta.
  set (r0 := assign_all defaults record).
  set (i' := fresh_id (map ltd_id (tracking_details e))).
  pose proof (write_key (product_product e) (clock e)
                [ Set_product_id (ltd_product_id r0); Set_lot_id (ltd_lot_id r0);
                  Set_quantity (ltd_quantity r0); Set_status (ltd_status r0);
                  Set_resolution_date (ltd_resolution_date r0);
                  Set_sale_order_line_id (ltd_sale_order_line_id r0);
                  Set_return_picking_id (ltd_return_picking_id r0) ]
                (with_id i' r0)) as Hk.
  destruct (LoanTrackingDetail.write _ _ _ (with_id i' r0)) as [[[]|ex] part];
    [|apply continues_refl].
  simpl in Hk.
  assert (Hpart : entry_key part
                  = (i', ltd_picking_id record, ltd_product_id record)).
  { rewrite Hk. pose proof (assign_all_key defaults record Hd) as H0.
    fold r0 in H0. unfold entry_key in *. simpl.
    by injection H0 as _ -> ->. }
  exists [entry_key part]. split.
  { unfold ledger_keys. destruct e; simpl. by rewrite map_app. }
  constructor; [|constructor]. exists (entry_key record). split.
  - unfold LoanTrackingDetail.browse in Hb. apply find_some in Hb as [Hb _].
    unfold ledger_keys. apply list_elem_of_fmap. exists record.
    split; [done|]. by apply list_elem_of_In.
  - rewrite Hpart. by unfold same_loan_product, entry_key.
Qed.

Lemma consume_returned_grows self records remaining :
  grows (StockPicking.consume_returned self records remaining).
Proof.
  revert remaining. induction records as [|i rest IH]; intros remaining.
  { apply grows_ret. }
  cbn [StockPicking.consume_returned].
  destruct (float_le remaining 0); [apply grows_ret|].
  apply grows_get_bind. intros e.
  destruct (LoanTrackingDetail.browse e i) as [record|]; [|apply grows_raise].
  destruct (float_le (ltd_quantity record) remaining).
  - apply grows_bind; [|intros _; apply IH].
    apply grows_keeps, ltd_call_keeps_keys. intros.
    apply mark_returned_key.
  - apply grows_bind; [|intros _; apply IH].
    apply grows_bind; [by apply copy_grows|intros _].
    apply grows_keeps, ltd_call_keeps_keys. intros.
    rewrite write_key. by apply assign_all_key.
Qed.

Lemma ledger_keys_pickings t e :
  ledger_keys (with_pickings t e) = ledger_keys e.
Proof. by destruct e. Qed.

Lemma reconcile_move_grows self original_loan return_move :
  grows (StockPicking.reconcile_move self original_loan return_move).
Proof.
  unfold StockPicking.reconcile_move.
  apply grows_get_bind. intros e. cbv zeta.
  destruct (float_le _ 0); [apply grows_ret|].
  destruct (decide _).
  - apply grows_for_each. intros move_line.
    destruct (ml_lot_id move_line); [|apply grows_ret].
    apply grows_when, grows_get_bind. intros e1. cbv zeta.
    apply grows_for_each. intros record.
    apply grows_keeps, ltd_call_keeps_keys.
    intros. apply mark_returned_key.
  - apply consume_returned_grows.
Qed.

Lemma update_original_loan_state_grows original_loan :
  grows (StockPicking._update_original_loan_state original_loan).
Proof.
  apply grows_keeps.
  unfold StockPicking._update_original_loan_state.
  apply keeps_bind; [apply keeps_get|intros e]. cbv zeta.
  destruct (LoanTrackingDetail.search _ e).
  - apply sp_write_keeps_any, ledger_keys_pickings.
  - apply keeps_when, sp_write_keeps_any, ledger_keys_pickings.
Qed.

Lemma update_loan_tracking_on_return_grows self :
  grows (StockPicking._update_loan_tracking_on_return self).
Proof.
  unfold StockPicking._update_loan_tracking_on_return.
  apply grows_get_bind. intros e.
  destruct (StockPicking.browse e self) as [picking|]; [|apply grows_raise].
  destruct (loan_return_origin_id picking) as [original_loan|];
    [|apply grows_ret].
  apply grows_bind; [|intros _; apply update_original_loan_state_grows].
  apply grows_for_each. intros return_move.
  apply reconcile_move_grows.
Qed.

Lemma button_validate_grows self : grows (StockPicking.button_validate self).
Proof.
  unfold StockPicking.button_validate,
    StockPicking._trigger_quantity_recalculation.
  apply grows_bind; [|intros _].
  { apply grows_keeps, sp_call_keeps_any, ledger_keys_pickings. }
  apply grows_get_bind. intros e.
  destruct (StockPicking.browse e self) as [picking|]; [|apply grows_raise].
  apply grows_bind; [|intros _; apply grows_when, grows_ret].
  apply grows_when, grows_bind;
    [apply update_loan_tracking_on_return_grows|intros _; apply grows_ret].
Qed.

(** X14.  Validating a transfer keeps the entries of the ledger: when it
    returns, every entry is still there, in its place, under its id,
    its loan and its product, and an entry it added (the part of a
    split that came back) is of a loan and a product that had one. *)
Theorem button_validate_keeps_entries self e e' :
  StockPicking.button_validate self e = (Ok tt, e') ->
  exists new,
    ledger_keys e' = (ledger_keys e ++ new)%list
    /\ Forall (fun k' => exists k, k ∈ ledger_keys e /\ same_loan_product k k')
         new.
Proof.
  intros Hr. pose proof (button_validate_grows self e) as H.
  by rewrite Hr in H.
Qed.

End Entries.

Section Actions.
Import LoanActions LoanResolutionWizard.

Lemma admitted_loan_gate self a w e r e' :
  action_resolve_loan_trial self = Ok a ->
  StockPicking.browse e (default_picking_id a) = Some self ->
  wiz_picking_id w = default_picking_id a ->
  action_process_resolution w e = (Ok r, e') ->
  sp_loan_state self = Some in_trial /\ has_continued_loans w = false.
Proof.
  unfold action_resolve_loan_trial.
  destruct (is_loan self) eqn:Hl; [|done]. simpl.
  destruct (bool_decide _) eqn:Hs; [|done]. simpl.
  intros [= <-]. simpl. intros Hb Hw Hr.
  apply bool_decide_eq_true in Hs.
  assert (exists s, sp_loan_state self = Some s
                    /\ (s = in_trial \/ s = loan_active)) as (s & Hst & Hcases).
  { apply elem_of_cons in Hs as [Hs|Hs]; [by eauto|].
    apply list_elem_of_singleton in Hs. by eauto. }
  pose proof (resolution_gate w s e) as Hgate.
  rewrite Hr in Hgate.
  destruct Hgate as [_ Ht].
  { exists self. by rewrite Hw. }
  unfold resolution_target in Ht.
  destruct Hcases as [-> | ->], (has_continued_loans w); done.
Qed.

(** X15.  The button that opens the resolution wizard admits active
    loans, but a resolution only goes through for a loan in its trial
    period, and then only when no line keeps the loan. *)
Theorem resolve_admitted_loan_outcome self a w e r e' :
  action_resolve_loan_trial self = Ok a ->
  StockPicking.browse e (default_picking_id a) = Some self ->
  wiz_picking_id w = default_picking_id a ->
  action_process_resolution w e = (Ok r, e') ->
  sp_loan_state self = Some in_trial /\ has_continued_loans w = false.
Proof. apply admitted_loan_gate. Qed.

(** The lines [default_get] proposes all keep the loan. *)
Lemma default_get_keeps_loans context e :
  Forall (fun l => wl_resolution_type l = Some keep_loan)
    (default_get context e).
Proof.
  unfold default_get. destruct (context !! "picking_id") as [i|]; [|done].
  destruct (StockPicking.browse e i) as [p|]; [|done].
  destruct (is_loan p); [|done].
  apply Forall_forall. intros l Hl.
  apply list_elem_of_fmap in Hl as (r & -> & _). done.
Qed.

(** X16.  The wizard the button opens has no lines: the context of the
    action carries [default_picking_id] and no [picking_id], the key
    [default_get] looks for; submitted as it opens, the wizard is
    refused, nothing to resolve, and changes nothing. *)
Theorem wizard_opened_by_button_refused self a w e :
  action_resolve_loan_trial self = Ok a ->
  resolution_line_ids w = default_get (aw_context a) e ->
  (aw_context a !! "picking_id" = None
   /\ aw_context a !! "default_picking_id" = Some (sp_id self))
  /\ resolution_line_ids w = []
  /\ action_process_resolution w e
     = (Raise (UserError "No hay productos para resolver."), e).
Proof.
  intros Ha Hlines.
  assert (Hctx : aw_context a !! "picking_id" = None).
  { unfold aw_context. by apply lookup_singleton_ne. }
  assert (Hid : default_picking_id a = sp_id self).
  { unfold action_resolve_loan_trial in Ha.
    destruct (negb (is_loan self)); [done|].
    destruct (negb (bool_decide _)); [done|]. by injection Ha as <-. }
  unfold default_get in Hlines. rewrite Hctx in Hlines.
  split_and!; [done| |done|].
  { unfold aw_context. rewrite <- Hid. apply lookup_singleton_eq. }
  unfold action_process_resolution, _validate_resolution.
  rewrite !bind_run. by rewrite Hlines.
Qed.

End Actions.

Section Creation.
Import LoanActions.

Lemma check_tracking_with_id products i v :
  (LoanTrackingDetail._check_tracking_consistency products (with_id i v)).1
  = (LoanTrackingDetail._check_tracking_consistency products v).1.
Proof.
  unfold LoanTrackingDetail._check_tracking_consistency, bind, get, raise, ret.
  simpl. by repeat case_match.
Qed.

Lemma create_row v e :
  ltd_status v = active ->
  let i := fresh_id (map ltd_id (tracking_details e)) in
  LoanTrackingDetail.create v e =
    match LoanTrackingDetail._check_tracking_consistency (product_product e)
            (with_id i v)
    with
    | (Ok _, _) =>
        (Ok i,
         with_tracking_details
           (tracking_details e
            ++ [LoanTrackingDetail.recompute (clock e)
                  [Set_status active] (with_id i v)])%list e)
    | (Raise ex, _) => (Raise ex, e)
    end.
Proof.
  intros Hs i.
  unfold LoanTrackingDetail.create. rewrite bind_run. unfold get at 1.
  cbv beta iota zeta. fold i.
  unfold LoanTrackingDetail.write. rewrite bind_run.
  unfold modify at 1. cbv beta iota. rewrite bind_run.
  change (touches [F_quantity; F_product_id; F_lot_id] _) with true.
  unfold when at 1.
  assert (Hrow : assign_all
            [Set_product_id (ltd_product_id v); Set_lot_id (ltd_lot_id v);
             Set_quantity (ltd_quantity v); Set_status (ltd_status v);
             Set_resolution_date (ltd_resolution_date v);
             Set_sale_order_line_id (ltd_sale_order_line_id v);
             Set_return_picking_id (ltd_return_picking_id v)] (with_id i v)
          = with_id i v) by (by destruct v).
  rewrite Hrow.
  pose proof (check_tracking_state (product_product e) (with_id i v)) as Hst.
  destruct (LoanTrackingDetail._check_tracking_consistency _ (with_id i v))
    as [[[]|ex] r1] eqn:Hc; simpl in Hst; subst r1; [|done].
  rewrite bind_run.
  change (touches [F_status; F_resolution_date; F_sale_order_line_id;
                   F_return_picking_id] _) with true.
  unfold when at 1. rewrite check_resolution_cases.
  assert (ltd_status (with_id i v) = active) as Hs' by (by destruct v).
  rewrite Hs'. simpl. rewrite Hs. reflexivity.
Qed.

Lemma create_active v e :
  ltd_status v = active ->
  match (LoanTrackingDetail._check_tracking_consistency (product_product e) v).1
  with
  | Ok _ =>
      exists r',
        LoanTrackingDetail.create v e
        = (Ok (fresh_id (map ltd_id (tracking_details e))),
           with_tracking_details (tracking_details e ++ [r'])%list e)
        /\ entry_vals r' = entry_vals v
  | Raise ex =>
      LoanTrackingDetail.create v e = (Raise ex, e)
      /\ exists msg, ex = ValidationError msg
  end.
Proof.
  intros Hs. rewrite (create_row v e Hs). cbv zeta.
  set (i := fresh_id (map ltd_id (tracking_details e))).
  rewrite <- (check_tracking_with_id (product_product e) i v).
  destruct (LoanTrackingDetail._check_tracking_consistency _ (with_id i v))
    as [[[]|ex] r1] eqn:Hc; simpl.
  - eexists. split; [reflexivity|].
    unfold LoanTrackingDetail.recompute. simpl. by destruct v.
  - split; [done|].
    destruct (check_tracking_raises (product_product e) (with_id i v))
      as [msg Hm]; [by rewrite Hc|].
    rewrite Hc in Hm. injection Hm as -> _. by eexists.
Qed.

Lemma create_all_active vs e :
  Forall (fun v => ltd_status v = active) vs ->
  match for_each vs (fun vals =>
          let* _ := LoanTrackingDetail.create vals in ret tt) e
  with
  | (Ok _, e') =>
      Forall (fun v =>
                succeeded
                  (LoanTrackingDetail._check_tracking_consistency
                     (product_product e) v) = true) vs
      /\ exists new,
           e' = with_tracking_details (tracking_details e ++ new)%list e
           /\ map entry_vals new = map entry_vals vs
  | (Raise ex, _) =>
      (exists msg, ex = ValidationError msg)
      /\ Exists (fun v =>
                   succeeded
                     (LoanTrackingDetail._check_tracking_consistency
                        (product_product e) v) = false) vs
  end.
Proof.
  revert e. induction vs as [|v vs IH]; intros e Hall.
  - simpl. split; [constructor|]. exists []. rewrite app_nil_r.
    split; [by destruct e|done].
  - apply Forall_cons in Hall as [Hv Hall].
    cbn [for_each]. rewrite !bind_run.
    pose proof (create_active v e Hv) as Hc.
    destruct (LoanTrackingDetail._check_tracking_consistency
                (product_product e) v) as [[[]|ex] r1] eqn:Hchk; simpl in Hc.
    + destruct Hc as (r' & -> & Hr'). cbv beta iota. unfold ret at 1.
      set (e1 := with_tracking_details (tracking_details e ++ [r'])%list e).
      specialize (IH e1 Hall).
      replace (product_product e1) with (product_product e) in IH
        by (by destruct e).
      destruct (for_each vs _ e1) as [[[]|ex] e2].
      * destruct IH as (Hok & new & -> & Hnew). split.
        -- constructor; [by rewrite Hchk|done].
        -- exists (r' :: new). split.
           ++ unfold e1. destruct e; simpl. unfold with_tracking_details.
              simpl. by rewrite <- app_assoc.
           ++ simpl. by rewrite Hr', Hnew.
      * destruct IH as [Hmsg Hex]. split; [done|]. by apply Exists_cons_tl.
    + destruct Hc as [-> Hmsg]. split; [done|].
      apply Exists_cons_hd. by rewrite Hchk.
Qed.

Lemma tracking_details_of_active self e :
  Forall (fun v => ltd_status v = active) (tracking_details_of self e).
Proof.
  unfold tracking_details_of. apply Forall_forall. intros v Hv.
  apply list_elem_of_In in Hv. apply in_flat_map in Hv as (move & _ & Hv).
  destruct (decide _).
  - apply in_flat_map in Hv as (ml & _ & Hv).
    destruct (ml_lot_id ml); [|done].
    destruct (Qlt_bool _ _); [|done]. by destruct Hv as [<-|[]].
  - cbv zeta in Hv. destruct (Qlt_bool _ _); [|done]. by destruct Hv as [<-|[]].
Qed.

Lemma tracking_details_of_checks self e v :
  v ∈ tracking_details_of self e ->
  succeeded
    (LoanTrackingDetail._check_tracking_consistency (product_product e) v)
  = negb (bool_decide
            (StockPicking.tracking_of e (ltd_product_id v) = lot)).
Proof.
  unfold tracking_details_of. intros Hv.
  apply list_elem_of_In in Hv. apply in_flat_map in Hv as (move & _ & Hv).
  unfold StockPicking.tracking_of in *.
  destruct (decide _) as [Hs|Hs].
  - apply in_flat_map in Hv as (ml & _ & Hv).
    destruct (ml_lot_id ml); [|done].
    destruct (Qlt_bool _ _); [|done]. destruct Hv as [<-|[]].
    unfold LoanTrackingDetail._check_tracking_consistency, bind, get. simpl.
    by rewrite Hs.
  - cbv zeta in Hv. destruct (Qlt_bool _ _); [|done]. destruct Hv as [<-|[]].
    unfold LoanTrackingDetail._check_tracking_consistency, bind, get. simpl.
    destruct (prod_tracking _); done.
Qed.

(** X17.  [_create_tracking_details] records the quantities done as
    active entries of the loan, in order, and refuses a product
    tracked by lots with a validation error: the values it builds for
    such a product carry no lot. *)
Theorem create_tracking_details_outcome self e :
  match _create_tracking_details self e with
  | (Ok _, e') =>
      Forall (fun v => StockPicking.tracking_of e (ltd_product_id v) <> lot)
        (tracking_details_of self e)
      /\ exists new,
           e' = with_tracking_details (tracking_details e ++ new)%list e
           /\ map entry_vals new = map entry_vals (tracking_details_of self e)
  | (Raise ex, _) =>
      (exists msg, ex = ValidationError msg)
      /\ Exists (fun v => StockPicking.tracking_of e (ltd_product_id v) = lot)
           (tracking_details_of self e)
  end.
Proof.
  unfold _create_tracking_details. rewrite bind_run. unfold get at 1.
  cbv beta iota.
  pose proof (create_all_active (tracking_details_of self e) e
                (tracking_details_of_active self e)) as H.
  destruct (for_each _ _ e) as [[[]|ex] e'].
  - destruct H as [Hok Hnew]. split; [|done].
    apply Forall_forall. intros v Hv. rewrite Forall_forall in Hok.
    specialize (Hok v Hv). rewrite (tracking_details_of_checks self e v Hv) in Hok.
    apply negb_true_iff, bool_decide_eq_false in Hok. done.
  - destruct H as [Hmsg Hex]. split; [done|].
    apply Exists_exists in Hex as (v & Hv & Hc). apply Exists_exists.
    exists v. split; [done|].
    rewrite (tracking_details_of_checks self e v Hv) in Hc.
    by apply negb_false_iff, bool_decide_eq_true in Hc.
Qed.

End Creation.

Section Partners.
Import ResPartner.

Lemma mapped_partner_ids_acc acc records i :
  i ∈ foldl (fun acc p =>
               match loaned_to_partner_id p with
               | Some i => if bool_decide (i ∈ acc) then acc
                           else (acc ++ [i])%list
               | None => acc
               end) acc records
  <-> i ∈ acc \/ exists p, p ∈ records /\ loaned_to_partner_id p = Some i.
Proof.
  revert acc. induction records as [|x records IH]; intros acc; simpl.
  - split; [by left|]. intros [H|(p & Hp & _)]; [done|].
    by apply elem_of_nil in Hp.
  - rewrite IH. split.
    + intros [H|(p & Hp & Hi)].
      * destruct (loaned_to_partner_id x) as [j|] eqn:Hj; [|by left].
        destruct (bool_decide (j ∈ acc)); [by left|].
        apply elem_of_app in H as [H|H]; [by left|].
        apply list_elem_of_singleton in H as ->. right. exists x.
        split; [apply elem_of_cons; by left|done].
      * right. exists p. split; [apply elem_of_cons; by right|done].
    + intros [H|(p & Hp & Hi)].
      * left. destruct (loaned_to_partner_id x) as [j|]; [|done].
        destruct (bool_decide (j ∈ acc)); [done|].
        apply elem_of_app. by left.
      * apply elem_of_cons in Hp as [->|Hp].
        -- left. rewrite Hi. destruct (bool_decide (i ∈ acc)) eqn:E.
           ++ by apply bool_decide_eq_true in E.
           ++ apply elem_of_app. right. by apply list_elem_of_singleton.
        -- right. by exists p.
Qed.

Lemma mapped_partner_ids_spec records i :
  i ∈ mapped_partner_ids records
  <-> exists p, p ∈ records /\ loaned_to_partner_id p = Some i.
Proof.
  unfold mapped_partner_ids. rewrite mapped_partner_ids_acc.
  split; [|by right]. intros [H|H]; [|done]. by apply elem_of_nil in H.
Qed.

Lemma filter_positive {A} (f : A -> bool) (l : list A) :
  (0 < length (filter f l))%nat <-> exists x, x ∈ l /\ f x = true.
Proof.
  split.
  - destruct (filter f l) as [|x l'] eqn:E; simpl; [lia|]. intros _.
    assert (x ∈ filter f l) as H by (rewrite E; apply elem_of_cons; by left).
    apply list_elem_of_filter in H as [H1 H2]. exists x. split; [done|].
    by destruct (f x).
  - intros (x & Hx & Hf).
    assert (x ∈ filter f l) as H.
    { apply list_elem_of_filter. split; [by rewrite Hf|done]. }
    destruct (filter f l); [by apply elem_of_nil in H|simpl; lia].
Qed.

(** The partners that [mapped] finds among the loans that satisfy [f]
    are those with at least one such loan. *)
Lemma with_loans_spec (f : stock_picking -> bool) e i :
  i ∈ mapped_partner_ids (filter (fun p => is_loan p && f p) (pickings e))
  <-> (0 < length (filter f (loans_of i e)))%nat.
Proof.
  rewrite mapped_partner_ids_spec, filter_positive. unfold loans_of. split.
  - intros (p & Hp & Hi). apply list_elem_of_filter in Hp as [Hf Hp].
    apply Is_true_true, andb_true_iff in Hf as [Hl Hf].
    exists p. split; [|done]. apply list_elem_of_filter. split; [|done].
    rewrite Hl, bool_decide_eq_true_2 by done. done.
  - intros (p & Hp & Hf). apply list_elem_of_filter in Hp as [Hl Hp].
    apply Is_true_true, andb_true_iff in Hl as [Hi Hl].
    apply bool_decide_eq_true in Hi.
    exists p. split; [|done]. apply list_elem_of_filter. split; [|done].
    by rewrite Hl, Hf.
Qed.

Lemma matching_partners_spec stat operator value ids L :
  matching_partners stat operator value ids = Some L ->
  forall p, p ∈ L <->
    p ∈ ids
    /\ _apply_search_operator (Z.of_nat (stat p)) operator value = Some true.
Proof.
  revert L. induction ids as [|x ids IH]; intros L; simpl.
  - intros [= <-] p. split; [|by intros [? _]].
    intros H. by apply elem_of_nil in H.
  - destruct (_apply_search_operator _ operator value) as [b|] eqn:Hb;
      [|done]. simpl.
    destruct (matching_partners stat operator value ids) as [L'|]; [|done].
    simpl. intros [= <-] p. specialize (IH L' eq_refl p).
    destruct b.
    + rewrite !elem_of_cons, IH. split.
      * intros [->|[? ?]]; [by split; [left|]|]. split; [by right|done].
      * intros [[->|?] ?]; [by left|]. by right.
    + rewrite IH, elem_of_cons. split; [intros [? ?]; split; [by right|done]|].
      intros [[->|?] ?]; [congruence|done].
Qed.

Lemma apply_gt_zero n :
  _apply_search_operator (Z.of_nat n) ">" (VInt 0) = Some true
  <-> (0 < n)%nat.
Proof.
  unfold _apply_search_operator. simpl. split.
  - intros [= H]. apply Z.ltb_lt in H. lia.
  - intros H. f_equal. apply Z.ltb_lt. lia.
Qed.

Lemma apply_eq_zero n value :
  is_zero value = true ->
  _apply_search_operator (Z.of_nat n) "=" value = Some true <-> n = 0%nat.
Proof.
  destruct value as [z|l]; [|done]. simpl. intros Hz.
  apply Z.eqb_eq in Hz as ->. unfold _apply_search_operator. simpl. split.
  - intros [= H]. apply Z.eqb_eq in H. lia.
  - intros ->. done.
Qed.

(** The three branches of a search on a counter, once the partners
    [with_ids] are known to be those with a positive counter. *)
Lemma search_count_finds stat operator value all_partners with_ids L :
  (forall p, p ∈ with_ids <-> (0 < stat p)%nat) ->
  (if bool_decide (operator = ">") && is_zero value then Some with_ids
   else if bool_decide (operator = "=") && is_zero value then
     Some (filter (fun p => negb (bool_decide (p ∈ with_ids))) all_partners)
   else matching_partners stat operator value with_ids) = Some L ->
  forall p, p ∈ L <-> finds stat operator value all_partners p.
Proof.
  intros Hwith HL p. unfold finds.
  destruct (decide (operator = ">")) as [->|Hgt].
  - simpl in *. destruct (is_zero value) eqn:Hz.
    + simpl in HL. injection HL as <-.
      destruct value as [z|?]; [|done]. apply Z.eqb_eq in Hz as ->.
      rewrite apply_gt_zero, Hwith. tauto.
    + simpl in HL. rewrite (matching_partners_spec _ _ _ _ _ HL), Hwith. tauto.
  - rewrite (bool_decide_eq_false_2 (operator = ">")) in HL by done.
    simpl in HL.
    destruct (decide (operator = "=")) as [->|Heq].
    + simpl in *. destruct (is_zero value) eqn:Hz; simpl in *.
      * injection HL as <-. rewrite (apply_eq_zero _ _ Hz).
        rewrite list_elem_of_filter. rewrite Is_true_true, negb_true_iff.
        rewrite bool_decide_eq_false, Hwith. split.
        -- intros [? ?]. split; [lia|done].
        -- intros [-> ?]. split; [lia|done].
      * rewrite (matching_partners_spec _ _ _ _ _ HL), Hwith. tauto.
    + rewrite (bool_decide_eq_false_2 (operator = "=")) in * by done.
      simpl in *.
      rewrite (matching_partners_spec _ _ _ _ _ HL), Hwith. tauto.
Qed.

(** X18.  The counters of a partner: the active and the overdue loans
    are among its loans, and the partner has active loans exactly when
    one of its loans is in an active state. *)
Theorem loan_stats_bounds partner e :
  let st := _compute_loan_stats partner e in
  (active_loans_count st <= loan_count st)%nat
  /\ (overdue_loans_count st <= loan_count st)%nat
  /\ (_compute_has_active_loans partner e = true <->
      exists p, p ∈ pickings e /\ loaned_to_partner_id p = Some partner
                /\ active_loan p = true).
Proof.
  cbv zeta. unfold _compute_has_active_loans, _compute_loan_stats. simpl.
  split_and!; [apply length_filter|apply length_filter|].
  rewrite Nat.ltb_lt, filter_positive. unfold loans_of, active_loan. split.
  - intros (p & Hp & Hf). apply list_elem_of_filter in Hp as [Hl Hp].
    apply Is_true_true, andb_true_iff in Hl as [Hi Hl].
    apply bool_decide_eq_true in Hi. exists p. by rewrite Hl, Hf.
  - intros (p & Hp & Hi & Hf). apply andb_true_iff in Hf as [Hl Hf].
    exists p. split; [|done]. apply list_elem_of_filter. split; [|done].
    rewrite Hl, bool_decide_eq_true_2 by done. done.
Qed.

(** X19.  A search on [loan_count], [active_loans_count] or
    [overdue_loans_count] returns the partners whose counter matches
    the operator and the value, but never a partner whose counter is
    0, unless the search is [('=', 0)]. *)
Theorem search_counts_find operator value all_partners e :
  (forall L, _search_loan_count operator value all_partners e = Some L ->
     forall p, p ∈ L <->
       finds (fun p => loan_count (_compute_loan_stats p e))
         operator value all_partners p)
  /\ (forall L,
        _search_active_loans_count operator value all_partners e = Some L ->
        forall p, p ∈ L <->
          finds (fun p => active_loans_count (_compute_loan_stats p e))
            operator value all_partners p)
  /\ (forall L,
        _search_overdue_loans_count operator value all_partners e = Some L ->
        forall p, p ∈ L <->
          finds (fun p => overdue_loans_count (_compute_loan_stats p e))
            operator value all_partners p).
Proof.
  split_and!; intros L HL; eapply search_count_finds; try exact HL;
    intros p; simpl.
  - assert (Hf : forall l : list stock_picking, filter (fun _ => true) l = l).
    { induction l as [|x l IH]; [done|]. by rewrite filter_cons_True, IH. }
    assert (Hg : filter (fun p => is_loan p && true) (pickings e)
                 = filter is_loan (pickings e)).
    { apply list_filter_iff. intros x. by rewrite andb_true_r. }
    rewrite <- Hg, (with_loans_spec (fun _ => true) e p), Hf. done.
  - apply (with_loans_spec
             (fun p => StockPicking.in_active_family (sp_loan_state p))).
  - apply (with_loans_spec sp_is_overdue).
Qed.

(** X20.  A search on [has_active_loans] with [=] or [!=] returns the
    partners whose flag is the one asked for; those without an active
    loan are looked for among all partners. *)
Theorem search_has_active_loans_exact operator value all_partners e p :
  operator = "=" \/ operator = "!=" ->
  let wanted := if bool_decide (operator = "=") then value else negb value in
  p ∈ _search_has_active_loans operator value all_partners e
  <-> _compute_has_active_loans p e = wanted
      /\ (wanted = true \/ p ∈ all_partners).
Proof.
  intros Hop. cbv zeta.
  assert (Hwith : p ∈ mapped_partner_ids (filter active_loan (pickings e))
                  <-> _compute_has_active_loans p e = true).
  { unfold _compute_has_active_loans. simpl. rewrite Nat.ltb_lt.
    apply (with_loans_spec
             (fun p => StockPicking.in_active_family (sp_loan_state p))). }
  assert (Hwithout :
            p ∈ filter (fun p => negb (bool_decide
                          (p ∈ mapped_partner_ids
                                 (filter active_loan (pickings e)))))
                  all_partners
            <-> _compute_has_active_loans p e = false /\ p ∈ all_partners).
  { rewrite list_elem_of_filter, Is_true_true, negb_true_iff.
    rewrite bool_decide_eq_false, Hwith.
    by destruct (_compute_has_active_loans p e); intuition. }
  unfold _search_has_active_loans.
  destruct Hop as [-> | ->], value; simpl;
    rewrite ?Hwith, ?Hwithout; intuition; try done.
Qed.

End Partners.

Section Valuation.
Import LoanValuationTracker ValuationReport.















End Valuation.

Section Locations.
Import LoanLocations.

Lemma shared_location_found db parent loc :
  loans_stock_location db = Some parent ->
  head (filter (is_shared parent) (stock_locations db)) = Some loc ->
  _get_shared_temporary_location db = (Ok (loc_id loc), db).
Proof.
  intros Hp Hh. unfold _get_shared_temporary_location. rewrite bind_run.
  unfold get at 1. cbv beta iota. by rewrite Hp, Hh.
Qed.

(** X23.  The shared location is got or created: a call that returns
    gives a location of that name under the stock of the loans
    warehouse, creates one only when there was none, and a second call
    gives the same location and creates nothing; without a loans
    warehouse the call raises and changes nothing. *)
Theorem shared_location_get_or_create db :
  match _get_shared_temporary_location db with
  | (Ok l, db') =>
      _get_shared_temporary_location db' = (Ok l, db')
      /\ (exists loc, loc ∈ stock_locations db' /\ loc_id loc = l
                      /\ loc_name loc = "Préstamos Temporales"
                      /\ Some (loc_location_id loc) = loans_stock_location db')
      /\ (db' = db
          \/ exists parent,
               loans_stock_location db = Some parent
               /\ filter (is_shared parent) (stock_locations db) = []
               /\ length (stock_locations db')
                  = S (length (stock_locations db)))
  | (Raise ex, db') => db' = db /\ loans_stock_location db = None
  end.
Proof.
  unfold _get_shared_temporary_location. rewrite bind_run.
  unfold get at 1. cbv beta iota.
  destruct (loans_stock_location db) as [parent|] eqn:Hp; [|done].
  destruct (filter (is_shared parent) (stock_locations db)) as [|loc l] eqn:Hf.
  - simpl. split_and!.
    + set (loc := {| loc_id := fresh_id (map loc_id (stock_locations db));
                     loc_name := "Préstamos Temporales";
                     loc_location_id := parent; loc_partner_id := None |}).
      apply (shared_location_found (with_location loc db) parent loc);
        [done|].
      simpl. rewrite filter_app, Hf. simpl.
      rewrite filter_cons_True; [done|].
      unfold is_shared. simpl. rewrite !bool_decide_eq_true_2 by done.
      exact I.
    + eexists. split; [apply elem_of_app; right; apply elem_of_cons; by left|].
      simpl. by rewrite Hp.
    + right. exists parent. split_and!; try done.
      simpl. rewrite length_app. simpl. lia.
  - simpl. split_and!;
      [by apply (shared_location_found db parent loc); [|rewrite Hf]
      | |by left].
    assert (loc ∈ filter (is_shared parent) (stock_locations db)) as Hin.
    { rewrite Hf. apply elem_of_cons. by left. }
    apply list_elem_of_filter in Hin as [Hs Hin].
    apply Is_true_true, andb_true_iff in Hs as [H1 H2].
    apply bool_decide_eq_true in H1, H2.
    exists loc. split_and!; try done. by rewrite H2.
Qed.

Lemma dedicated_location_found self name db l :
  dedicated_loan_location_id db !! self = Some l ->
  _get_or_create_dedicated_location self name db = (Ok l, db).
Proof.
  intros Hd. unfold _get_or_create_dedicated_location. rewrite bind_run.
  unfold get at 1. cbv beta iota. by rewrite Hd.
Qed.

(** X24.  A partner gets one dedicated location, its own: the call
    records it, a second call returns it, the locations of other
    partners are untouched, and no two partners share one. *)
Theorem dedicated_location_get_or_create self name db :
  dedicated_ok db ->
  match _get_or_create_dedicated_location self name db with
  | (Ok l, db') =>
      dedicated_ok db'
      /\ dedicated_loan_location_id db' !! self = Some l
      /\ _get_or_create_dedicated_location self name db' = (Ok l, db')
      /\ (forall q, q <> self ->
            dedicated_loan_location_id db' !! q
            = dedicated_loan_location_id db !! q)
  | (Raise ex, db') =>
      db' = db /\ loans_stock_location db = None
      /\ dedicated_loan_location_id db !! self = None
  end.
Proof.
  intros [Hin Hinj].
  destruct (dedicated_loan_location_id db !! self) as [l|] eqn:Hd.
  - rewrite (dedicated_location_found self name db l Hd).
    split_and!; [by split|done|by apply dedicated_location_found|done].
  - unfold _get_or_create_dedicated_location. rewrite bind_run.
    unfold get at 1. cbv beta iota. rewrite Hd.
    destruct (loans_stock_location db) as [parent|] eqn:Hp; [|done].
    simpl. split_and!.
    + split.
      * intros p l. simpl. rewrite map_app. simpl.
        destruct (decide (p = self)) as [->|Hne].
        -- rewrite lookup_insert_eq. intros [= <-].
           apply elem_of_app. right. apply elem_of_cons. by left.
        -- rewrite lookup_insert_ne by done. intros H.
           apply elem_of_app. left. by eapply Hin.
      * intros p q l. simpl.
        destruct (decide (p = self)) as [->|Hp'],
                 (decide (q = self)) as [->|Hq'];
          rewrite ?lookup_insert_eq, ?lookup_insert_ne by done; try done.
        -- intros [= <-] H. apply Hin in H.
           by apply fresh_id_fresh in H.
        -- intros H [= <-]. apply Hin in H.
           by apply fresh_id_fresh in H.
        -- apply Hinj.
    + by rewrite lookup_insert_eq.
    + apply dedicated_location_found. simpl. by rewrite lookup_insert_eq.
    + intros q Hq. simpl. by rewrite lookup_insert_ne.
Qed.

End Locations.

Import Scenario Examples.

(** X1, witness: the three widgets once marked for return. *)
Lemma write_keeps_resolution_consistent_witness :
  resolution_consistent pending_widgets.
Proof.
  apply (write_keeps_resolution_consistent catalogue 100
           [Set_status pending_resolution; Set_notes "Marcado para devolución"]
           three_widgets pending_widgets);
    [left; reflexivity | reflexivity].
Defined.

(** X4, witness: the three widgets sold at time 100, at time 200. *)
Lemma no_unresolving_by_actions_witness :
  let sold_widgets :=
    (LoanTrackingDetail.action_mark_as_sold catalogue 100
       (Some widget_sale_line) None three_widgets).2 in
  LoanTrackingDetail.action_mark_as_sold catalogue 200
    (Some widget_sale_line) None sold_widgets
  = (Raise (UserError
              "Solo los préstamos activos pueden marcarse como vendidos."),
     sold_widgets)
  /\ LoanTrackingDetail.action_mark_as_returned catalogue 200 (Some 2%nat)
       "good" None sold_widgets
     = (Raise (UserError
                 "Solo los préstamos activos pueden marcarse como devueltos."),
        sold_widgets).
Proof.
  cbv zeta.
  apply (no_unresolving_by_actions catalogue 100 catalogue 200
           (LoanTrackingDetail.action_mark_as_sold catalogue 100
              (Some widget_sale_line) None)
           (Some widget_sale_line) None (Some 2%nat) "good" None three_widgets);
    [left; eexists _, _; reflexivity | reflexivity].
Defined.

(** X3, witness: the three widgets sold on day 10. *)
Lemma resolved_entry_not_overdue_witness :
  let sold_widgets :=
    (LoanTrackingDetail.action_mark_as_sold catalogue 864000
       (Some widget_sale_line) None three_widgets).2 in
  ltd_is_overdue sold_widgets = false
  /\ ltd_resolution_date sold_widgets = Some 864000
  /\ ltd_days_in_loan sold_widgets = (864000 - ltd_loan_date three_widgets) / 86400.
Proof.
  cbv zeta.
  apply (resolved_entry_not_overdue catalogue 864000
           (LoanTrackingDetail.action_mark_as_sold catalogue 864000
              (Some widget_sale_line) None) three_widgets);
    [left; eexists _, _; reflexivity | reflexivity].
Defined.

(** X9, witness: buying the three widgets at 150. *)
Lemma create_sale_order_bills_lines_witness :
  exists order_line,
    (LoanResolutionWizard._create_sale_order buy_all
       (LoanResolutionWizard.resolution_line_ids buy_all)
       (loan_of_three in_trial false)).1 = Ok order_line
    /\ Forall (fun l => billed l order_line)
         (LoanResolutionWizard.resolution_line_ids buy_all)
    /\ (length order_line <= 1)%nat.
Proof.
  eexists. split; [vm_compute; reflexivity|].
  destruct (create_sale_order_bills_lines buy_all
              (LoanResolutionWizard.resolution_line_ids buy_all)
              (loan_of_three in_trial false) _ _ eq_refl)
    as (_ & Hb & Hl & _).
  split; [exact Hb|exact Hl].
Defined.

(** X10, witness: buying the three widgets of a loan in its trial
    period goes through. *)
Lemma resolution_succeeds_along_table_witness :
  succeeded
    (LoanResolutionWizard.action_process_resolution buy_all
       (loan_of_three in_trial false)) = true
  /\ resolvable buy_all
  /\ spec_transition in_trial (resolution_target buy_all) = true.
Proof.
  pose proof (resolution_succeeds_along_table buy_all in_trial
                (loan_of_three in_trial false)
                (ex_intro _ (loan_transfer in_trial false)
                   (conj eq_refl (conj eq_refl eq_refl)))) as H.
  assert (E : succeeded
                (LoanResolutionWizard.action_process_resolution buy_all
                   (loan_of_three in_trial false)) = true)
    by (vm_compute; reflexivity).
  split; [exact E|].
  destruct (LoanResolutionWizard.action_process_resolution buy_all
              (loan_of_three in_trial false)) as [[r|ex] e'];
    [exact H|discriminate E].
Defined.

(** X15, witness: the same resolution, opened from the button. *)
Lemma resolve_admitted_loan_outcome_witness :
  sp_loan_state (loan_transfer in_trial false) = Some in_trial
  /\ LoanResolutionWizard.has_continued_loans buy_all = false.
Proof.
  eapply (resolve_admitted_loan_outcome (loan_transfer in_trial false) _
            buy_all (loan_of_three in_trial false));
    [reflexivity | reflexivity | reflexivity | vm_compute; reflexivity].
Defined.

(** X16, witness: the wizard of the active loan 1, opened by its button. *)
Lemma wizard_opened_by_button_refused_witness :
  LoanResolutionWizard.resolution_line_ids untouched_wizard = []
  /\ LoanResolutionWizard.action_process_resolution untouched_wizard
       (loan_of_three loan_active false)
     = (Raise (UserError "No hay productos para resolver."),
        loan_of_three loan_active false).
Proof.
  eapply (wizard_opened_by_button_refused (loan_transfer loan_active false) _
            untouched_wizard (loan_of_three loan_active false));
    reflexivity.
Defined.


(** X14, witness: the return of two of the three widgets, which splits
    the entry. *)
Lemma button_validate_keeps_entries_witness :
  exists new,
    ledger_keys (StockPicking.button_validate 2 partial_return_pending).2
    = (ledger_keys partial_return_pending ++ new)%list
    /\ Forall (fun k' =>
                 exists k, k ∈ ledger_keys partial_return_pending
                           /\ same_loan_product k k') new.
Proof.
  apply (button_validate_keeps_entries 2 partial_return_pending).
  vm_compute. reflexivity.
Defined.

(** X20, witness: partner 7 and its active loan. *)
Lemma search_has_active_loans_exact_witness :
  7%nat ∈ ResPartner._search_has_active_loans "=" true [7%nat; 8%nat]
            (loan_of_three loan_active false)
  <-> ResPartner._compute_has_active_loans 7 (loan_of_three loan_active false)
      = true
      /\ (true = true \/ 7%nat ∈ [7%nat; 8%nat]).
Proof.
  exact (search_has_active_loans_exact "=" true [7%nat; 8%nat]
           (loan_of_three loan_active false) 7 (or_introl eq_refl)).
Defined.

(** X24, witness: the first dedicated location of a database. *)
Lemma dedicated_location_get_or_create_witness :
  exists l db',
    LoanLocations._get_or_create_dedicated_location 7 "Ana" loans_db
    = (Ok l, db')
    /\ LoanLocations.dedicated_loan_location_id db' !! 7%nat = Some l
    /\ LoanLocations._get_or_create_dedicated_location 7 "Ana" db'
       = (Ok l, db').
Proof.
  assert (Hok : dedicated_ok loans_db).
  { split; [intros p l H|intros p q l H]; cbn in H;
      by rewrite lookup_empty in H. }
  pose proof (dedicated_location_get_or_create 7 "Ana" loans_db Hok) as H.
  destruct (LoanLocations._get_or_create_dedicated_location 7 "Ana" loans_db)
    as [[l|ex] db'] eqn:E.
  - exists l, db'. destruct H as (_ & Hd & Hagain & _). by split_and!.
  - destruct H as (_ & Hnone & _). discriminate Hnone.
Defined.

(** The return of 0.3 against entries of 0.2 and 0.1, consumed in that
    order: what is left after the first, 0.3 - 0.2, is the float
    0.09999999999999998, less than 0.1.  The second entry is split and
    keeps [2^-55] on loan, and the loan is left partially resolved. *)
Lemma decimal_return_splits_entry :
  let returned := StockPicking.button_validate 2 decimal_return_pending in
  returned.1 = Ok tt
  /\ map ltd_id
       (LoanTrackingDetail.search (StockPicking.active_of_product 1 1)
          decimal_return_pending)
     = [2%nat; 1%nat]
  /\ map (fun r => (ltd_id r, ltd_status r, ltd_quantity r))
       (tracking_details returned.2)
     = [ (1%nat, active, 1 # 36028797018963968);
         (2%nat, returned_good, 2 # 10);
         (3%nat, returned_good, 900719925474099 # 9007199254740992) ]
  /\ (sp_loan_state <$> StockPicking.browse returned.2 1)
     = Some (Some partially_resolved).
Proof. vm_compute. repeat split; reflexivity. Qed.

(** Lending moves the total impact of the report: with one row of
    costs 0.3 and 0.1 the impact is 0.1 - 0.3, the float
    -0.19999999999999998; once loan 1 has added its row, of cost 100 on
    both sides, it is 100.1 - 100.3, the float -0.20000000000000284. *)
Lemma valuation_impact_moves_with_new_loan :
  exists before after,
    ValuationReport.get_valuation_impact_report cheaper_world = Ok before
    /\ ValuationReport.get_valuation_impact_report
         (LoanValuationTracker.create_for_loan
            (loan_transfer loan_active false) cheaper_world).2
       = Ok after
    /\ ValuationReport.total_valuation_impact before
       = - 7205759403792793 # 36028797018963968
    /\ ValuationReport.total_valuation_impact after
       = - 14073748835533 # 70368744177664.
Proof.
  eexists _, _. split; [vm_compute; reflexivity|].
  split; [vm_compute; reflexivity|]. split; reflexivity.
Qed.
